(** * PILAR_CALCULADORA: two-stage pillar predictor and width optimizer

    A shallow embedding of [src/feature_engineering.py], [src/predictor.py]
    and [src/optimizer.py].

    Numbers are IEEE-754 binary64 values (Python [float], numpy [float64]),
    represented by Rocq's primitive [float]; the arithmetic of the embedding
    is therefore the arithmetic of the program, rounding included.  Integer
    inputs (the example records use Python [int]s) are taken at their
    binary64 value, which numpy's own promotion reaches as soon as a
    division or a float constant is involved; the int64 wrap-around of
    products of integers beyond 2^53 is outside the model.

    Python objects that can be mutated (dicts and DataFrames) live in a heap
    addressed by locations, and every function of the program is a
    computation over a world made of that heap and of the trace of model
    invocations.  Logging and printing are not modelled.

    The trained models are taken as given: a [PillarPredictor] answers for
    one row of the feature matrix at a time, so what a model says of a row
    depends on that row alone, as it does for the gradient-boosted trees of
    [src/model_trainer.py].  [np.arctan2] and the [argsort] behind
    [sort_values] are taken as given too.  All NaNs are one value: the
    primitive floats do not tell their payloads apart. *)

From Stdlib Require Import ZArith Floats Uint63 Permutation Sorted Lia.
From stdpp Require Import base gmap strings list fin_maps sorting.

(** ** Binary64 scalars as numpy sees them *)

Module Np.

Definition nan : float := PrimFloat.nan.
Definition inf : float := PrimFloat.infinity.

(** int64 to float64, round to nearest even (exact below 2^53). *)
Definition of_int (z : Z) : float :=
  if (z <? 0)%Z then PrimFloat.opp (PrimFloat.of_uint63 (Uint63.of_Z (- z)))
  else PrimFloat.of_uint63 (Uint63.of_Z z).

Definition isnan (x : float) : bool := negb (PrimFloat.eqb x x).

(** [np.maximum]: [(a >= b || isnan a) ? a : b], so a NaN on either side
    is propagated. *)
Definition maximum (a b : float) : float :=
  if PrimFloat.leb b a || isnan a then a else b.

(** [a != b] on floats: true as soon as one side is NaN. *)
Definition ne (a b : float) : bool := negb (PrimFloat.eqb a b).

(** [x ** 2] on a float64 array is numpy's squaring fast path. *)
Definition square (x : float) : float := PrimFloat.mul x x.

(** Elementwise operations on arrays of equal length, and broadcasting of
    a scalar. *)
Abbreviation vec := (list float).

Definition add (u v : vec) : vec := zip_with PrimFloat.add u v.
Definition sub (u v : vec) : vec := zip_with PrimFloat.sub u v.
Definition mul (u v : vec) : vec := zip_with PrimFloat.mul u v.
Definition div (u v : vec) : vec := zip_with PrimFloat.div u v.
Definition vmaximum (u v : vec) : vec := zip_with maximum u v.
Definition adds (u : vec) (c : float) : vec := (λ x, PrimFloat.add x c) <$> u.
Definition muls (u : vec) (c : float) : vec := (λ x, PrimFloat.mul x c) <$> u.
Definition smul (c : float) (u : vec) : vec := (λ x, PrimFloat.mul c x) <$> u.
Definition divs (u : vec) (c : float) : vec := (λ x, PrimFloat.div x c) <$> u.
Definition vabs (u : vec) : vec := PrimFloat.abs <$> u.
Definition vsqrt (u : vec) : vec := PrimFloat.sqrt <$> u.
Definition vsquare (u : vec) : vec := square <$> u.
Definition nes (u : vec) (c : float) : list bool := (λ x, ne x c) <$> u.

(** [np.where(cond, a, c)] with an array [a] and a scalar [c]. *)
Definition where_s (cond : list bool) (a : vec) (c : float) : vec :=
  zip_with (λ (b : bool) x, if b then x else c) cond a.

Definition zeros (n : nat) : vec := replicate n 0%float.

End Np.

(** ** Exceptions and the world *)

Inductive exn :=
| KeyError (key : string)
| IndexError
| TypeError
| ValueError.

Inductive result (A : Type) :=
| Ok (a : A)
| Raise (e : exn).
Arguments Ok {A} a.
Arguments Raise {A} e.

(** A DataFrame with float64 columns: the number of rows and the columns by
    name. *)
Record DataFrame := mkDF {
  nrows : nat;
  columns : gmap string Np.vec
}.

Abbreviation loc := nat (only parsing).

Inductive obj :=
| ODict (d : gmap string float)
| OFrame (df : DataFrame).

(** Which capability of which model was called, and on what matrix. *)
Inductive event :=
| ClassifierPredict (X : list (list float))
| ClassifierPredictProba (X : list (list float))
| RegressorPredict (X : list (list float)).

Record world := mkWorld {
  heap : gmap loc obj;
  trace : list event
}.

Definition M (A : Type) : Type := world → result A * world.

Definition run {A} (m : M A) (w : world) : result A * world := m w.

Definition ret {A} (a : A) : M A := λ w, (Ok a, w).

Definition bind {A B} (m : M A) (k : A → M B) : M B :=
  λ w, match m w with
       | (Ok a, w') => k a w'
       | (Raise e, w') => (Raise e, w')
       end.

Definition raise {A} (e : exn) : M A := λ w, (Raise e, w).

Definition lift {A} (r : result A) : M A := λ w, (r, w).

#[global] Instance M_ret : MRet M := @ret.
#[global] Instance M_bind : MBind M := λ A B k m, bind m k.

(** A location that no object occupies. *)
Definition fresh_loc (h : gmap loc obj) : loc := fresh (dom h).

Definition alloc (o : obj) : M loc :=
  λ w, let l := fresh_loc (heap w) in
       (Ok l, mkWorld (<[l := o]> (heap w)) (trace w)).

Definition read_frame (l : loc) : M DataFrame :=
  λ w, match heap w !! l with
       | Some (OFrame df) => (Ok df, w)
       | _ => (Raise TypeError, w)
       end.

Definition read_dict (l : loc) : M (gmap string float) :=
  λ w, match heap w !! l with
       | Some (ODict d) => (Ok d, w)
       | _ => (Raise TypeError, w)
       end.

Definition write (l : loc) (o : obj) : M unit :=
  λ w, (Ok tt, mkWorld (<[l := o]> (heap w)) (trace w)).

Definition emit (e : event) : M unit :=
  λ w, (Ok tt, mkWorld (heap w) (trace w ++ [e])).

(** ** pandas *)

Module Pd.

(** [df[key]] on a frame value. *)
Definition column (df : DataFrame) (key : string) : result Np.vec :=
  match columns df !! key with
  | Some c => Ok c
  | None => Raise (KeyError key)
  end.

(** [df[key] = v] on a frame value: the column is added or replaced. *)
Definition set_column (df : DataFrame) (key : string) (v : Np.vec) : DataFrame :=
  mkDF (nrows df) (<[key := v]> (columns df)).

(** [df[key].values]: the column as it is now. *)
Definition getitem (df : loc) (key : string) : M Np.vec :=
  d ← read_frame df; lift (column d key).

(** [df[key] = v]: the frame object at [df] is updated in place. *)
Definition setitem (df : loc) (key : string) (v : Np.vec) : M unit :=
  d ← read_frame df; write df (OFrame (set_column d key v)).

(** [df.copy()]: a new frame object with the same contents. *)
Definition copy (df : loc) : M loc :=
  d ← read_frame df; alloc (OFrame d).

(** The cell that [pd.DataFrame(records)] puts at a row for a column:
    the record's value, NaN when the record has no such key. *)
Definition cell (key : string) (r : gmap string float) : float :=
  default Np.nan (r !! key).

(** The frame value built by [pd.DataFrame(records)] from a list of dicts:
    one row per dict, one column per key that occurs in some dict. *)
Definition of_records (records : list (gmap string float)) : DataFrame :=
  mkDF (length records)
       (set_to_map (λ key, (key, (cell key) <$> records))
                   (⋃ (dom <$> records) : gset string)).

(** [pd.DataFrame(records)] on a list of dict objects. *)
Definition DataFrame_of (records : list loc) : M loc :=
  ds ← mapM read_dict records; alloc (OFrame (of_records ds)).

(** [df[keys]]: the listed columns, the first missing one raises. *)
Fixpoint select (df : DataFrame) (keys : list string) : result (list Np.vec) :=
  match keys with
  | [] => Ok []
  | k :: ks =>
      match column df k with
      | Raise e => Raise e
      | Ok c =>
          match select df ks with
          | Raise e => Raise e
          | Ok cs => Ok (c :: cs)
          end
      end
  end.

(** The rows of a selection, as a model receives them. *)
Definition rows (n : nat) (cols : list Np.vec) : list (list float) :=
  (λ i, (λ c : Np.vec, default Np.nan (c !! i)) <$> cols) <$> seq 0 n.

Definition getitems (df : loc) (keys : list string) : M (list (list float)) :=
  d ← read_frame df;
  cols ← lift (select d keys);
  mret (rows (nrows d) cols).

End Pd.

(** ** config.py *)

Definition FEATURE_COLUMNS : list string :=
  [ "fck"; "PeDireito"; "largura"; "Altura"; "Cobrimento";
    "N_top"; "Mx_top"; "My_top"; "N_base"; "Mx_base"; "My_base";
    "N_med"; "Mx_med"; "My_med";
    "dN"; "dMx"; "dMy";
    "nu"; "mu_x"; "mu_y"; "mu_total"; "lambda_x"; "lambda_y";
    "e_x"; "e_y";
    "ratio_M_x"; "ratio_M_y"; "index_2nd_order_x"; "index_2nd_order_y";
    "aspect_ratio"; "theta_moment" ]%string.

(** The columns of the dataset. *)
Definition REQUIRED_COLUMNS : list string :=
  [ "fck"; "PeDireito"; "largura"; "Altura"; "Cobrimento";
    "N_top"; "Mx_top"; "My_top"; "N_base"; "Mx_base"; "My_base"; "As" ]%string.

(** ** feature_engineering.py *)

(** The float literals of the source, written in hexadecimal so that the
    binary64 value is the one Python reads: 1.4, 3.46 and 1e-6. *)
Definition GAMMA_F : float := 0x1.6666666666666p+0%float.
Definition GAMMA_C : float := 0x1.6666666666666p+0%float.
Definition lambda_coef : float := 0x1.bae147ae147aep+1%float.
Definition eps : float := 0x1.0c6f7a0b5ed8dp-20%float.

Section Features.

(** [np.arctan2] is libm's; it is a parameter of the embedding. *)
Variable arctan2 : float → float → float.

(** [create_engineered_features(df)].  The [try ... except: log; raise]
    around the body re-raises what the body raises, which is what [bind]
    does. *)
Definition create_engineered_features (df : loc) : M loc :=
  df ← Pd.copy df;
  largura ← Pd.getitem df "largura";
  altura ← Pd.getitem df "Altura";
  pe_direito ← Pd.getitem df "PeDireito";
  fck ← Pd.getitem df "fck";
  N_top ← Pd.getitem df "N_top";
  N_base ← Pd.getitem df "N_base";
  Mx_top ← Pd.getitem df "Mx_top";
  Mx_base ← Pd.getitem df "Mx_base";
  My_top ← Pd.getitem df "My_top";
  My_base ← Pd.getitem df "My_base";
  Pd.setitem df "N_med" (Np.divs (Np.add N_top N_base) 2);;
  Pd.setitem df "Mx_med" (Np.divs (Np.add Mx_top Mx_base) 2);;
  Pd.setitem df "My_med" (Np.divs (Np.add My_top My_base) 2);;
  Pd.setitem df "dN" (Np.sub N_base N_top);;
  Pd.setitem df "dMx" (Np.sub Mx_base Mx_top);;
  Pd.setitem df "dMy" (Np.sub My_base My_top);;
  let N_max := Np.vmaximum (Np.vabs N_top) (Np.vabs N_base) in
  let Mx_max := Np.vmaximum (Np.vabs Mx_top) (Np.vabs Mx_base) in
  let My_max := Np.vmaximum (Np.vabs My_top) (Np.vabs My_base) in
  let fcd := Np.divs (Np.divs fck GAMMA_C) 10 in
  let Ac := Np.mul largura altura in
  Pd.setitem df "Ac" Ac;;
  let Nd := Np.muls N_max GAMMA_F in
  Pd.setitem df "nu" (Np.div Nd (Np.mul Ac fcd));;
  let Mxd := Np.muls (Np.muls Mx_max GAMMA_F) 100 in
  let Myd := Np.muls (Np.muls My_max GAMMA_F) 100 in
  Pd.setitem df "mu_x" (Np.div Mxd (Np.mul (Np.mul Ac altura) fcd));;
  Pd.setitem df "mu_y" (Np.div Myd (Np.mul (Np.mul Ac largura) fcd));;
  Pd.setitem df "lambda_x" (Np.div (Np.smul lambda_coef pe_direito) largura);;
  Pd.setitem df "lambda_y" (Np.div (Np.smul lambda_coef pe_direito) altura);;
  mu_x ← Pd.getitem df "mu_x";
  mu_y ← Pd.getitem df "mu_y";
  Pd.setitem df "mu_total" (Np.vsqrt (Np.add (Np.vsquare mu_x) (Np.vsquare mu_y)));;
  Pd.setitem df "e_x" (Np.where_s (Np.nes N_max 0) (Np.div Mx_max N_max) 0);;
  Pd.setitem df "e_y" (Np.where_s (Np.nes N_max 0) (Np.div My_max N_max) 0);;
  Mx_top' ← Pd.getitem df "Mx_top";
  Mx_base' ← Pd.getitem df "Mx_base";
  Pd.setitem df "ratio_M_x" (Np.div Mx_top' (Np.adds Mx_base' eps));;
  My_top' ← Pd.getitem df "My_top";
  My_base' ← Pd.getitem df "My_base";
  Pd.setitem df "ratio_M_y" (Np.div My_top' (Np.adds My_base' eps));;
  nu ← Pd.getitem df "nu";
  lambda_x ← Pd.getitem df "lambda_x";
  Pd.setitem df "index_2nd_order_x" (Np.mul nu (Np.vsquare lambda_x));;
  nu' ← Pd.getitem df "nu";
  lambda_y ← Pd.getitem df "lambda_y";
  Pd.setitem df "index_2nd_order_y" (Np.mul nu' (Np.vsquare lambda_y));;
  Pd.setitem df "aspect_ratio"
    (Np.vmaximum (Np.div altura largura) (Np.div largura altura));;
  mu_y' ← Pd.getitem df "mu_y";
  mu_x' ← Pd.getitem df "mu_x";
  Pd.setitem df "theta_moment" (zip_with arctan2 mu_y' mu_x');;
  mret df.

End Features.

(** [create_target_variable(df)]. *)
Definition create_target_variable (df : loc) : M loc :=
  df ← Pd.copy df;
  As_ ← Pd.getitem df "As";
  Ac ← Pd.getitem df "Ac";
  Pd.setitem df "rho" (Np.div As_ Ac);;
  mret df.

Section PrepareFeatures.

(** The text of the [KeyError] that [prepare_features] raises, an f-string
    over the set of the missing names; the order in which Python prints a
    set is left open. *)
Variable missing_message : gset string → string.

(** [prepare_features(df, feature_columns)].  [X] is given as its columns
    in order, each with its name, [y] as its values: both are copies. *)
Definition prepare_features (df : loc) (feature_columns : list string)
    : M (list (string * Np.vec) * Np.vec) :=
  let features_clean := filter (λ col, col ≠ "Ac"%string) feature_columns in
  d ← read_frame df;
  let missing : gset string := list_to_set features_clean ∖ dom (columns d) in
  if bool_decide (missing ≠ ∅) then raise (KeyError (missing_message missing))
  else
    X ← lift (Pd.select d features_clean);
    y ← lift (Pd.column d "rho");
    mret (zip features_clean X, y).

End PrepareFeatures.

(** ** utils.py *)

(** [validate_dataframe(df, required_columns)]; what it prints is left out. *)
Definition validate_dataframe (df : loc) (required_columns : list string) : M bool :=
  d ← read_frame df;
  let missing_columns : gset string := list_to_set required_columns ∖ dom (columns d) in
  if bool_decide (missing_columns ≠ ∅) then mret false else mret true.

(** ** predictor.py *)

(** The dict returned by [predict_single]; the keys that are set on one
    branch only are optional. *)
Module Single.
Record t := mk {
  status : string;
  feasibility_prob : float;
  Ac : float;
  As_actual : float;
  rho_predicted : float;
  As_predicted : float;
  message : option string;
  error : option float;
  error_pct : option float
}.
End Single.

(** The table returned by [predict_batch], column by column. *)
Module Batch.
Record t := mk {
  is_feasible : list Z;
  prob_feasible : Np.vec;
  rho_predicted : Np.vec;
  As_predicted : Np.vec;
  As_actual : Np.vec;
  Ac : Np.vec
}.
End Batch.

(** [a[0]]. *)
Definition first {A} (a : list A) : M A :=
  match a with
  | x :: _ => mret x
  | [] => raise IndexError
  end.

(** A [PillarPredictor] holds the two loaded models.  They are stateless and
    act on the feature matrix row by row: [clf_predict] gives the label of a
    row, [clf_predict_proba] its two class probabilities, [reg_predict] the
    steel ratio. *)
Record PillarPredictor := {
  clf_predict : list float → Z;
  clf_predict_proba : list float → float * float;
  reg_predict : list float → float
}.

Section Predictor.

Variable arctan2 : float → float → float.

Variable self : PillarPredictor.

Definition classifier_predict (X : list (list float)) : M (list Z) :=
  emit (ClassifierPredict X);; mret (clf_predict self <$> X).

Definition classifier_predict_proba (X : list (list float)) : M (list (float * float)) :=
  emit (ClassifierPredictProba X);; mret (clf_predict_proba self <$> X).

Definition regressor_predict (X : list (list float)) : M Np.vec :=
  emit (RegressorPredict X);; mret (reg_predict self <$> X).

Definition _process_pillar_data (df : loc) : M loc :=
  df_processed ← Pd.copy df;
  create_engineered_features arctan2 df_processed.

Definition predict_single (pillar_data : loc) : M Single.t :=
  df ← Pd.DataFrame_of [pillar_data];
  df_eng ← _process_pillar_data df;
  X ← Pd.getitems df_eng FEATURE_COLUMNS;
  Ac_values ← Pd.getitem df_eng "Ac";
  Ac ← first Ac_values;
  labels ← classifier_predict X;
  is_feasible ← first labels;
  probas ← classifier_predict_proba X;
  proba ← first probas;
  let prob_feasible := proba.2 in
  d ← read_dict pillar_data;
  let status := if (is_feasible =? 1)%Z then "Feasible"%string else "Infeasible"%string in
  let As_actual := default 0%float (d !! "As") in
  if (is_feasible =? 0)%Z then
    mret (Single.mk status prob_feasible Ac As_actual 0%float 0%float
            (Some "Pillar geometry/loads failed feasibility check."%string)
            None None)
  else
    rho_preds ← regressor_predict X;
    rho_pred ← first rho_preds;
    let As_pred := PrimFloat.mul rho_pred Ac in
    if PrimFloat.ltb 0 As_actual then
      let error := PrimFloat.sub As_pred As_actual in
      mret (Single.mk status prob_feasible Ac As_actual rho_pred As_pred None
              (Some error)
              (Some (PrimFloat.mul (PrimFloat.div error As_actual) 100)))
    else
      mret (Single.mk status prob_feasible Ac As_actual rho_pred As_pred None
              None None).

Definition predict_batch (pillars_data : list loc) : M Batch.t :=
  df ← Pd.DataFrame_of pillars_data;
  df_eng ← _process_pillar_data df;
  X ← Pd.getitems df_eng FEATURE_COLUMNS;
  Ac ← Pd.getitem df_eng "Ac";
  feasibility ← classifier_predict X;
  probas ← classifier_predict_proba X;
  let probs := snd <$> probas in
  rho_preds ← regressor_predict X;
  let As_preds := Np.mul rho_preds Ac in
  let feasible := (λ l : Z, (l =? 1)%Z) <$> feasibility in
  let final_As := Np.where_s feasible As_preds 0 in
  let final_rho := Np.where_s feasible rho_preds 0 in
  d ← read_frame df;
  let As_actual := default (Np.zeros (nrows d)) (columns d !! "As") in
  mret (Batch.mk feasibility probs final_rho final_As As_actual Ac).

End Predictor.

(** ** Python built-ins used by the optimizer *)

Module Py.

(** The values a [range] with a positive step yields from [cur] on. *)
Fixpoint range_up (fuel : nat) (cur stop step : Z) : list Z :=
  match fuel with
  | O => []
  | S fuel' =>
      if (cur <? stop)%Z then cur :: range_up fuel' (cur + step) stop step
      else []
  end.

(** The same with a negative step. *)
Fixpoint range_down (fuel : nat) (cur stop step : Z) : list Z :=
  match fuel with
  | O => []
  | S fuel' =>
      if (stop <? cur)%Z then cur :: range_down fuel' (cur + step) stop step
      else []
  end.

(** [range(start, stop, step)], as the list of the values it yields; the
    fuel is the distance to cover, which no step shorter than 1 exists to
    outlast. *)
Definition range (start stop step : Z) : result (list Z) :=
  if (step =? 0)%Z then Raise ValueError
  else if (0 <? step)%Z then
    Ok (range_up (Z.to_nat (stop - start)) start stop step)
  else
    Ok (range_down (Z.to_nat (start - stop)) start stop step).

(** [d[key]] on a dict value. *)
Definition getitem {V} (d : gmap string V) (key : string) : result V :=
  match d !! key with
  | Some v => Ok v
  | None => Raise (KeyError key)
  end.

(** [key in d], [d[key]] and [d[key] = v] on a dict object. *)
Definition contains (d : loc) (key : string) : M bool :=
  m ← read_dict d; mret (bool_decide (is_Some (m !! key))).

Definition dict_getitem (d : loc) (key : string) : M float :=
  m ← read_dict d; lift (getitem m key).

Definition dict_setitem (d : loc) (key : string) (v : float) : M unit :=
  m ← read_dict d; write d (ODict (<[key := v]> m)).

End Py.

(** ** optimizer.py *)

(** The table of the optimizer: the columns of [predict_batch] and the ones
    [find_optimal_width] adds. *)
Module Opt.
Record t := mk {
  is_feasible : list Z;
  prob_feasible : Np.vec;
  rho_predicted : Np.vec;
  As_predicted : Np.vec;
  As_actual : Np.vec;
  Ac : Np.vec;
  largura : Np.vec;
  Altura : Np.vec;
  custo_concreto : Np.vec;
  custo_aco : Np.vec;
  custo_total : Np.vec
}.

(** The rows at the positions [idx], in that order. *)
Definition take_col {A} (dflt : A) (idx : list nat) (c : list A) : list A :=
  (λ i, default dflt (c !! i)) <$> idx.

Definition take (idx : list nat) (df : t) : t :=
  mk (take_col 0%Z idx (is_feasible df))
     (take_col Np.nan idx (prob_feasible df))
     (take_col Np.nan idx (rho_predicted df))
     (take_col Np.nan idx (As_predicted df))
     (take_col Np.nan idx (As_actual df))
     (take_col Np.nan idx (Ac df))
     (take_col Np.nan idx (largura df))
     (take_col Np.nan idx (Altura df))
     (take_col Np.nan idx (custo_concreto df))
     (take_col Np.nan idx (custo_aco df))
     (take_col Np.nan idx (custo_total df)).
End Opt.

(** The steel weight of 1 cm2 over 1 m, 0.785 kg. *)
Definition steel_density : float := 0x1.91eb851eb851fp-1%float.

Section Optimizer.

Variable arctan2 : float → float → float.

(** The optimizer's predictor. *)
Variable predictor : PillarPredictor.

(** numpy's [argsort(kind='quicksort')] on a float64 array, the default
    that [sort_values] asks for: the positions of the array in some
    ascending order of its values. *)
Variable argsort : Np.vec → list nat.

(** pandas' [nargsort] with [na_position='last']: the values that are not
    NaN are sorted by [argsort], the positions of the NaNs follow in
    their original order. *)
Definition nargsort (items : Np.vec) : list nat :=
  let idx := seq 0 (length items) in
  let at_ i := default Np.nan (items !! i) in
  let mask i := Np.isnan (at_ i) = true in
  let non_nan_idx := filter (λ i, ¬ mask i) idx in
  let nan_idx := filter mask idx in
  let non_nans := at_ <$> non_nan_idx in
  ((λ j, default 0%nat (non_nan_idx !! j)) <$> argsort non_nans) ++ nan_idx.

(** [df.sort_values('custo_total').reset_index(drop=True)]. *)
Definition sort_values_custo_total (df : Opt.t) : Opt.t :=
  Opt.take (nargsort (Opt.custo_total df)) df.

(** One turn of the loop that builds the candidates. *)
Definition make_candidate (fixed_params loads : gmap string float) (b : Z) : M loc :=
  candidate ← alloc (ODict (loads ∪ fixed_params));
  Py.dict_setitem candidate "largura" (Np.of_int b);;
  has_altura ← Py.contains candidate "Altura";
  (if negb (has_altura : bool)
   then Py.dict_setitem candidate "Altura" (Np.of_int b)
   else mret tt);;
  Py.dict_setitem candidate "As" 0%float;;
  mret candidate.

Definition find_optimal_width
    (fixed_params loads : gmap string float)
    (constraints : gmap string Z)
    (costs : gmap string float) : M Opt.t :=
  min_largura ← lift (Py.getitem constraints "min_largura");
  max_largura ← lift (Py.getitem constraints "max_largura");
  step ← lift (Py.getitem constraints "step");
  larguras ← lift (Py.range min_largura (max_largura + 1)%Z step);
  candidates ← mapM (make_candidate fixed_params loads) larguras;
  df_results ← predict_batch arctan2 predictor candidates;
  largura ← mapM (λ c, Py.dict_getitem c "largura") candidates;
  altura ← mapM (λ c, Py.dict_getitem c "Altura") candidates;
  pe_direito ← lift (Py.getitem fixed_params "PeDireito");
  let vol_concreto :=
    Np.muls (Np.mul (Np.divs largura 100) (Np.divs altura 100))
            (PrimFloat.div pe_direito 100) in
  concreto_m3 ← lift (Py.getitem costs "concreto_m3");
  let cost_concreto := Np.muls vol_concreto concreto_m3 in
  let peso_aco :=
    Np.muls (Np.muls (Batch.As_predicted df_results) (PrimFloat.div pe_direito 100))
            steel_density in
  aco_kg ← lift (Py.getitem costs "aco_kg");
  let cost_aco := Np.muls peso_aco aco_kg in
  let custo_total := Np.add cost_concreto cost_aco in
  let mask_inviavel :=
    zip_with orb ((λ l : Z, (l =? 0)%Z) <$> Batch.is_feasible df_results)
                 ((λ p, PrimFloat.ltb p 0.5) <$> Batch.prob_feasible df_results) in
  let custo_total :=
    zip_with (λ (m : bool) c, if m then Np.inf else c) mask_inviavel custo_total in
  let df_results :=
    Opt.mk (Batch.is_feasible df_results) (Batch.prob_feasible df_results)
           (Batch.rho_predicted df_results) (Batch.As_predicted df_results)
           (Batch.As_actual df_results) (Batch.Ac df_results)
           largura altura cost_concreto cost_aco custo_total in
  mret (sort_values_custo_total df_results).

End Optimizer.

(** * Denotations

    What the code above computes, written as plain functions of its inputs,
    and the vocabulary of the statements below.  The facts that follow
    prove that running the code gives these values. *)

(** ** Binary64 *)

(** Neither an infinity nor a NaN. *)
Definition finite (x : float) : bool :=
  match Prim2SF x with S754_finite _ _ _ => true | _ => false end.

(** The numbers that are not below zero: NaN and both zeros included. *)
Definition not_neg (x : spec_float) : bool :=
  match x with
  | S754_infinity true | S754_finite true _ _ => false
  | _ => true
  end.

(** ** Results *)

#[global] Instance result_ret : MRet result := @Ok.
#[global] Instance result_bind : MBind result :=
  λ A B k r, match r with Ok a => k a | Raise e => Raise e end.

(** ** Feature engineering *)

Section FeatureDenotation.

Variable arctan2 : float → float → float.

(** The frame that [create_engineered_features] leaves at the location it
    returns, as a function of the frame it is given: [cef_run] below runs
    the program and finds it. *)
Definition engineered_frame (d : DataFrame) : result DataFrame :=
  largura ← Pd.column d "largura";
  altura ← Pd.column d "Altura";
  pe_direito ← Pd.column d "PeDireito";
  fck ← Pd.column d "fck";
  N_top ← Pd.column d "N_top";
  N_base ← Pd.column d "N_base";
  Mx_top ← Pd.column d "Mx_top";
  Mx_base ← Pd.column d "Mx_base";
  My_top ← Pd.column d "My_top";
  My_base ← Pd.column d "My_base";
  let N_max := Np.vmaximum (Np.vabs N_top) (Np.vabs N_base) in
  let Mx_max := Np.vmaximum (Np.vabs Mx_top) (Np.vabs Mx_base) in
  let My_max := Np.vmaximum (Np.vabs My_top) (Np.vabs My_base) in
  let fcd := Np.divs (Np.divs fck GAMMA_C) 10 in
  let Ac := Np.mul largura altura in
  let nu := Np.div (Np.muls N_max GAMMA_F) (Np.mul Ac fcd) in
  let mu_x := Np.div (Np.muls (Np.muls Mx_max GAMMA_F) 100)
                     (Np.mul (Np.mul Ac altura) fcd) in
  let mu_y := Np.div (Np.muls (Np.muls My_max GAMMA_F) 100)
                     (Np.mul (Np.mul Ac largura) fcd) in
  let lambda_x := Np.div (Np.smul lambda_coef pe_direito) largura in
  let lambda_y := Np.div (Np.smul lambda_coef pe_direito) altura in
  mret (mkDF (nrows d)
    (<["theta_moment" := zip_with arctan2 mu_y mu_x]>
    (<["aspect_ratio" := Np.vmaximum (Np.div altura largura) (Np.div largura altura)]>
    (<["index_2nd_order_y" := Np.mul nu (Np.vsquare lambda_y)]>
    (<["index_2nd_order_x" := Np.mul nu (Np.vsquare lambda_x)]>
    (<["ratio_M_y" := Np.div My_top (Np.adds My_base eps)]>
    (<["ratio_M_x" := Np.div Mx_top (Np.adds Mx_base eps)]>
    (<["e_y" := Np.where_s (Np.nes N_max 0) (Np.div My_max N_max) 0]>
    (<["e_x" := Np.where_s (Np.nes N_max 0) (Np.div Mx_max N_max) 0]>
    (<["mu_total" := Np.vsqrt (Np.add (Np.vsquare mu_x) (Np.vsquare mu_y))]>
    (<["lambda_y" := lambda_y]>
    (<["lambda_x" := lambda_x]>
    (<["mu_y" := mu_y]>
    (<["mu_x" := mu_x]>
    (<["nu" := nu]>
    (<["Ac" := Ac]>
    (<["dMy" := Np.sub My_base My_top]>
    (<["dMx" := Np.sub Mx_base Mx_top]>
    (<["dN" := Np.sub N_base N_top]>
    (<["My_med" := Np.divs (Np.add My_top My_base) 2]>
    (<["Mx_med" := Np.divs (Np.add Mx_top Mx_base) 2]>
    (<["N_med" := Np.divs (Np.add N_top N_base) 2]>
       (columns d))))))))))))))))))))))).

End FeatureDenotation.

(** The frame that [create_target_variable] leaves at the location it
    returns. *)
Definition target_frame (d : DataFrame) : result DataFrame :=
  As_ ← Pd.column d "As";
  Ac ← Pd.column d "Ac";
  mret (Pd.set_column d "rho" (Np.div As_ Ac)).

(** ** One row at a time *)

(** The cell of a frame at a column and a row. *)
Definition cell_at (d : DataFrame) (key : string) (i : nat) : option float :=
  c ← columns d !! key; c !! i.

(** The ten raw cells of a row that [create_engineered_features] reads. *)
Module Raw.
Record t := mk {
  largura : float; Altura : float; PeDireito : float; fck : float;
  N_top : float; N_base : float;
  Mx_top : float; Mx_base : float;
  My_top : float; My_base : float
}.
End Raw.

(** The raw cells of row [i] of a frame, when it has them all. *)
Definition raw_at (d : DataFrame) (i : nat) : option Raw.t :=
  largura ← cell_at d "largura" i;
  altura ← cell_at d "Altura" i;
  pe_direito ← cell_at d "PeDireito" i;
  fck ← cell_at d "fck" i;
  N_top ← cell_at d "N_top" i;
  N_base ← cell_at d "N_base" i;
  Mx_top ← cell_at d "Mx_top" i;
  Mx_base ← cell_at d "Mx_base" i;
  My_top ← cell_at d "My_top" i;
  My_base ← cell_at d "My_base" i;
  Some (Raw.mk largura altura pe_direito fck N_top N_base Mx_top Mx_base My_top My_base).

(** The names of the columns that [create_engineered_features] writes. *)
Definition ENGINEERED : list string :=
  [ "N_med"; "Mx_med"; "My_med"; "dN"; "dMx"; "dMy"; "Ac"; "nu"; "mu_x";
    "mu_y"; "lambda_x"; "lambda_y"; "mu_total"; "e_x"; "e_y"; "ratio_M_x";
    "ratio_M_y"; "index_2nd_order_x"; "index_2nd_order_y"; "aspect_ratio";
    "theta_moment" ]%string.

(** The names of the columns that it reads. *)
Definition RAW : list string :=
  [ "largura"; "Altura"; "PeDireito"; "fck"; "N_top"; "N_base"; "Mx_top";
    "Mx_base"; "My_top"; "My_base" ]%string.

Section RowDenotation.

Variable arctan2 : float → float → float.

Local Notation "x + y" := (PrimFloat.add x y) : float_scope.
Local Notation "x - y" := (PrimFloat.sub x y) : float_scope.
Local Notation "x * y" := (PrimFloat.mul x y) : float_scope.
Local Notation "x / y" := (PrimFloat.div x y) : float_scope.

(** What the vectorized code computes at one row, cell by cell. *)
Definition engineer (r : Raw.t) : list (string * float) :=
  let N_max := Np.maximum (PrimFloat.abs (Raw.N_top r)) (PrimFloat.abs (Raw.N_base r)) in
  let Mx_max := Np.maximum (PrimFloat.abs (Raw.Mx_top r)) (PrimFloat.abs (Raw.Mx_base r)) in
  let My_max := Np.maximum (PrimFloat.abs (Raw.My_top r)) (PrimFloat.abs (Raw.My_base r)) in
  let fcd := ((Raw.fck r / GAMMA_C) / 10)%float in
  let Ac := (Raw.largura r * Raw.Altura r)%float in
  let nu := ((N_max * GAMMA_F) / (Ac * fcd))%float in
  let mu_x := ((Mx_max * GAMMA_F * 100) / (Ac * Raw.Altura r * fcd))%float in
  let mu_y := ((My_max * GAMMA_F * 100) / (Ac * Raw.largura r * fcd))%float in
  let lambda_x := (lambda_coef * Raw.PeDireito r / Raw.largura r)%float in
  let lambda_y := (lambda_coef * Raw.PeDireito r / Raw.Altura r)%float in
  [ ("N_med", ((Raw.N_top r + Raw.N_base r) / 2)%float);
    ("Mx_med", ((Raw.Mx_top r + Raw.Mx_base r) / 2)%float);
    ("My_med", ((Raw.My_top r + Raw.My_base r) / 2)%float);
    ("dN", (Raw.N_base r - Raw.N_top r)%float);
    ("dMx", (Raw.Mx_base r - Raw.Mx_top r)%float);
    ("dMy", (Raw.My_base r - Raw.My_top r)%float);
    ("Ac", Ac);
    ("nu", nu);
    ("mu_x", mu_x);
    ("mu_y", mu_y);
    ("lambda_x", lambda_x);
    ("lambda_y", lambda_y);
    ("mu_total", PrimFloat.sqrt (Np.square mu_x + Np.square mu_y)%float);
    ("e_x", if Np.ne N_max 0 then (Mx_max / N_max)%float else 0%float);
    ("e_y", if Np.ne N_max 0 then (My_max / N_max)%float else 0%float);
    ("ratio_M_x", (Raw.Mx_top r / (Raw.Mx_base r + eps))%float);
    ("ratio_M_y", (Raw.My_top r / (Raw.My_base r + eps))%float);
    ("index_2nd_order_x", (nu * Np.square lambda_x)%float);
    ("index_2nd_order_y", (nu * Np.square lambda_y)%float);
    ("aspect_ratio",
      Np.maximum (Raw.Altura r / Raw.largura r)%float
                 (Raw.largura r / Raw.Altura r)%float);
    ("theta_moment", arctan2 mu_y mu_x) ]%string.

End RowDenotation.

(** ** Frames built from records *)

(** Some record of the list has the key: [pd.DataFrame] makes a column of
    it. *)
Definition has_column (records : list (gmap string float)) (key : string) : Prop :=
  Exists (λ r, is_Some (r !! key)) records.

#[global] Instance has_column_dec records key : Decision (has_column records key).
Proof. unfold has_column. apply _. Defined.

(** The dict objects at the locations [locs] hold the records [ds]. *)
Definition dicts_at (h : gmap loc obj) (locs : list loc) (ds : list (gmap string float)) : Prop :=
  Forall2 (λ l d, h !! l = Some (ODict d)) locs ds.

(** Every column of a frame has one cell per row. *)
Definition wf_frame (d : DataFrame) : Prop :=
  ∀ key c, columns d !! key = Some c → length c = nrows d.

(** ** The feature row of a record *)

(** The first value under a key in a list of pairs. *)
Fixpoint assoc (key : string) (l : list (string * float)) : option float :=
  match l with
  | [] => None
  | (k, v) :: l' => if String.eqb key k then Some v else assoc key l'
  end.

(** The keys [predict_single] and [predict_batch] need: the raw columns that
    the feature engineering reads, and the one more that the models are
    given. *)
Definition REQUIRED : list string := RAW ++ ["Cobrimento"%string].

(** The raw cells of the row that [pd.DataFrame] makes of a record: NaN
    where the record lacks the key. *)
Definition row_of_record (r : gmap string float) : Raw.t :=
  Raw.mk (Pd.cell "largura" r) (Pd.cell "Altura" r) (Pd.cell "PeDireito" r)
         (Pd.cell "fck" r) (Pd.cell "N_top" r) (Pd.cell "N_base" r)
         (Pd.cell "Mx_top" r) (Pd.cell "Mx_base" r)
         (Pd.cell "My_top" r) (Pd.cell "My_base" r).

Section FeatureRowDenotation.

Variable arctan2 : float → float → float.

(** The cell of a record's row in the engineered frame: the engineered value
    under an engineered name, the record's own cell under another. *)
Definition feature_cell (r : gmap string float) (key : string) : float :=
  default (Pd.cell key r) (assoc key (engineer arctan2 (row_of_record r))).

(** The row of the feature matrix that the models receive for a record. *)
Definition feature_row (r : gmap string float) : list float :=
  feature_cell r <$> FEATURE_COLUMNS.

End FeatureRowDenotation.

(** ** The predictor *)

(** The cross-section of a record, [largura * Altura]. *)
Definition area (r : gmap string float) : float :=
  PrimFloat.mul (Pd.cell "largura" r) (Pd.cell "Altura" r).

(** A record with every key that the predictor needs. *)
Definition valid_record (r : gmap string float) : Prop :=
  Forall (λ key, is_Some (r !! key)) REQUIRED.

Section PredictorDenotation.

Variable arctan2 : float → float → float.
Variable self : PillarPredictor.

(** The dict that [predict_single] returns for a record
    ([predict_single_run] below). *)
Definition single_result (r : gmap string float) : Single.t :=
  let x := feature_row arctan2 r in
  let is_feasible := clf_predict self x in
  let prob_feasible := (clf_predict_proba self x).2 in
  let status := if (is_feasible =? 1)%Z then "Feasible"%string else "Infeasible"%string in
  let As_actual := default 0%float (r !! "As") in
  if (is_feasible =? 0)%Z then
    Single.mk status prob_feasible (area r) As_actual 0%float 0%float
      (Some "Pillar geometry/loads failed feasibility check."%string) None None
  else
    let rho_pred := reg_predict self x in
    let As_pred := PrimFloat.mul rho_pred (area r) in
    if PrimFloat.ltb 0 As_actual then
      let error := PrimFloat.sub As_pred As_actual in
      Single.mk status prob_feasible (area r) As_actual rho_pred As_pred None
        (Some error) (Some (PrimFloat.mul (PrimFloat.div error As_actual) 100))
    else
      Single.mk status prob_feasible (area r) As_actual rho_pred As_pred None
        None None.

(** The model invocations of [predict_single] on a record. *)
Definition single_trace (r : gmap string float) : list event :=
  let X := [feature_row arctan2 r] in
  [ClassifierPredict X; ClassifierPredictProba X] ++
  (if (clf_predict self (feature_row arctan2 r) =? 0)%Z then [] else [RegressorPredict X]).

(** The table that [predict_batch] returns for a list of records
    ([predict_batch_run] below). *)
Definition batch_result (records : list (gmap string float)) : Batch.t :=
  let X := feature_row arctan2 <$> records in
  let feasibility := clf_predict self <$> X in
  let probs := snd <$> (clf_predict_proba self <$> X) in
  let rho_preds := reg_predict self <$> X in
  let Ac := area <$> records in
  let As_preds := Np.mul rho_preds Ac in
  let feasible := (λ l : Z, (l =? 1)%Z) <$> feasibility in
  Batch.mk feasibility probs
    (Np.where_s feasible rho_preds 0) (Np.where_s feasible As_preds 0)
    (default (Np.zeros (length records)) (columns (Pd.of_records records) !! "As"))
    Ac.

(** The model invocations of [predict_batch]. *)
Definition batch_trace (records : list (gmap string float)) : list event :=
  let X := feature_row arctan2 <$> records in
  [ClassifierPredict X; ClassifierPredictProba X; RegressorPredict X].

End PredictorDenotation.

(** ** Sorting *)

(** What numpy's [argsort] gives on an array without NaN, whatever the kind
    of sort: the positions of the array, each once, in an order in which
    the values ascend.  The default kind that [sort_values] asks for,
    quicksort, promises nothing about the order of equal values. *)
Definition argsort_spec (argsort : list float → list nat) : Prop :=
  ∀ v, Forall (λ x, Np.isnan x = false) v →
    argsort v ≡ₚ seq 0 (length v) ∧
    ∀ j k a b x y,
      j < k → argsort v !! j = Some a → argsort v !! k = Some b →
      v !! a = Some x → v !! b = Some y → PrimFloat.leb x y = true.

(** An argsort by merge sort of the (position, value) pairs under an order
    [R] of the pairs. *)
Definition argsort_by (R : relation (nat * float)) `{∀ p q, Decision (R p q)}
    (v : list float) : list nat :=
  (merge_sort R (zip (seq 0 (length v)) v)).*1.

(** Two orders of the pairs that agree on pairs of different values: the
    first leaves equal values as they come, the second puts the later
    position first. *)
Definition ties_kept : relation (nat * float) :=
  λ p q, PrimFloat.ltb q.2 p.2 = false.

Definition ties_swapped : relation (nat * float) :=
  λ p q, PrimFloat.ltb p.2 q.2 = true ∨ (PrimFloat.ltb q.2 p.2 = false ∧ q.1 ≤ p.1).

#[global] Instance ties_kept_dec : RelDecision ties_kept :=
  λ p q, decide (PrimFloat.ltb q.2 p.2 = false).

#[global] Instance ties_swapped_dec : RelDecision ties_swapped :=
  λ p q, decide (PrimFloat.ltb p.2 q.2 = true
                 ∨ (PrimFloat.ltb q.2 p.2 = false ∧ q.1 ≤ p.1)).

Definition argsort_ties_kept : list float → list nat := argsort_by ties_kept.
Definition argsort_ties_swapped : list float → list nat := argsort_by ties_swapped.

(** A column in ascending order with the NaNs last. *)
Definition ascending_nan_last (v : list float) : Prop :=
  ∀ j k a b, j < k → v !! j = Some a → v !! k = Some b →
    Np.isnan b = true ∨ (Np.isnan a = false ∧ PrimFloat.leb a b = true).

(** ** The optimizer *)

(** The dict that the loop of [find_optimal_width] builds for a width. *)
Definition candidate_of (fixed_params loads : gmap string float) (b : Z) : gmap string float :=
  let c := <["largura" := Np.of_int b]> (loads ∪ fixed_params) in
  let c := if bool_decide (is_Some (c !! "Altura")) then c
           else <["Altura" := Np.of_int b]> c in
  <["As" := 0%float]> c.

Section OptimizerDenotation.

Variable arctan2 : float → float → float.
Variable predictor : PillarPredictor.
Variable argsort : list float → list nat.
Variables fixed_params loads : gmap string float.
Variable constraints : gmap string Z.
Variable costs : gmap string float.

(** The table of [find_optimal_width] before it is sorted, for the
    candidates and the values read from [fixed_params] and [costs]. *)
Definition annotate (cands : list (gmap string float))
    (pe_direito concreto_m3 aco_kg : float) : Opt.t :=
  let df_results := batch_result arctan2 predictor cands in
  let largura := Pd.cell "largura" <$> cands in
  let altura := Pd.cell "Altura" <$> cands in
  let vol_concreto :=
    Np.muls (Np.mul (Np.divs largura 100) (Np.divs altura 100))
            (PrimFloat.div pe_direito 100) in
  let cost_concreto := Np.muls vol_concreto concreto_m3 in
  let peso_aco :=
    Np.muls (Np.muls (Batch.As_predicted df_results) (PrimFloat.div pe_direito 100))
            steel_density in
  let cost_aco := Np.muls peso_aco aco_kg in
  let custo_total := Np.add cost_concreto cost_aco in
  let mask_inviavel :=
    zip_with orb ((λ l : Z, (l =? 0)%Z) <$> Batch.is_feasible df_results)
                 ((λ p, PrimFloat.ltb p 0.5) <$> Batch.prob_feasible df_results) in
  let custo_total :=
    zip_with (λ (m : bool) c, if m then Np.inf else c) mask_inviavel custo_total in
  Opt.mk (Batch.is_feasible df_results) (Batch.prob_feasible df_results)
         (Batch.rho_predicted df_results) (Batch.As_predicted df_results)
         (Batch.As_actual df_results) (Batch.Ac df_results)
         largura altura cost_concreto cost_aco custo_total.

(** What follows [predict_batch] in [find_optimal_width]. *)
Definition after_batch (costs : gmap string float)
    (cands : list (gmap string float)) : result Opt.t :=
  pe_direito ← Py.getitem fixed_params "PeDireito";
  concreto_m3 ← Py.getitem costs "concreto_m3";
  aco_kg ← Py.getitem costs "aco_kg";
  mret (sort_values_custo_total argsort (annotate cands pe_direito concreto_m3 aco_kg)).

(** The grid of [find_optimal_width], when the constraints give one. *)
Definition grid_of : result (list Z) :=
  min_largura ← Py.getitem constraints "min_largura";
  max_largura ← Py.getitem constraints "max_largura";
  step ← Py.getitem constraints "step";
  Py.range min_largura (max_largura + 1)%Z step.

End OptimizerDenotation.

(** * Examples *)

(** Scenario A: the pillar of 30 cm by 95 cm of the examples of the
    repository. *)
Definition scenario_A : gmap string float :=
  list_to_map
    [ ("fck", 50); ("PeDireito", 235); ("largura", 30); ("Altura", 95);
      ("Cobrimento", 2.5);
      ("N_top", 392); ("Mx_top", 129); ("My_top", -92);
      ("N_base", 392); ("Mx_base", 205); ("My_base", 430) ]%float%string.

(** A world that holds the record of scenario A at location 0, and one that
    holds its frame. *)
Definition world_A : world := mkWorld {[ 0 := ODict scenario_A ]} [].
Definition world_frame_A : world :=
  mkWorld {[ 0 := OFrame (Pd.of_records [scenario_A]) ]} [].

(** The record of scenario A with one more key, named like an engineered
    column, and the world that holds its frame. *)
Definition scenario_A_with_Ac : gmap string float := <["Ac" := 1%float]> scenario_A.
Definition world_frame_A_with_Ac : world :=
  mkWorld {[ 0 := OFrame (Pd.of_records [scenario_A_with_Ac]) ]} [].

(** The record of scenario A without its axial loads. *)
Definition scenario_A_unloaded : gmap string float :=
  <["N_top" := 0%float]> (<["N_base" := 0%float]> scenario_A).

(** The record of scenario A with the larger axial load and the larger
    moment about x at the top, both of them negative there. *)
Definition scenario_A_top_heavy : gmap string float :=
  <["N_top" := (-500)%float]> (<["N_base" := 300%float]>
    (<["Mx_top" := (-250)%float]> scenario_A)).

(** The record of scenario A with another moment about x at the base. *)
Definition scenario_A_Mx_base (v : float) : gmap string float :=
  <["Mx_base" := v]> scenario_A.

(** A world that holds the frame of one record at location 0. *)
Definition world_frame_of (r : gmap string float) : world :=
  mkWorld {[ 0 := OFrame (Pd.of_records [r]) ]} [].

(** An [arctan2] for the examples, none of which looks at [theta_moment]. *)
Definition arctan2_example : float → float → float := λ _ _, 0%float.

(** A predictor for the examples: it finds feasible the sections at least
    30 cm wide (the width is the third feature), with probability 0.75, and
    gives them a steel ratio of 2^-7. *)
Definition example_predictor : PillarPredictor := {|
  clf_predict := λ x,
    match x with
    | _ :: _ :: largura :: _ => if PrimFloat.ltb largura 30 then 0%Z else 1%Z
    | _ => 0%Z
    end;
  clf_predict_proba := λ _, (0.25, 0.75)%float;
  reg_predict := λ _, 0.0078125%float
|}.

(** The record of scenario A, narrowed to 20 cm, and the world that holds
    it at location 0. *)
Definition scenario_A_narrow : gmap string float := <["largura" := 20%float]> scenario_A.
Definition world_A_narrow : world := mkWorld {[ 0 := ODict scenario_A_narrow ]} [].

(** A world with two records: the one of scenario A at location 0, and at
    location 1 the same without its width. *)
Definition world_two : world :=
  mkWorld {[ 0 := ODict scenario_A; 1 := ODict (delete "largura"%string scenario_A) ]} [].

(** Scenario C: the calibration run of the repository, widths from 20 cm to
    50 cm by 5 cm for the loads of scenario A under a height of 95 cm. *)
Definition fixed_C : gmap string float :=
  list_to_map [ ("fck", 50); ("PeDireito", 235); ("Altura", 95);
                ("Cobrimento", 2.5) ]%float%string.
Definition loads_C : gmap string float :=
  list_to_map [ ("N_top", 392); ("Mx_top", 129); ("My_top", -92);
                ("N_base", 392); ("Mx_base", 205); ("My_base", 430) ]%float%string.
Definition constraints_C : gmap string Z :=
  list_to_map [ ("min_largura", 20); ("max_largura", 50); ("step", 5) ]%Z%string.
Definition costs_C : gmap string float :=
  list_to_map [ ("aco_kg", 12); ("concreto_m3", 450) ]%float%string.
Definition world_empty : world := mkWorld ∅ [].

(** A predictor that finds every section feasible and whose regressor
    gives a negative steel ratio. *)
Definition negative_predictor : PillarPredictor := {|
  clf_predict := λ _, 1%Z;
  clf_predict_proba := λ _, (0.25, 0.75)%float;
  reg_predict := λ _, (-0.0078125)%float
|}.

(** The record of scenario A with the steel area of the dataset,
    20.1 cm2, and the world that holds its frame. *)
Definition scenario_A_with_As : gmap string float :=
  <["As" := 0x1.419999999999ap+4%float]> scenario_A.
Definition world_frame_A_with_As : world :=
  mkWorld {[ 0 := OFrame (Pd.of_records [scenario_A_with_As]) ]} [].

(** A frame of one row with a steel area and a cross-section, and one with
    a strength and a ratio. *)
Definition frame_As_Ac : DataFrame :=
  Pd.of_records [ {[ "As"%string := 0x1.419999999999ap+4%float;
                     "Ac"%string := 2850%float ]} ].
Definition frame_fck_rho : DataFrame :=
  Pd.of_records [ {[ "fck"%string := 50%float; "rho"%string := 0.0078125%float ]} ].

(** A text for the examples of [prepare_features]. *)
Definition missing_message_example : gset string → string :=
  λ _, "Missing columns in DataFrame"%string.

(** A world with the record of scenario A at location 0 and the same with
    its steel area at location 1. *)
Definition world_pair : world :=
  mkWorld {[ 0 := ODict scenario_A; 1 := ODict scenario_A_with_As ]} [].

(** A predictor whose classifier answers with the label 2. *)
Definition label_2_predictor : PillarPredictor := {|
  clf_predict := λ _, 2%Z;
  clf_predict_proba := λ _, (0.25, 0.75)%float;
  reg_predict := λ _, 0.0078125%float
|}.

(** The limits of scenario C with the two ends exchanged. *)
Definition constraints_exchanged : gmap string Z :=
  list_to_map [ ("min_largura", 50); ("max_largura", 20); ("step", 5) ]%Z%string.

(** * Facts *)

(** ** Binary64 facts, from the specification of the primitive operations *)

Module FloatFacts.

Lemma div_eucl_shiftl (m : positive) (s : Z) :
  (0 <= s)%Z → Z.div_eucl (Z.shiftl (Zpos m) s) (Zpos m) = (2 ^ s, 0)%Z.
Proof.
  intros Hs. rewrite Z.shiftl_mul_pow2 by done.
  pose proof (Z.div_eucl_eq (Z.pos m * 2 ^ s) (Z.pos m) ltac:(done)) as Heq.
  pose proof (Z.mod_pos_bound (Z.pos m * 2 ^ s) (Z.pos m) ltac:(done)) as Hb.
  unfold Z.modulo in Hb.
  destruct (Z.div_eucl (Z.pos m * 2 ^ s) (Z.pos m)) as [q r] eqn:E.
  assert (Hr : r = 0%Z).
  { pose proof (Z.mod_mul (2 ^ s) (Z.pos m) ltac:(done)) as Hm.
    rewrite Z.mul_comm in Hm. unfold Z.modulo in Hm. rewrite E in Hm. done. }
  subst r. f_equal. nia.
Qed.

Lemma new_location_zero (m : Z) : new_location m 0 = loc_Exact.
Proof. unfold new_location. by destruct (Z.even m). Qed.

Lemma SFdiv_self s m e :
  SF64div (S754_finite s m e) (S754_finite s m e) = Prim2SF 1%float.
Proof.
  unfold SF64div, SFdiv, SFdiv_core_binary.
  rewrite Z.sub_diag, Z.sub_diag.
  change (Z.min (fexp prec emax 0) 0) with (-53)%Z.
  change (0 - -53)%Z with 53%Z. cbv beta iota zeta.
  rewrite div_eucl_shiftl by done.
  rewrite new_location_zero.
  replace (xorb s s) with false by (by destruct s).
  by vm_compute.
Qed.

(** A finite number other than zero divided by itself is exactly 1. *)
Lemma div_self (x : float) : finite x = true → PrimFloat.div x x = 1%float.
Proof.
  unfold finite. intros Hx. apply Prim2SF_inj. rewrite FloatAxioms.div_spec.
  destruct (Prim2SF x) as [| | |s m e]; try done. apply SFdiv_self.
Qed.

Lemma finite_pos (x : float) :
  PrimFloat.ltb 0 x = true → PrimFloat.ltb x infinity = true → finite x = true.
Proof.
  rewrite !FloatAxioms.ltb_spec. unfold finite.
  change (Prim2SF 0) with (S754_zero false).
  change (Prim2SF infinity) with (S754_infinity false).
  destruct (Prim2SF x) as [| [] | |s m e]; done.
Qed.

(** *** Order *)

Ltac cmp_cases :=
  repeat match goal with
  | |- context [Z.compare ?a ?b] => destruct (Z.compare_spec a b)
  | |- context [Pos.compare ?a ?b] => destruct (Pos.compare_spec a b)
  | H : context [Z.compare ?a ?b] |- _ => destruct (Z.compare_spec a b)
  | H : context [Pos.compare ?a ?b] |- _ => destruct (Pos.compare_spec a b)
  end; simpl in *; try done; try lia.

Lemma SFcompare_antisym x y :
  SFcompare y x = CompOpp <$> SFcompare x y.
Proof.
  destruct x as [[]|[]| |[] mx ex], y as [[]|[]| |[] my ey]; simpl; try done;
    change (Pos.compare_cont Eq) with Pos.compare; f_equal; cmp_cases.
Qed.

Lemma SFleb_trans x y z :
  SFleb x y = true → SFleb y z = true → SFleb x z = true.
Proof.
  unfold SFleb.
  destruct x as [[]|[]| |[] mx ex], y as [[]|[]| |[] my ey], z as [[]|[]| |[] mz ez];
    simpl; try done;
    change (Pos.compare_cont Eq) with Pos.compare; intros H1 H2; cmp_cases.
Qed.

Lemma SFcompare_refl x : x ≠ S754_nan → SFcompare x x = Some Eq.
Proof.
  destruct x as [[]|[]| |[] mx ex]; simpl; try done; intros _;
    change (Pos.compare_cont Eq) with Pos.compare;
    by rewrite Z.compare_refl, Pos.compare_refl.
Qed.

Lemma isnan_spec (x : float) :
  negb (PrimFloat.eqb x x) = false ↔ Prim2SF x ≠ S754_nan.
Proof.
  rewrite FloatAxioms.eqb_spec. unfold SFeqb. split.
  - intros H E. rewrite E in H. done.
  - intros H. by rewrite SFcompare_refl.
Qed.

Lemma leb_trans (x y z : float) :
  PrimFloat.leb x y = true → PrimFloat.leb y z = true → PrimFloat.leb x z = true.
Proof. rewrite !FloatAxioms.leb_spec. apply SFleb_trans. Qed.

(** Two numbers, neither of them NaN, are comparable. *)
Lemma not_ltb_leb (x y : float) :
  negb (PrimFloat.eqb x x) = false → negb (PrimFloat.eqb y y) = false →
  PrimFloat.ltb y x = false → PrimFloat.leb x y = true.
Proof.
  rewrite !isnan_spec, FloatAxioms.ltb_spec, FloatAxioms.leb_spec.
  unfold SFltb, SFleb. rewrite (SFcompare_antisym (Prim2SF x) (Prim2SF y)).
  destruct (Prim2SF x) as [[]|[]| |[] mx ex], (Prim2SF y) as [[]|[]| |[] my ey];
    simpl; try done;
    change (Pos.compare_cont Eq) with Pos.compare; intros _ _; cmp_cases.
Qed.

Lemma ltb_leb (x y : float) :
  PrimFloat.ltb x y = true → PrimFloat.leb x y = true.
Proof.
  rewrite FloatAxioms.ltb_spec, FloatAxioms.leb_spec. unfold SFltb, SFleb.
  by destruct (SFcompare _ _) as [[]|].
Qed.

Lemma ltb_asym (x y : float) :
  PrimFloat.ltb x y = true → PrimFloat.ltb y x = false.
Proof.
  rewrite !FloatAxioms.ltb_spec. unfold SFltb.
  rewrite (SFcompare_antisym (Prim2SF x) (Prim2SF y)).
  by destruct (SFcompare _ _) as [[]|].
Qed.

(** *** Signs *)

Lemma ltb_zero_spec (x : float) :
  PrimFloat.ltb x 0 = false ↔ not_neg (Prim2SF x) = true.
Proof.
  rewrite FloatAxioms.ltb_spec. change (Prim2SF 0) with (S754_zero false).
  by destruct (Prim2SF x) as [[]|[]| |[] m e].
Qed.

Lemma binary_round_aux_not_neg m e l :
  not_neg (binary_round_aux prec emax false m e l) = true.
Proof.
  unfold binary_round_aux.
  destruct (shr_fexp _ _ _ _ _) as [mrs' e'].
  destruct (shr_fexp _ _ _ _ _) as [mrs'' e''].
  destruct (shr_m mrs''); try done. by destruct (Z.leb _ _).
Qed.

Lemma SFmul_not_neg x y :
  not_neg x = true → not_neg y = true → not_neg (SF64mul x y) = true.
Proof.
  destruct x as [[]|[]| |[] mx ex], y as [[]|[]| |[] my ey]; try done;
    intros _ _; apply binary_round_aux_not_neg.
Qed.

Lemma SFdiv_not_neg x my ey :
  not_neg x = true → not_neg (SF64div x (S754_finite false my ey)) = true.
Proof.
  destruct x as [[]|[]| |[] mx ex]; try done. intros _.
  unfold SF64div, SFdiv. destruct (SFdiv_core_binary _ _ _ _ _ _) as [[mz ez] lz].
  apply binary_round_aux_not_neg.
Qed.

Lemma mul_not_neg (x y : float) :
  PrimFloat.ltb x 0 = false → PrimFloat.ltb y 0 = false →
  PrimFloat.ltb (PrimFloat.mul x y) 0 = false.
Proof. rewrite !ltb_zero_spec, FloatAxioms.mul_spec. apply SFmul_not_neg. Qed.

Lemma div_100_not_neg (x : float) :
  PrimFloat.ltb x 0 = false → PrimFloat.ltb (PrimFloat.div x 100) 0 = false.
Proof.
  rewrite !ltb_zero_spec, FloatAxioms.div_spec.
  change (Prim2SF 100) with (S754_finite false 7036874417766400 (-46)).
  apply SFdiv_not_neg.
Qed.

End FloatFacts.

(** ** Binary64 order and maxima *)

Lemma ltb_inf_inf : PrimFloat.ltb Np.inf Np.inf = false.
Proof. reflexivity. Qed.

Lemma leb_not_ltb (x y : float) :
  PrimFloat.leb x y = true → PrimFloat.ltb y x = false.
Proof.
  rewrite FloatAxioms.ltb_spec, FloatAxioms.leb_spec. unfold SFltb, SFleb.
  rewrite (FloatFacts.SFcompare_antisym (Prim2SF x) (Prim2SF y)).
  by destruct (SFcompare _ _) as [[]|].
Qed.

Lemma isnan_not_ltb (x y : float) :
  Np.isnan x = true → PrimFloat.ltb x y = false.
Proof.
  unfold Np.isnan. rewrite FloatAxioms.eqb_spec, FloatAxioms.ltb_spec.
  unfold SFeqb, SFltb.
  destruct (Prim2SF x) as [[]|[]| |[] mx ex] eqn:Hx; simpl; try done;
    intros Hn; exfalso; revert Hn;
    change (Pos.compare_cont Eq) with Pos.compare;
    by rewrite ?Z.compare_refl, ?Pos.compare_refl.
Qed.

Lemma ltb_not_isnan (x y : float) :
  PrimFloat.ltb x y = true → Np.isnan x = false.
Proof.
  intros Hlt. destruct (Np.isnan x) eqn:Hn; [|done].
  by rewrite (isnan_not_ltb x y Hn) in Hlt.
Qed.

Lemma leb_ltb_trans (x y z : float) :
  PrimFloat.leb x y = true → PrimFloat.ltb y z = true → PrimFloat.ltb x z = true.
Proof.
  rewrite !FloatAxioms.ltb_spec, FloatAxioms.leb_spec. unfold SFltb, SFleb.
  destruct (Prim2SF x) as [[]|[]| |[] mx ex], (Prim2SF y) as [[]|[]| |[] my ey],
           (Prim2SF z) as [[]|[]| |[] mz ez];
    simpl; try done;
    change (Pos.compare_cont Eq) with Pos.compare; intros H1 H2; FloatFacts.cmp_cases.
Qed.

Lemma leb_refl (x : float) : Np.isnan x = false → PrimFloat.leb x x = true.
Proof.
  unfold Np.isnan. intros Hn. apply FloatFacts.not_ltb_leb; [done|done|].
  destruct (PrimFloat.ltb x x) eqn:Hlt; [|done].
  by rewrite (FloatFacts.ltb_asym x x Hlt) in Hlt.
Qed.

(** The float literals of the source are the binary64 numbers nearest to
    the decimals written there: 1.4, 3.46, 1e-6 and 0.785. *)
Lemma literals_as_written :
  (GAMMA_F = 14 / 10 ∧ GAMMA_C = 14 / 10 ∧ lambda_coef = 346 / 100 ∧
   eps = 1 / 1000000 ∧ steel_density = 785 / 1000)%float.
Proof. repeat split; reflexivity. Qed.

(** [np.maximum] gives the larger of two numbers, and NaN as soon as one
    of them is NaN. *)
Lemma maximum_larger (a b : float) :
  (((b <=? a) = true → Np.maximum a b = a) ∧
   ((a <? b) = true → Np.maximum a b = b) ∧
   ((a =? a) = false ∨ (b =? b) = false →
    (Np.maximum a b =? Np.maximum a b) = false))%float.
Proof.
  unfold Np.maximum. split; [by intros ->|]. split.
  - intros Hlt. rewrite (ltb_not_isnan a b Hlt), orb_false_r.
    destruct (b <=? a)%float eqn:Hle; [|done].
    by rewrite (leb_not_ltb b a Hle) in Hlt.
  - intros Hnan.
    destruct (Np.isnan a) eqn:Ha.
    + rewrite orb_true_r. unfold Np.isnan in Ha. by apply negb_true_iff in Ha.
    + rewrite orb_false_r. destruct Hnan as [Hn|Hn].
      { unfold Np.isnan in Ha. rewrite Hn in Ha. done. }
      destruct (b <=? a)%float eqn:Hle; [|done].
      exfalso. revert Hle Hn.
      rewrite FloatAxioms.leb_spec, FloatAxioms.eqb_spec. unfold SFleb, SFeqb.
      destruct (Prim2SF b) as [[]|[]| |[] mb eb]; simpl; try done;
        destruct (Prim2SF a) as [[]|[]| |[] ma ea]; simpl; try done;
        change (Pos.compare_cont Eq) with Pos.compare;
        by rewrite ?Z.compare_refl, ?Pos.compare_refl.
Qed.

(** ** Running computations *)

Lemma result_bind_ok {A B} (a : A) (k : A → result B) : (Ok a ≫= k) = k a.
Proof. reflexivity. Qed.

Lemma result_bind_raise {A B} (e : exn) (k : A → result B) :
  (Raise e ≫= k) = Raise e.
Proof. reflexivity. Qed.

Lemma Ok_inj {A} (a b : A) : Ok a = Ok b → a = b.
Proof. congruence. Qed.

Lemma Raise_inj {A} (e e' : exn) : @Raise A e = Raise e' → e = e'.
Proof. congruence. Qed.

Section Running.

Context {A B : Type}.
Implicit Types (w : world) (h : gmap loc obj) (t : list event).

Lemma run_bind (m : M A) (k : A → M B) w :
  run (m ≫= k) w =
    match run m w with
    | (Ok a, w') => run (k a) w'
    | (Raise e, w') => (Raise e, w')
    end.
Proof. reflexivity. Qed.

Lemma run_ret (a : A) w : run (mret a) w = (Ok a, w).
Proof. reflexivity. Qed.

Lemma run_lift_bind (r : result A) (k : A → M B) w :
  run (lift r ≫= k) w =
    match r with Ok a => run (k a) w | Raise e => (Raise e, w) end.
Proof. by destruct r. Qed.

End Running.

Section RunningPandas.

Context {B : Type}.
Implicit Types (w : world) (h : gmap loc obj) (t : list event) (d : DataFrame).

Lemma run_copy (k : loc → M B) w l d :
  heap w !! l = Some (OFrame d) →
  run (Pd.copy l ≫= k) w =
    run (k (fresh_loc (heap w)))
        (mkWorld (<[fresh_loc (heap w) := OFrame d]> (heap w)) (trace w)).
Proof.
  intros Hl. unfold run, Pd.copy, mbind, M_bind, bind, read_frame.
  by rewrite Hl.
Qed.

Lemma run_getitem (k : Np.vec → M B) h t l d key :
  run (Pd.getitem l key ≫= k) (mkWorld (<[l := OFrame d]> h) t) =
    match Pd.column d key with
    | Ok c => run (k c) (mkWorld (<[l := OFrame d]> h) t)
    | Raise e => (Raise e, mkWorld (<[l := OFrame d]> h) t)
    end.
Proof.
  unfold run, Pd.getitem, mbind, M_bind, bind, read_frame, lift. simpl.
  rewrite lookup_insert_eq. by destruct (Pd.column d key).
Qed.

Lemma run_setitem (k : unit → M B) h t l d key v :
  run (Pd.setitem l key v ≫= k) (mkWorld (<[l := OFrame d]> h) t) =
    run (k tt) (mkWorld (<[l := OFrame (Pd.set_column d key v)]> h) t).
Proof.
  unfold run, Pd.setitem, mbind, M_bind, bind, read_frame, write. simpl.
  rewrite lookup_insert_eq. simpl. by rewrite insert_insert_eq.
Qed.

Lemma column_set_eq d key v : Pd.column (Pd.set_column d key v) key = Ok v.
Proof. unfold Pd.column. simpl. by rewrite lookup_insert_eq. Qed.

Lemma column_set_ne d key key' v :
  key ≠ key' → Pd.column (Pd.set_column d key v) key' = Pd.column d key'.
Proof. intros. unfold Pd.column. simpl. by rewrite lookup_insert_ne. Qed.

End RunningPandas.

(** ** Feature engineering *)

Section FeatureFacts.

Variable arctan2 : float → float → float.

Local Abbreviation engineered_frame := (engineered_frame arctan2).

Ltac read_column :=
  rewrite run_getitem;
  repeat first [ rewrite column_set_eq | rewrite column_set_ne by done ];
  try match goal with
      | H : Pd.column ?d ?k = _ |- context [Pd.column ?d ?k] => rewrite H
      end;
  cbv beta iota zeta.

Ltac write_column := rewrite run_setitem; cbv beta zeta.

Lemma cef_run w l d d' :
  heap w !! l = Some (OFrame d) →
  engineered_frame d = Ok d' →
  run (create_engineered_features arctan2 l) w =
    (Ok (fresh_loc (heap w)),
     mkWorld (<[fresh_loc (heap w) := OFrame d']> (heap w)) (trace w)).
Proof.
  intros Hl Heng. unfold create_engineered_features.
  rewrite (run_copy _ _ _ _ Hl). cbv beta.
  unfold engineered_frame in Heng.
  destruct (Pd.column d "largura") as [largura|] eqn:E1; [|done].
  destruct (Pd.column d "Altura") as [altura|] eqn:E2; [|done].
  destruct (Pd.column d "PeDireito") as [pe_direito|] eqn:E3; [|done].
  destruct (Pd.column d "fck") as [fck|] eqn:E4; [|done].
  destruct (Pd.column d "N_top") as [N_top|] eqn:E5; [|done].
  destruct (Pd.column d "N_base") as [N_base|] eqn:E6; [|done].
  destruct (Pd.column d "Mx_top") as [Mx_top|] eqn:E7; [|done].
  destruct (Pd.column d "Mx_base") as [Mx_base|] eqn:E8; [|done].
  destruct (Pd.column d "My_top") as [My_top|] eqn:E9; [|done].
  destruct (Pd.column d "My_base") as [My_base|] eqn:E10; [|done].
  apply Ok_inj in Heng. rewrite <- Heng. clear Heng.
  do 10 read_column.
  repeat first [ write_column | read_column ].
  reflexivity.
Qed.

Lemma cef_run_raise w l d e :
  heap w !! l = Some (OFrame d) →
  engineered_frame d = Raise e →
  run (create_engineered_features arctan2 l) w =
    (Raise e, mkWorld (<[fresh_loc (heap w) := OFrame d]> (heap w)) (trace w)).
Proof.
  intros Hl Heng. unfold create_engineered_features.
  rewrite (run_copy _ _ _ _ Hl). cbv beta.
  unfold engineered_frame in Heng.
  do 10 (rewrite run_getitem;
         match type of Heng with
         | (Pd.column ?d ?k ≫= _) = _ => destruct (Pd.column d k) eqn:?
         end;
         [ rewrite result_bind_ok in Heng; cbv beta iota
         | rewrite result_bind_raise in Heng; by injection Heng as <- ]).
  discriminate Heng.
Qed.

End FeatureFacts.

(** ** One row at a time *)

Section RowFacts.

Variable arctan2 : float → float → float.

Local Notation "x + y" := (PrimFloat.add x y) : float_scope.
Local Notation "x - y" := (PrimFloat.sub x y) : float_scope.
Local Notation "x * y" := (PrimFloat.mul x y) : float_scope.
Local Notation "x / y" := (PrimFloat.div x y) : float_scope.

Local Abbreviation engineer := (engineer arctan2).

Lemma cell_at_Some d key i x :
  cell_at d key i = Some x ↔ ∃ c, columns d !! key = Some c ∧ c !! i = Some x.
Proof.
  unfold cell_at. destruct (columns d !! key) as [c|]; simpl.
  - split; [by exists c | by intros (? & [= <-] & ?)].
  - split; [done | by intros (? & ? & ?)].
Qed.

Lemma column_Ok d key c : Pd.column d key = Ok c ↔ columns d !! key = Some c.
Proof.
  unfold Pd.column. destruct (columns d !! key); split; congruence.
Qed.

Ltac lookup_column :=
  repeat first [ rewrite lookup_insert_eq | rewrite lookup_insert_ne by done ].

Ltac lookup_cell :=
  unfold Np.add, Np.sub, Np.mul, Np.div, Np.vmaximum, Np.adds, Np.muls,
    Np.smul, Np.divs, Np.vabs, Np.vsqrt, Np.vsquare, Np.nes, Np.where_s;
  repeat first
    [ rewrite lookup_zip_with | rewrite list_lookup_fmap
    | match goal with H : _ !! _ = Some _ |- _ => rewrite H end ];
  simpl.

(** Inversion of [engineered_frame]: the ten raw columns are there and the
    engineered ones are added to them. *)
Lemma engineered_frame_raw d d' key :
  engineered_frame arctan2 d = Ok d' → key ∈ RAW → is_Some (columns d !! key).
Proof.
  unfold engineered_frame. intros Heng Hkey.
  repeat match type of Heng with
         | (Pd.column ?d ?k ≫= _) = _ =>
             let E := fresh "E" in
             destruct (Pd.column d k) eqn:E;
             [ rewrite result_bind_ok in Heng; apply column_Ok in E
             | rewrite result_bind_raise in Heng; discriminate Heng ]
         end.
  unfold RAW in Hkey.
  repeat (apply elem_of_cons in Hkey as [->|Hkey]; [by eexists|]).
  by apply elem_of_nil in Hkey.
Qed.

Lemma engineered_frame_nrows d d' :
  engineered_frame arctan2 d = Ok d' → nrows d' = nrows d.
Proof.
  unfold engineered_frame. intros Heng.
  repeat match type of Heng with
         | (Pd.column ?d ?k ≫= _) = _ =>
             destruct (Pd.column d k);
             [ rewrite result_bind_ok in Heng
             | rewrite result_bind_raise in Heng; discriminate Heng ]
         end.
  apply Ok_inj in Heng. by rewrite <- Heng.
Qed.

(** The columns with other names are the ones of the frame given. *)
Lemma engineered_frame_keep d d' key :
  engineered_frame arctan2 d = Ok d' → key ∉ ENGINEERED →
  columns d' !! key = columns d !! key.
Proof.
  unfold engineered_frame. intros Heng Hkey.
  repeat match type of Heng with
         | (Pd.column ?d ?k ≫= _) = _ =>
             destruct (Pd.column d k);
             [ rewrite result_bind_ok in Heng
             | rewrite result_bind_raise in Heng; discriminate Heng ]
         end.
  apply Ok_inj in Heng. rewrite <- Heng. clear Heng. cbn [columns].
  unfold ENGINEERED in Hkey.
  repeat (apply not_elem_of_cons in Hkey as [? Hkey]).
  by repeat (rewrite lookup_insert_ne by done).
Qed.

(** The engineered cells of a row are the ones [engineer] computes from
    the raw cells of that row. *)
Lemma engineered_cell d d' i r key v :
  engineered_frame arctan2 d = Ok d' → raw_at d i = Some r →
  (key, v) ∈ engineer r → cell_at d' key i = Some v.
Proof.
  unfold engineered_frame, raw_at. intros Heng Hraw Hkv.
  repeat match type of Heng with
         | (Pd.column ?d ?k ≫= _) = _ =>
             let E := fresh "E" in
             destruct (Pd.column d k) eqn:E;
             [ rewrite result_bind_ok in Heng; apply column_Ok in E
             | rewrite result_bind_raise in Heng; discriminate Heng ]
         end.
  apply Ok_inj in Heng. rewrite <- Heng. clear Heng.
  repeat match type of Hraw with
         | (cell_at ?d ?k ?i ≫= _) = _ =>
             let C := fresh "C" in
             destruct (cell_at d k i) eqn:C; [|discriminate Hraw];
             apply cell_at_Some in C as (? & ? & C); simplify_eq; simpl in Hraw
         end.
  injection Hraw as <-.
  unfold engineer in Hkv. cbv zeta in Hkv. simpl in Hkv.
  repeat (apply elem_of_cons in Hkv as [[= -> ->]|Hkv];
          [ unfold cell_at; cbn [columns]; lookup_column; simpl; by lookup_cell |]).
  by apply elem_of_nil in Hkv.
Qed.

(** A frame that has a full row has the ten raw columns. *)
Lemma raw_at_columns d i r :
  raw_at d i = Some r → Forall (λ key, is_Some (columns d !! key)) RAW.
Proof.
  unfold raw_at. intros Hraw.
  repeat match type of Hraw with
         | (cell_at ?d ?k ?i ≫= _) = _ =>
             let C := fresh "C" in
             destruct (cell_at d k i) eqn:C; [|discriminate Hraw];
             apply cell_at_Some in C as (? & C & _); simpl in Hraw
         end.
  unfold RAW. repeat (apply Forall_cons; split; [by eexists|]). constructor.
Qed.

End RowFacts.

(** ** Frames built from records *)

Lemma elem_of_record_keys (records : list (gmap string float)) key :
  key ∈ (⋃ (dom <$> records) : gset string) ↔ has_column records key.
Proof.
  rewrite elem_of_union_list. unfold has_column. rewrite Exists_exists. split.
  - intros (X & HX & Hkey). apply list_elem_of_fmap in HX as (r & -> & Hr).
    exists r. split; [done|]. by apply elem_of_dom.
  - intros (r & Hr & Hkey). exists (dom r). split.
    + apply list_elem_of_fmap. by exists r.
    + by apply elem_of_dom.
Qed.

Lemma of_records_column records key :
  has_column records key →
  columns (Pd.of_records records) !! key = Some (Pd.cell key <$> records).
Proof.
  intros Hkey. unfold Pd.of_records. cbn [columns].
  apply lookup_set_to_map; [by intros ?? _ _ [= ->]|].
  exists key. split; [|done]. by apply elem_of_record_keys.
Qed.

Lemma of_records_no_column records key :
  ¬ has_column records key → columns (Pd.of_records records) !! key = None.
Proof.
  intros Hkey. unfold Pd.of_records. cbn [columns].
  apply eq_None_not_Some. intros [c Hc].
  apply lookup_set_to_map in Hc as (key' & Hin & [= -> _]); [|by intros ?? _ _ [= ->]].
  by apply Hkey, elem_of_record_keys.
Qed.

Lemma of_records_cell records key i r :
  has_column records key → records !! i = Some r →
  cell_at (Pd.of_records records) key i = Some (Pd.cell key r).
Proof.
  intros Hkey Hi. unfold cell_at. rewrite of_records_column by done. simpl.
  by rewrite list_lookup_fmap, Hi.
Qed.

(** ** The heap *)

Lemma fresh_loc_None (h : gmap loc obj) : h !! fresh_loc h = None.
Proof. unfold fresh_loc. apply not_elem_of_dom. apply is_fresh. Qed.

Lemma insert_fresh_subseteq (h : gmap loc obj) o : h ⊆ <[fresh_loc h := o]> h.
Proof. apply insert_subseteq, fresh_loc_None. Qed.

Lemma dicts_at_weaken h h' locs ds : h ⊆ h' → dicts_at h locs ds → dicts_at h' locs ds.
Proof.
  intros Hsub Hds. eapply Forall2_impl; [exact Hds|].
  intros l d Hl. exact (lookup_weaken _ _ _ _ Hl Hsub).
Qed.

Lemma run_read_dicts w locs ds :
  dicts_at (heap w) locs ds → run (mapM read_dict locs) w = (Ok ds, w).
Proof.
  induction 1 as [|l d locs ds Hl _ IH]; [done|].
  cbn [mapM]. rewrite run_bind.
  assert (run (read_dict l) w = (Ok d, w)) as ->
    by (unfold run, read_dict; by rewrite Hl).
  rewrite run_bind, IH. done.
Qed.

Section RunningRecords.

Context {B : Type}.

Lemma run_DataFrame_of (k : loc → M B) w locs ds :
  dicts_at (heap w) locs ds →
  run (Pd.DataFrame_of locs ≫= k) w =
    run (k (fresh_loc (heap w)))
        (mkWorld (<[fresh_loc (heap w) := OFrame (Pd.of_records ds)]> (heap w)) (trace w)).
Proof.
  intros Hds. rewrite run_bind. unfold Pd.DataFrame_of.
  rewrite run_bind, (run_read_dicts _ _ _ Hds). done.
Qed.

Lemma run_read_dict (k : gmap string float → M B) w l d :
  heap w !! l = Some (ODict d) → run (read_dict l ≫= k) w = run (k d) w.
Proof. intros Hl. unfold run, mbind, M_bind, bind, read_dict. by rewrite Hl. Qed.

Lemma run_read_frame (k : DataFrame → M B) w l d :
  heap w !! l = Some (OFrame d) → run (read_frame l ≫= k) w = run (k d) w.
Proof. intros Hl. unfold run, mbind, M_bind, bind, read_frame. by rewrite Hl. Qed.

Lemma run_getitems (k : list (list float) → M B) h t l d keys :
  run (Pd.getitems l keys ≫= k) (mkWorld (<[l := OFrame d]> h) t) =
    match Pd.select d keys with
    | Ok cols => run (k (Pd.rows (nrows d) cols)) (mkWorld (<[l := OFrame d]> h) t)
    | Raise e => (Raise e, mkWorld (<[l := OFrame d]> h) t)
    end.
Proof.
  unfold run, Pd.getitems, mbind, M_bind, bind, read_frame, lift. simpl.
  rewrite lookup_insert_eq. by destruct (Pd.select d keys).
Qed.

Lemma run_emit (k : unit → M B) w e :
  run (emit e ≫= k) w = run (k tt) (mkWorld (heap w) (trace w ++ [e])).
Proof. reflexivity. Qed.

End RunningRecords.

(** ** Well-formed frames: every column has one cell per row *)

Lemma of_records_wf records : wf_frame (Pd.of_records records).
Proof.
  intros key c Hc. unfold Pd.of_records in *. cbn [columns nrows] in *.
  apply lookup_set_to_map in Hc as (key' & _ & [= -> <-]); [|by intros ?? _ _ [= ->]].
  by rewrite length_fmap.
Qed.

Lemma length_zip_with_n {A B C} (f : A → B → C) u v n :
  length u = n → length v = n → length (zip_with f u v) = n.
Proof. intros. rewrite length_zip_with. lia. Qed.

Lemma length_fmap_n {A B} (f : A → B) u n : length u = n → length (f <$> u) = n.
Proof. intros. by rewrite length_fmap. Qed.

Lemma engineered_frame_wf arctan2 d d' :
  wf_frame d → engineered_frame arctan2 d = Ok d' → wf_frame d'.
Proof.
  unfold engineered_frame. intros Hwf Heng.
  repeat match type of Heng with
         | (Pd.column ?d ?k ≫= _) = _ =>
             let E := fresh "E" in
             destruct (Pd.column d k) eqn:E;
             [ rewrite result_bind_ok in Heng;
               apply column_Ok in E; apply Hwf in E
             | rewrite result_bind_raise in Heng; discriminate Heng ]
         end.
  apply Ok_inj in Heng. rewrite <- Heng. clear Heng.
  intros key c. cbn [columns nrows].
  repeat (rewrite lookup_insert_Some;
          intros [[_ <-]|[_ Hc]];
          [ unfold Np.add, Np.sub, Np.mul, Np.div, Np.vmaximum, Np.adds, Np.muls,
              Np.smul, Np.divs, Np.vabs, Np.vsqrt, Np.vsquare, Np.nes, Np.where_s;
            by repeat first [ apply length_zip_with_n | apply length_fmap_n ]
          | revert Hc ]).
  apply Hwf.
Qed.

(** ** Selections and their rows *)

Lemma select_ok d keys :
  Forall (λ k, is_Some (columns d !! k)) keys →
  ∃ cols, Pd.select d keys = Ok cols ∧
          Forall2 (λ k c, columns d !! k = Some c) keys cols.
Proof.
  induction 1 as [|k keys [c Hc] _ (cols & IH & Hcols)].
  - by exists [].
  - exists (c :: cols). cbn [Pd.select]. unfold Pd.column. rewrite Hc, IH.
    split; [done|]. by constructor.
Qed.

Lemma select_raise d keys key :
  key ∈ keys → columns d !! key = None →
  ∃ key', Pd.select d keys = Raise (KeyError key').
Proof.
  intros Hin Hnone. induction keys as [|k keys IH]; [by apply elem_of_nil in Hin|].
  cbn [Pd.select]. unfold Pd.column at 1.
  destruct (columns d !! k) as [c|] eqn:Hk; [|by eexists].
  apply elem_of_cons in Hin as [->|Hin]; [congruence|].
  destruct (IH Hin) as [key' ->]. by eexists.
Qed.

Lemma length_rows n cols : length (Pd.rows n cols) = n.
Proof. unfold Pd.rows. by rewrite length_fmap, length_seq. Qed.

Lemma lookup_rows n cols i :
  i < n →
  Pd.rows n cols !! i = Some ((λ c : Np.vec, default Np.nan (c !! i)) <$> cols).
Proof.
  intros Hi. unfold Pd.rows. rewrite list_lookup_fmap, lookup_seq_lt by done.
  done.
Qed.

(** The rows of a selection hold the cells of the selected columns. *)
Lemma rows_cells d keys cols i (cell : string → float) :
  Forall2 (λ k c, columns d !! k = Some c) keys cols →
  (∀ key, key ∈ keys → cell_at d key i = Some (cell key)) →
  (λ c : Np.vec, default Np.nan (c !! i)) <$> cols = cell <$> keys.
Proof.
  induction 1 as [|k c keys cols Hc _ IH]; intros Hcell; [done|].
  cbn [fmap list_fmap]. f_equal.
  - specialize (Hcell k ltac:(by left)). unfold cell_at in Hcell.
    rewrite Hc in Hcell. simpl in Hcell. by rewrite Hcell.
  - apply IH. intros key Hkey. apply Hcell. by right.
Qed.

(** ** The feature row of a record *)

(** Membership of a given string in a given list, by evaluation. *)
Ltac in_list := apply (bool_decide_unpack _); by vm_compute.

Lemma assoc_elem_of key l v : assoc key l = Some v → (key, v) ∈ l.
Proof.
  induction l as [|[k v'] l IH]; [done|]. cbn [assoc].
  destruct (String.eqb_spec key k) as [->|_].
  - intros [= ->]. by left.
  - intros H. right. by apply IH.
Qed.

Section FeatureRaw.

Variable arctan2 : float → float → float.

Local Abbreviation feature_cell := (feature_cell arctan2).
Local Abbreviation feature_row := (feature_row arctan2).

Lemma assoc_engineer_Some r key :
  key ∈ ENGINEERED → is_Some (assoc key (engineer arctan2 r)).
Proof.
  unfold ENGINEERED. intros Hkey.
  repeat (apply elem_of_cons in Hkey as [->|Hkey]; [by eexists|]).
  by apply elem_of_nil in Hkey.
Qed.

Lemma feature_columns_split :
  Forall (λ k, k ∈ ENGINEERED ∨ k ∈ REQUIRED) FEATURE_COLUMNS.
Proof.
  assert (H : Forall (λ k, bool_decide (k ∈ ENGINEERED) || bool_decide (k ∈ REQUIRED))
                     FEATURE_COLUMNS).
  { apply Forall_forall. intros k Hk. unfold FEATURE_COLUMNS in Hk.
    repeat (apply elem_of_cons in Hk as [->|Hk]; [by vm_compute|]).
    by apply elem_of_nil in Hk. }
  eapply Forall_impl; [exact H|]. intros k Hk. simpl in Hk.
  apply orb_prop_elim in Hk as [Hk|Hk]; apply bool_decide_unpack in Hk; auto.
Qed.

Lemma raw_subseteq_required key : key ∈ RAW → key ∈ REQUIRED.
Proof. intros. unfold REQUIRED. apply elem_of_app. by left. Qed.

Lemma raw_at_of_records records i r :
  Forall (has_column records) RAW → records !! i = Some r →
  raw_at (Pd.of_records records) i = Some (row_of_record r).
Proof.
  intros Hcols Hi. unfold raw_at.
  repeat (rewrite (of_records_cell records _ i r);
          [ cbn [mbind option_bind]
          | apply (proj1 (Forall_forall _ _) Hcols); in_list
          | done ]).
  done.
Qed.

Lemma engineered_frame_ok d :
  Forall (λ k, is_Some (columns d !! k)) RAW →
  ∃ d', engineered_frame arctan2 d = Ok d'.
Proof.
  intros Hraw. unfold engineered_frame.
  repeat match goal with
         | |- ∃ _, (Pd.column ?d ?k ≫= _) = _ =>
             let c := fresh "c" in let E := fresh "E" in
             assert (E : k ∈ RAW) by in_list;
             apply (proj1 (Forall_forall _ _) Hraw) in E as [c E];
             apply column_Ok in E; rewrite E, result_bind_ok; clear E
         end.
  by eexists.
Qed.

Lemma engineered_frame_raise d e :
  engineered_frame arctan2 d = Raise e →
  ∃ key, e = KeyError key ∧ key ∈ RAW ∧ columns d !! key = None.
Proof.
  unfold engineered_frame. intros Heng.
  repeat match type of Heng with
         | (Pd.column ?d ?k ≫= _) = _ =>
             let E := fresh "E" in
             destruct (Pd.column d k) eqn:E;
             [ rewrite result_bind_ok in Heng; clear E
             | rewrite result_bind_raise in Heng; apply Raise_inj in Heng;
               subst; unfold Pd.column in E;
               destruct (columns d !! k) eqn:Hk; [done|];
               apply Raise_inj in E; exists k; split; [done|];
               split; [in_list|done] ]
         end.
  discriminate Heng.
Qed.

(** Row [i] of the engineered frame of a list of records holds the feature
    cells of record [i]. *)
Lemma feature_cells records d' i r key :
  Forall (has_column records) REQUIRED →
  engineered_frame arctan2 (Pd.of_records records) = Ok d' →
  records !! i = Some r → key ∈ FEATURE_COLUMNS →
  cell_at d' key i = Some (feature_cell r key).
Proof.
  intros Hcols Heng Hi Hkey.
  assert (Hraw : Forall (has_column records) RAW).
  { apply Forall_forall. intros k Hk.
    by apply (proj1 (Forall_forall _ _) Hcols), raw_subseteq_required. }
  unfold feature_cell.
  destruct (assoc key (engineer arctan2 (row_of_record r))) as [v|] eqn:Ha.
  - simpl. eapply engineered_cell; [done| |by apply assoc_elem_of].
    by apply raw_at_of_records.
  - simpl.
    assert (Hne : key ∉ ENGINEERED).
    { intros Hin. apply (assoc_engineer_Some (row_of_record r)) in Hin as [? Hin].
      congruence. }
    unfold cell_at. rewrite (engineered_frame_keep _ _ _ _ Heng Hne).
    apply of_records_cell; [|done].
    apply (proj1 (Forall_forall _ _) Hcols).
    by destruct (proj1 (Forall_forall _ _) feature_columns_split key Hkey).
Qed.

End FeatureRaw.

(** ** The predictor *)

Section EngineeredRecords.

Variable arctan2 : float → float → float.

Lemma has_column_nonempty records key :
  has_column records key → ∃ r, records !! 0 = Some r.
Proof.
  intros Hcol. apply Exists_exists in Hcol as (r & Hr & _).
  destruct records as [|r0 ?]; [by apply elem_of_nil in Hr|].
  by exists r0.
Qed.

(** What the feature engineering gives on the frame of a list of records:
    the feature matrix has one row per record, the feature row of that
    record, and the column [Ac] holds the cross-sections. *)
Lemma engineered_records records :
  Forall (has_column records) REQUIRED →
  ∃ d' cols,
    engineered_frame arctan2 (Pd.of_records records) = Ok d' ∧
    nrows d' = length records ∧
    Pd.select d' FEATURE_COLUMNS = Ok cols ∧
    Pd.rows (nrows d') cols = feature_row arctan2 <$> records ∧
    Pd.column d' "Ac" = Ok (area <$> records).
Proof.
  intros Hcols.
  assert (Hraw : Forall (has_column records) RAW).
  { apply Forall_forall. intros k Hk.
    by apply (proj1 (Forall_forall _ _) Hcols), raw_subseteq_required. }
  destruct (engineered_frame_ok arctan2 (Pd.of_records records)) as [d' Heng].
  { eapply Forall_impl; [exact Hraw|]. intros k Hk. cbv beta.
    rewrite of_records_column by done. by eexists. }
  pose proof (engineered_frame_nrows _ _ _ Heng) as Hn. cbn [Pd.of_records nrows] in Hn.
  pose proof (engineered_frame_wf _ _ _ (of_records_wf records) Heng) as Hwf.
  destruct (has_column_nonempty records "largura") as [r0 Hr0].
  { apply (proj1 (Forall_forall _ _) Hraw). in_list. }
  destruct (select_ok d' FEATURE_COLUMNS) as (cols & Hsel & Hcs).
  { apply Forall_forall. intros key Hkey.
    pose proof (feature_cells arctan2 _ _ _ _ _ Hcols Heng Hr0 Hkey) as Hc.
    apply cell_at_Some in Hc as (c & -> & _). by eexists. }
  exists d', cols. repeat split; [done|done|done| |].
  - apply (list_eq_same_length _ _ (length records)).
    + by rewrite length_fmap.
    + by rewrite length_rows.
    + intros i x y Hi. rewrite lookup_rows by lia.
      rewrite list_lookup_fmap.
      destruct (lookup_lt_is_Some_2 records i Hi) as [r Hr]. rewrite Hr.
      intros [= <-] [= <-]. unfold feature_row.
      apply (rows_cells d'); [done|]. intros key Hkey.
      by apply (feature_cells arctan2 records).
  - assert (HAc : ∃ c, columns d' !! "Ac" = Some c) .
    { assert (Hc : cell_at d' "Ac" 0 = Some (area r0)).
      { eapply engineered_cell; [done|by apply raw_at_of_records|].
        unfold engineer, area, row_of_record. cbn [Raw.largura Raw.Altura].
        do 6 right. left. }
      apply cell_at_Some in Hc as (c & -> & _). by eexists. }
    destruct HAc as [c Hc]. apply column_Ok. rewrite Hc. f_equal.
    apply (list_eq_same_length _ _ (length records)).
    + by rewrite length_fmap.
    + rewrite (Hwf _ _ Hc). done.
    + intros i x y Hi Hx. rewrite list_lookup_fmap.
      destruct (lookup_lt_is_Some_2 records i Hi) as [r Hr]. rewrite Hr.
      intros [= <-].
      assert (Hcell : cell_at d' "Ac" i = Some (area r)).
      { eapply engineered_cell; [done|by apply raw_at_of_records|].
        unfold engineer, area, row_of_record. cbn [Raw.largura Raw.Altura].
        do 6 right. left. }
      unfold cell_at in Hcell. rewrite Hc in Hcell. simpl in Hcell. congruence.
Qed.

End EngineeredRecords.

Section PredictorFacts.

Variable arctan2 : float → float → float.
Variable self : PillarPredictor.

Local Abbreviation single_result := (single_result arctan2 self).
Local Abbreviation single_trace := (single_trace arctan2 self).
Local Abbreviation batch_result := (batch_result arctan2 self).
Local Abbreviation batch_trace := (batch_trace arctan2).

Lemma process_run w l d d' :
  heap w !! l = Some (OFrame d) →
  engineered_frame arctan2 d = Ok d' →
  ∃ l' h, heap w ⊆ h ∧ h !! l' = None ∧
    run (_process_pillar_data arctan2 l) w =
      (Ok l', mkWorld (<[l' := OFrame d']> h) (trace w)).
Proof.
  intros Hl Heng. unfold _process_pillar_data.
  rewrite (run_copy _ _ _ _ Hl).
  erewrite cef_run; [|cbn [heap]; apply lookup_insert_eq|done].
  cbn [heap trace]. eexists _, _. split; [|split; [|done]].
  - apply insert_fresh_subseteq.
  - apply fresh_loc_None.
Qed.

Lemma process_run_raise w l d e :
  heap w !! l = Some (OFrame d) →
  engineered_frame arctan2 d = Raise e →
  ∃ h, heap w ⊆ h ∧
    run (_process_pillar_data arctan2 l) w = (Raise e, mkWorld h (trace w)).
Proof.
  intros Hl Heng. unfold _process_pillar_data.
  rewrite (run_copy _ _ _ _ Hl).
  erewrite cef_run_raise; [|cbn [heap]; apply lookup_insert_eq|done].
  cbn [heap trace]. eexists. split; [|done].
  etrans; apply insert_fresh_subseteq.
Qed.

Lemma predict_batch_run w locs records :
  dicts_at (heap w) locs records →
  Forall (has_column records) REQUIRED →
  ∃ h, heap w ⊆ h ∧
    run (predict_batch arctan2 self locs) w =
      (Ok (batch_result records), mkWorld h (trace w ++ batch_trace records)).
Proof.
  intros Hds Hcols.
  destruct (engineered_records arctan2 records Hcols)
    as (d' & cols & Heng & Hn & Hsel & HX & HAc).
  unfold predict_batch. rewrite (run_DataFrame_of _ _ _ _ Hds).
  set (l1 := fresh_loc (heap w)).
  set (d0 := Pd.of_records records) in *.
  set (w1 := mkWorld _ _).
  destruct (process_run w1 l1 d0 d') as (l3 & h2 & Hsub & Hfresh & Hrun);
    [apply lookup_insert_eq|done|].
  rewrite run_bind, Hrun. cbn [heap trace w1] in *.
  rewrite run_getitems, Hsel, HX.
  rewrite run_getitem, HAc.
  unfold classifier_predict, classifier_predict_proba, regressor_predict.
  rewrite run_bind, run_emit, run_ret. cbn [heap trace].
  rewrite run_bind, run_emit, run_ret. cbn [heap trace].
  rewrite run_bind, run_emit, run_ret. cbn [heap trace].
  assert (Hl1 : (<[l3:=OFrame d']> h2) !! l1 = Some (OFrame d0)).
  { eapply lookup_weaken; [|apply insert_subseteq, Hfresh].
    eapply lookup_weaken; [|exact Hsub]. apply lookup_insert_eq. }
  rewrite (run_read_frame _ _ l1 d0) by done. rewrite run_ret.
  exists (<[l3:=OFrame d']> h2). split.
  - etrans; [apply insert_fresh_subseteq|]. etrans; [exact Hsub|].
    by apply insert_subseteq.
  - unfold batch_result, batch_trace. rewrite <- !app_assoc. done.
Qed.

Lemma predict_single_run w p r :
  heap w !! p = Some (ODict r) →
  Forall (has_column [r]) REQUIRED →
  ∃ h, heap w ⊆ h ∧
    run (predict_single arctan2 self p) w =
      (Ok (single_result r), mkWorld h (trace w ++ single_trace r)).
Proof.
  intros Hp Hcols.
  destruct (engineered_records arctan2 [r] Hcols)
    as (d' & cols & Heng & Hn & Hsel & HX & HAc).
  assert (Hds : dicts_at (heap w) [p] [r]) by (by repeat constructor).
  unfold predict_single. rewrite (run_DataFrame_of _ _ _ _ Hds).
  set (l1 := fresh_loc (heap w)).
  set (d0 := Pd.of_records [r]) in *.
  set (w1 := mkWorld _ _).
  destruct (process_run w1 l1 d0 d') as (l3 & h2 & Hsub & Hfresh & Hrun);
    [apply lookup_insert_eq|done|].
  rewrite run_bind, Hrun. cbn [heap trace w1] in *.
  rewrite run_getitems, Hsel, HX.
  rewrite run_getitem, HAc.
  cbn [fmap list_fmap first]. rewrite run_bind, run_ret.
  unfold classifier_predict, classifier_predict_proba, regressor_predict.
  rewrite run_bind, run_emit, run_ret. cbn [heap trace fmap list_fmap first].
  rewrite run_bind, run_ret.
  rewrite run_bind, run_emit, run_ret. cbn [heap trace fmap list_fmap first].
  rewrite run_bind, run_ret.
  assert (Hp' : (<[l3:=OFrame d']> h2) !! p = Some (ODict r)).
  { eapply lookup_weaken; [|apply insert_subseteq, Hfresh].
    eapply lookup_weaken; [|exact Hsub].
    eapply lookup_weaken; [exact Hp|]. apply insert_fresh_subseteq. }
  rewrite (run_read_dict _ _ p r) by done.
  assert (Hsubh : heap w ⊆ <[l3:=OFrame d']> h2).
  { etrans; [apply insert_fresh_subseteq|]. etrans; [exact Hsub|].
    by apply insert_subseteq. }
  exists (<[l3:=OFrame d']> h2). split; [done|].
  unfold single_result, single_trace.
  destruct (clf_predict self (feature_row arctan2 r) =? 0)%Z.
  - rewrite run_ret. by rewrite <- !app_assoc.
  - rewrite run_bind, run_emit, run_ret. cbn [heap trace fmap list_fmap first].
    rewrite run_bind, run_ret.
    destruct (PrimFloat.ltb 0 (default 0%float (r !! "As")));
      rewrite run_ret; by rewrite <- !app_assoc.
Qed.

End PredictorFacts.

(** ** Sorting *)

Section SortFacts.

#[local] Instance leb_pairs_trans :
  Transitive (λ p q : nat * float, PrimFloat.leb p.2 q.2 = true).
Proof. intros p q r. apply FloatFacts.leb_trans. Qed.

#[local] Instance ties_kept_total : Total ties_kept.
Proof.
  intros p q. unfold ties_kept.
  destruct (PrimFloat.ltb q.2 p.2) eqn:E; [right|by left].
  by apply FloatFacts.ltb_asym.
Qed.

#[local] Instance ties_swapped_total : Total ties_swapped.
Proof.
  intros p q. unfold ties_swapped.
  destruct (PrimFloat.ltb p.2 q.2) eqn:E1; [by left; left|].
  destruct (PrimFloat.ltb q.2 p.2) eqn:E2; [by right; left|].
  destruct (decide (q.1 ≤ p.1)); [left|right]; right; split; [done|done|done|lia].
Qed.

Lemma ties_kept_leb p q :
  Np.isnan p.2 = false → Np.isnan q.2 = false → ties_kept p q →
  PrimFloat.leb p.2 q.2 = true.
Proof. intros Hp Hq H. by apply FloatFacts.not_ltb_leb. Qed.

Lemma ties_swapped_leb p q :
  Np.isnan p.2 = false → Np.isnan q.2 = false → ties_swapped p q →
  PrimFloat.leb p.2 q.2 = true.
Proof.
  intros Hp Hq [H|[H _]]; [by apply FloatFacts.ltb_leb|by apply FloatFacts.not_ltb_leb].
Qed.

Lemma Sorted_impl_Forall {A} (P : A → Prop) (R R' : relation A) l :
  (∀ x y, P x → P y → R x y → R' x y) →
  Forall P l → Sorted R l → Sorted R' l.
Proof.
  intros HR HP Hs. induction Hs as [|x l Hs IH Hhd]; [constructor|].
  apply Forall_cons in HP as [Hx Hl]. constructor; [by apply IH|].
  destruct Hhd as [|y l' Hxy]; constructor.
  apply Forall_cons in Hl as [Hy _]. by apply HR.
Qed.

Lemma StronglySorted_lookup {A} (R : relation A) l j k x y :
  StronglySorted R l → j < k → l !! j = Some x → l !! k = Some y → R x y.
Proof.
  intros Hs. revert j k. induction Hs as [|z l Hs IH Hall]; intros j k Hjk Hj Hk.
  - by rewrite lookup_nil in Hj.
  - destruct k as [|k]; [lia|]. cbn in Hk. destruct j as [|j].
    + cbn in Hj. injection Hj as ->.
      eapply (proj1 (Forall_forall _ _) Hall), list_elem_of_lookup_2, Hk.
    + cbn in Hj. eapply (IH j k); [lia|done|done].
Qed.

Lemma elem_of_zip_seq (v : list float) i x :
  (i, x) ∈ zip (seq 0 (length v)) v → v !! i = Some x.
Proof.
  intros Hin. apply list_elem_of_lookup in Hin as [j Hj].
  apply lookup_zip_with_Some in Hj as (i' & x' & [= -> ->] & Hi & Hx).
  apply lookup_seq in Hi as [-> _]. done.
Qed.

Lemma argsort_by_spec (R : relation (nat * float)) `{∀ p q, Decision (R p q)} :
  Total R →
  (∀ p q, Np.isnan p.2 = false → Np.isnan q.2 = false → R p q →
          PrimFloat.leb p.2 q.2 = true) →
  argsort_spec (argsort_by R).
Proof.
  intros Htot Hleb v Hv. unfold argsort_by.
  set (l := zip (seq 0 (length v)) v).
  pose proof (merge_sort_Permutation R l) as Hperm.
  split.
  - rewrite Hperm. unfold l. rewrite fst_zip; [done|]. by rewrite length_seq.
  - assert (Hin : Forall (λ p, v !! p.1 = Some p.2 ∧ Np.isnan p.2 = false)
                         (merge_sort R l)).
    { rewrite Hperm. apply Forall_forall. intros [i x] Hix.
      apply elem_of_zip_seq in Hix. split; [done|].
      eapply (proj1 (Forall_forall _ _) Hv), list_elem_of_lookup_2, Hix. }
    assert (Hs : StronglySorted (λ p q, PrimFloat.leb p.2 q.2 = true) (merge_sort R l)).
    { apply Sorted_StronglySorted; [apply _|].
      eapply (Sorted_impl_Forall _ R); [|exact Hin|by apply Sorted_merge_sort].
      intros p q [_ Hp] [_ Hq]. by apply Hleb. }
    intros j k a b x y Hjk Hj Hk Ha Hb.
    apply list_lookup_fmap_Some in Hj as (p & -> & Hp).
    apply list_lookup_fmap_Some in Hk as (q & -> & Hq).
    pose proof (StronglySorted_lookup _ _ _ _ _ _ Hs Hjk Hp Hq) as Hpq.
    apply list_elem_of_lookup_2 in Hp, Hq.
    apply (proj1 (Forall_forall _ _) Hin) in Hp as [Hp _], Hq as [Hq _].
    by simplify_eq.
Qed.

Lemma argsort_ties_kept_spec : argsort_spec argsort_ties_kept.
Proof. apply argsort_by_spec; [apply _|apply ties_kept_leb]. Qed.

Lemma argsort_ties_swapped_spec : argsort_spec argsort_ties_swapped.
Proof. apply argsort_by_spec; [apply _|apply ties_swapped_leb]. Qed.

End SortFacts.

Section NargsortFacts.

Variable argsort : list float → list nat.
Hypothesis argsort_ok : argsort_spec argsort.

Lemma fmap_lookup_seq {A} (dflt : A) (l : list A) :
  (λ j, default dflt (l !! j)) <$> seq 0 (length l) = l.
Proof.
  apply list_eq. intros i. rewrite list_lookup_fmap.
  destruct (decide (i < length l)) as [Hi|Hi].
  - rewrite lookup_seq_lt by done. cbn.
    destruct (lookup_lt_is_Some_2 l i Hi) as [x ->]. done.
  - rewrite (proj2 (lookup_ge_None l i)) by lia.
    rewrite (proj2 (lookup_ge_None (seq 0 (length l)) i)); [done|].
    rewrite length_seq. lia.
Qed.

Lemma nargsort_perm items : nargsort argsort items ≡ₚ seq 0 (length items).
Proof.
  unfold nargsort. cbv zeta.
  set (idx := seq 0 (length items)).
  set (N := filter (λ i, Np.isnan (default Np.nan (items !! i)) ≠ true) idx).
  set (at_ := λ i, default Np.nan (items !! i)).
  assert (HV : Forall (λ x, Np.isnan x = false) (at_ <$> N)).
  { apply Forall_fmap, Forall_forall. intros i Hi.
    apply list_elem_of_filter in Hi as [Hi _].
    apply not_true_is_false, Hi. }
  destruct (argsort_ok _ HV) as [Hperm _].
  rewrite Hperm, length_fmap, fmap_lookup_seq.
  rewrite (Permutation_app_comm N). apply filter_app_complement.
Qed.

Lemma nargsort_sorted items :
  ascending_nan_last (Opt.take_col Np.nan (nargsort argsort items) items).
Proof.
  unfold nargsort, Opt.take_col. cbv zeta.
  set (idx := seq 0 (length items)).
  set (N := filter (λ i, Np.isnan (default Np.nan (items !! i)) ≠ true) idx).
  set (mask := λ i, Np.isnan (default Np.nan (items !! i)) = true).
  set (at_ := λ i, default Np.nan (items !! i)).
  set (V := at_ <$> N).
  assert (HV : Forall (λ x, Np.isnan x = false) V).
  { apply Forall_fmap, Forall_forall. intros i Hi.
    apply list_elem_of_filter in Hi as [Hi _].
    apply not_true_is_false, Hi. }
  destruct (argsort_ok _ HV) as [Hperm Hsorted].
  set (S := argsort V) in *.
  (* a position of the sorted part holds a value of [V] *)
  assert (Hfront : ∀ j x,
            (at_ <$> ((λ j, default 0 (N !! j)) <$> S)) !! j = Some x →
            ∃ a, S !! j = Some a ∧ V !! a = Some x).
  { intros j x Hj. rewrite <- list_fmap_compose in Hj.
    apply list_lookup_fmap_Some in Hj as (a & -> & Ha).
    exists a. split; [done|].
    assert (Hlt : a < length V).
    { apply list_elem_of_lookup_2 in Ha. rewrite Hperm in Ha.
      apply elem_of_seq in Ha. lia. }
    unfold V in *. rewrite length_fmap in Hlt.
    destruct (lookup_lt_is_Some_2 N a Hlt) as [i Hi].
    rewrite list_lookup_fmap, Hi. unfold compose. by rewrite Hi. }
  (* a position of the rest holds a NaN *)
  assert (Hback : ∀ x, x ∈ at_ <$> filter mask idx → Np.isnan x = true).
  { intros x Hx. apply list_elem_of_fmap in Hx as (i & -> & Hi).
    by apply list_elem_of_filter in Hi as [Hi _]. }
  intros j k a b Hjk Hj Hk. rewrite fmap_app in Hj, Hk.
  set (front := at_ <$> ((λ j, default 0 (N !! j)) <$> S)) in *.
  destruct (decide (k < length front)) as [Hlt|Hge].
  - right. rewrite lookup_app_l in Hj, Hk by lia.
    apply Hfront in Hj as (a' & Ha' & Hxa), Hk as (b' & Hb' & Hxb).
    split.
    + eapply (proj1 (Forall_forall _ _) HV), list_elem_of_lookup_2, Hxa.
    + by eapply (Hsorted j k a' b').
  - left. rewrite lookup_app_r in Hk by lia.
    eapply Hback, list_elem_of_lookup_2, Hk.
Qed.

Lemma take_col_perm {A} (dflt : A) (idx : list nat) (c : list A) :
  idx ≡ₚ seq 0 (length c) → Opt.take_col dflt idx c ≡ₚ c.
Proof.
  intros Hperm. unfold Opt.take_col. rewrite Hperm. by rewrite fmap_lookup_seq.
Qed.

End NargsortFacts.

(** ** The predictor on records that lack a column *)

Section PredictorErrors.

Variable arctan2 : float → float → float.
Variable self : PillarPredictor.

Lemma predict_batch_raise w locs records :
  dicts_at (heap w) locs records →
  ¬ Forall (has_column records) REQUIRED →
  ∃ key h t,
    heap w ⊆ h ∧
    run (predict_batch arctan2 self locs) w = (Raise (KeyError key), mkWorld h t).
Proof.
  intros Hds Hmiss.
  unfold predict_batch. rewrite (run_DataFrame_of _ _ _ _ Hds).
  set (l1 := fresh_loc (heap w)).
  set (d0 := Pd.of_records records) in *.
  set (w1 := mkWorld _ _).
  assert (Hw1 : heap w ⊆ heap w1) by apply insert_fresh_subseteq.
  destruct (engineered_frame arctan2 d0) as [d'|e] eqn:Heng.
  - destruct (process_run arctan2 w1 l1 d0 d') as (l3 & h2 & Hsub & Hfresh & Hrun);
      [apply lookup_insert_eq|done|].
    rewrite run_bind, Hrun. rewrite run_getitems.
    assert (Hcob : columns d' !! "Cobrimento"%string = None).
    { rewrite (engineered_frame_keep _ _ _ _ Heng) by in_list.
      apply of_records_no_column. intros Hcob. apply Hmiss.
      unfold REQUIRED. apply Forall_app. split; [|by apply Forall_singleton].
      apply Forall_forall. intros key Hkey.
      destruct (decide (has_column records key)) as [|Hno]; [done|].
      apply (engineered_frame_raw _ _ _ _ Heng) in Hkey as [c Hc].
      unfold d0 in Hc. by rewrite of_records_no_column in Hc. }
    destruct (select_raise d' FEATURE_COLUMNS "Cobrimento") as [key ->];
      [in_list|done|].
    eexists key, _, _. split; [|done].
    etrans; [exact Hw1|]. etrans; [exact Hsub|]. by apply insert_subseteq.
  - destruct (engineered_frame_raise _ _ _ Heng) as (key & -> & _).
    destruct (process_run_raise arctan2 w1 l1 d0 (KeyError key)) as (h2 & Hsub & Hrun);
      [apply lookup_insert_eq|done|].
    rewrite run_bind, Hrun. eexists key, _, _. split; [|done].
    by etrans.
Qed.

End PredictorErrors.

(** ** The optimizer *)

Section OptimizerFacts.

Variable arctan2 : float → float → float.
Variable predictor : PillarPredictor.
Variable argsort : list float → list nat.

Variables fixed_params loads : gmap string float.

Lemma run_alloc {B} (k : loc → M B) w o :
  run (alloc o ≫= k) w =
    run (k (fresh_loc (heap w))) (mkWorld (<[fresh_loc (heap w) := o]> (heap w)) (trace w)).
Proof. reflexivity. Qed.

Lemma run_dict_setitem {B} (k : unit → M B) h t l d key v :
  run (Py.dict_setitem l key v ≫= k) (mkWorld (<[l := ODict d]> h) t) =
    run (k tt) (mkWorld (<[l := ODict (<[key := v]> d)]> h) t).
Proof.
  unfold run, Py.dict_setitem, mbind, M_bind, bind, read_dict, write. simpl.
  rewrite lookup_insert_eq. simpl. by rewrite insert_insert_eq.
Qed.

Lemma run_contains {B} (k : bool → M B) h t l d key :
  run (Py.contains l key ≫= k) (mkWorld (<[l := ODict d]> h) t) =
    run (k (bool_decide (is_Some (d !! key)))) (mkWorld (<[l := ODict d]> h) t).
Proof.
  unfold run, Py.contains, mbind, M_bind, bind, read_dict. simpl.
  by rewrite lookup_insert_eq.
Qed.

Lemma run_make_candidate w b :
  run (make_candidate fixed_params loads b) w =
    (Ok (fresh_loc (heap w)),
     mkWorld (<[fresh_loc (heap w) := ODict (candidate_of fixed_params loads b)]> (heap w))
             (trace w)).
Proof.
  unfold make_candidate, candidate_of.
  rewrite run_alloc, run_dict_setitem, run_contains. cbv zeta.
  destruct (bool_decide _); cbn [negb].
  - rewrite run_bind, run_ret, run_dict_setitem. done.
  - rewrite run_dict_setitem, run_dict_setitem. done.
Qed.

Lemma run_make_candidates w grid :
  ∃ locs h,
    heap w ⊆ h ∧
    dicts_at h locs (candidate_of fixed_params loads <$> grid) ∧
    run (mapM (make_candidate fixed_params loads) grid) w = (Ok locs, mkWorld h (trace w)).
Proof.
  revert w. induction grid as [|b grid IH]; intros w.
  - exists [], (heap w). split; [done|]. split; [constructor|]. by destruct w.
  - cbn [mapM]. rewrite run_bind, run_make_candidate.
    set (l := fresh_loc (heap w)). set (w1 := mkWorld _ _).
    destruct (IH w1) as (locs & h & Hsub & Hds & Hrun).
    rewrite run_bind, Hrun. exists (l :: locs), h. split; [|split; [|done]].
    + etrans; [apply insert_fresh_subseteq|exact Hsub].
    + constructor; [|done]. eapply lookup_weaken; [|exact Hsub].
      apply lookup_insert_eq.
Qed.

Lemma run_dict_getitems h t locs ds key :
  dicts_at h locs ds → Forall (λ d, is_Some (d !! key)) ds →
  run (mapM (λ c, Py.dict_getitem c key) locs) (mkWorld h t) =
    (Ok (Pd.cell key <$> ds), mkWorld h t).
Proof.
  intros Hds. induction Hds as [|l d locs ds Hl _ IH]; intros Hkey; [done|].
  apply Forall_cons in Hkey as [[v Hv] Hkey].
  cbn [mapM]. rewrite run_bind. unfold Py.dict_getitem at 1.
  rewrite (run_read_dict _ _ l d) by done.
  unfold Py.getitem. rewrite Hv. unfold run at 1, lift.
  rewrite run_bind, IH by done. rewrite run_ret. cbn [fmap list_fmap].
  unfold Pd.cell at 2. by rewrite Hv.
Qed.

Lemma candidate_has_largura b : is_Some (candidate_of fixed_params loads b !! "largura").
Proof.
  unfold candidate_of. cbv zeta. rewrite lookup_insert_ne by done.
  destruct (bool_decide _).
  - rewrite lookup_insert_eq. by eexists.
  - rewrite lookup_insert_ne by done. rewrite lookup_insert_eq. by eexists.
Qed.

Lemma candidate_has_altura b : is_Some (candidate_of fixed_params loads b !! "Altura").
Proof.
  unfold candidate_of. cbv zeta. rewrite lookup_insert_ne by done.
  destruct (bool_decide _) eqn:E.
  - by apply bool_decide_eq_true_1 in E.
  - rewrite lookup_insert_eq. by eexists.
Qed.

End OptimizerFacts.

Section OptimizerRun.

Variable arctan2 : float → float → float.
Variable predictor : PillarPredictor.
Variable argsort : list float → list nat.
Variables fixed_params loads : gmap string float.
Variable constraints : gmap string Z.
Variable costs : gmap string float.

Local Abbreviation grid_of := (grid_of constraints).

(** [find_optimal_width] runs to the end of [predict_batch] when the
    candidates have the required columns, and the rest decides the result. *)
Lemma find_optimal_width_run w grid :
  grid_of = Ok grid →
  Forall (has_column (candidate_of fixed_params loads <$> grid)) REQUIRED →
  ∃ h,
    heap w ⊆ h ∧
    run (find_optimal_width arctan2 predictor argsort fixed_params loads constraints costs) w =
      (after_batch arctan2 predictor argsort fixed_params costs
         (candidate_of fixed_params loads <$> grid),
       mkWorld h (trace w ++ batch_trace arctan2
                                (candidate_of fixed_params loads <$> grid))).
Proof.
  unfold grid_of, find_optimal_width, after_batch. intros Hgrid Hcols.
  rewrite run_lift_bind.
  destruct (Py.getitem constraints "min_largura") as [lo|]; [|discriminate Hgrid].
  rewrite result_bind_ok in Hgrid. rewrite run_lift_bind.
  destruct (Py.getitem constraints "max_largura") as [hi|]; [|discriminate Hgrid].
  rewrite result_bind_ok in Hgrid. rewrite run_lift_bind.
  destruct (Py.getitem constraints "step") as [st|]; [|discriminate Hgrid].
  rewrite result_bind_ok in Hgrid. rewrite run_lift_bind, Hgrid.
  set (cands := candidate_of fixed_params loads <$> grid) in *.
  destruct (run_make_candidates fixed_params loads w grid)
    as (locs & h1 & Hsub1 & Hds & Hmk).
  rewrite run_bind, Hmk.
  destruct (predict_batch_run arctan2 predictor (mkWorld h1 (trace w)) locs cands)
    as (h2 & Hsub2 & Hpb); [done|done|].
  rewrite run_bind, Hpb. cbn [heap trace] in *.
  assert (Hds2 : dicts_at h2 locs cands) by (by eapply dicts_at_weaken).
  rewrite run_bind, (run_dict_getitems h2 _ locs cands "largura"); [|done|].
  2:{ apply Forall_fmap, Forall_forall. intros b _. apply candidate_has_largura. }
  rewrite run_bind, (run_dict_getitems h2 _ locs cands "Altura"); [|done|].
  2:{ apply Forall_fmap, Forall_forall. intros b _. apply candidate_has_altura. }
  exists h2. split; [by etrans|].
  rewrite run_lift_bind.
  destruct (Py.getitem fixed_params "PeDireito") as [pe|]; [|done].
  rewrite result_bind_ok. cbv zeta. rewrite run_lift_bind.
  destruct (Py.getitem costs "concreto_m3") as [cm|]; [|done].
  rewrite result_bind_ok, run_lift_bind.
  destruct (Py.getitem costs "aco_kg") as [ck|]; [|done].
  rewrite result_bind_ok, run_ret. done.
Qed.

(** When it returns a table, that table is the sorted annotated grid. *)
Lemma find_optimal_width_inv w df w' :
  run (find_optimal_width arctan2 predictor argsort fixed_params loads constraints costs) w =
    (Ok df, w') →
  ∃ grid pe_direito concreto_m3 aco_kg,
    grid_of = Ok grid ∧
    Forall (has_column (candidate_of fixed_params loads <$> grid)) REQUIRED ∧
    fixed_params !! "PeDireito" = Some pe_direito ∧
    costs !! "concreto_m3" = Some concreto_m3 ∧
    costs !! "aco_kg" = Some aco_kg ∧
    df = sort_values_custo_total argsort
           (annotate arctan2 predictor (candidate_of fixed_params loads <$> grid)
              pe_direito concreto_m3 aco_kg) ∧
    heap w ⊆ heap w' ∧
    trace w' = trace w ++ batch_trace arctan2
                            (candidate_of fixed_params loads <$> grid).
Proof.
  intros Hrun.
  destruct grid_of as [grid|e] eqn:Hgrid.
  - destruct (decide (Forall (has_column (candidate_of fixed_params loads <$> grid)) REQUIRED))
      as [Hcols|Hmiss].
    + destruct (find_optimal_width_run w grid Hgrid Hcols) as (h & Hsub & Hrun').
      rewrite Hrun' in Hrun. unfold after_batch, Py.getitem in Hrun.
      destruct (fixed_params !! "PeDireito") as [pe|]; [|discriminate Hrun].
      destruct (costs !! "concreto_m3") as [cm|]; [|discriminate Hrun].
      destruct (costs !! "aco_kg") as [ck|]; [|discriminate Hrun].
      rewrite !result_bind_ok in Hrun. injection Hrun as <- <-.
      by exists grid, pe, cm, ck.
    + exfalso. revert Hrun. unfold grid_of, find_optimal_width in *.
      rewrite run_lift_bind.
      destruct (Py.getitem constraints "min_largura") as [lo|]; [|discriminate Hgrid].
      rewrite result_bind_ok in Hgrid. rewrite run_lift_bind.
      destruct (Py.getitem constraints "max_largura") as [hi|]; [|discriminate Hgrid].
      rewrite result_bind_ok in Hgrid. rewrite run_lift_bind.
      destruct (Py.getitem constraints "step") as [st|]; [|discriminate Hgrid].
      rewrite result_bind_ok in Hgrid. rewrite run_lift_bind, Hgrid.
      destruct (run_make_candidates fixed_params loads w grid)
        as (locs & h1 & Hsub1 & Hds & Hmk).
      rewrite run_bind, Hmk.
      destruct (predict_batch_raise arctan2 predictor (mkWorld h1 (trace w)) locs _ Hds Hmiss)
        as (key & h2 & t2 & _ & Hpb).
      rewrite run_bind, Hpb. discriminate.
  - exfalso. revert Hrun. unfold grid_of, find_optimal_width in *.
    rewrite run_lift_bind.
    destruct (Py.getitem constraints "min_largura") as [lo|]; [|discriminate].
    rewrite result_bind_ok in Hgrid. rewrite run_lift_bind.
    destruct (Py.getitem constraints "max_largura") as [hi|]; [|discriminate].
    rewrite result_bind_ok in Hgrid. rewrite run_lift_bind.
    destruct (Py.getitem constraints "step") as [st|]; [|discriminate].
      rewrite result_bind_ok in Hgrid. rewrite run_lift_bind, Hgrid. discriminate.
Qed.

(** With a grid, the required columns and the three prices and lengths it
    reads, it returns the sorted annotated grid. *)
Lemma find_optimal_width_returns w grid pe_direito concreto_m3 aco_kg :
  grid_of = Ok grid →
  Forall (has_column (candidate_of fixed_params loads <$> grid)) REQUIRED →
  fixed_params !! "PeDireito" = Some pe_direito →
  costs !! "concreto_m3" = Some concreto_m3 →
  costs !! "aco_kg" = Some aco_kg →
  ∃ w',
    run (find_optimal_width arctan2 predictor argsort fixed_params loads constraints costs) w =
      (Ok (sort_values_custo_total argsort
             (annotate arctan2 predictor (candidate_of fixed_params loads <$> grid)
                pe_direito concreto_m3 aco_kg)), w').
Proof.
  intros Hgrid Hcols Hpe Hcm Hck.
  destruct (find_optimal_width_run w grid Hgrid Hcols) as (h & _ & Hrun).
  eexists. rewrite Hrun. unfold after_batch, Py.getitem. rewrite Hpe, Hcm, Hck.
  reflexivity.
Qed.

End OptimizerRun.

(** ** [range] *)



(** ** What [create_engineered_features] does to the heap *)

Section FeatureEffects.

Variable arctan2 : float → float → float.

(** Whatever the outcome, the objects that existed before the call are the
    same after it, and no model is invoked. *)
Lemma cef_frame w l r w' :
  run (create_engineered_features arctan2 l) w = (r, w') →
  heap w ⊆ heap w' ∧ trace w' = trace w.
Proof.
  intros Hrun.
  destruct (heap w !! l) as [[r0|d]|] eqn:Hl.
  - unfold create_engineered_features, Pd.copy in Hrun.
    rewrite !run_bind in Hrun. unfold run at 1, read_frame in Hrun.
    rewrite Hl in Hrun. by injection Hrun as <- <-.
  - destruct (engineered_frame arctan2 d) as [d'|e] eqn:Heng.
    + rewrite (cef_run _ _ _ _ _ Hl Heng) in Hrun. injection Hrun as <- <-.
      split; [apply insert_fresh_subseteq|done].
    + rewrite (cef_run_raise _ _ _ _ _ Hl Heng) in Hrun. injection Hrun as <- <-.
      split; [apply insert_fresh_subseteq|done].
  - unfold create_engineered_features, Pd.copy in Hrun.
    rewrite !run_bind in Hrun. unfold run at 1, read_frame in Hrun.
    rewrite Hl in Hrun. by injection Hrun as <- <-.
Qed.

(** On a frame that has the ten raw columns it returns. *)
Lemma cef_total w l d :
  heap w !! l = Some (OFrame d) →
  Forall (λ key, is_Some (columns d !! key)) RAW →
  ∃ l' w' d',
    run (create_engineered_features arctan2 l) w = (Ok l', w') ∧
    engineered_frame arctan2 d = Ok d' ∧
    heap w !! l' = None ∧ heap w' !! l = Some (OFrame d) ∧
    heap w' !! l' = Some (OFrame d').
Proof.
  intros Hl Hraw. destruct (engineered_frame_ok arctan2 d Hraw) as [d' Heng].
  eexists _, _, d'. split; [exact (cef_run arctan2 _ _ _ _ Hl Heng)|].
  split; [done|]. split; [apply fresh_loc_None|]. cbn [heap].
  split; [|apply lookup_insert_eq].
  eapply lookup_weaken; [exact Hl|apply insert_fresh_subseteq].
Qed.

(** The frame it returns for a frame with a full row [i], and the cells of
    that row. *)
Lemma cef_cells w l d i r :
  heap w !! l = Some (OFrame d) →
  raw_at d i = Some r →
  ∃ l' w' d',
    run (create_engineered_features arctan2 l) w = (Ok l', w') ∧
    heap w' !! l' = Some (OFrame d') ∧
    ∀ key v, (key, v) ∈ engineer arctan2 r → cell_at d' key i = Some v.
Proof.
  intros Hl Hraw.
  destruct (cef_total w l d Hl (raw_at_columns d i r Hraw))
    as (l' & w' & d' & Hrun & Heng & _ & _ & Hl').
  exists l', w', d'. split; [done|]. split; [done|].
  intros key v Hkv. by eapply engineered_cell.
Qed.

End FeatureEffects.

(** * The claims *)

Section FeatureClaims.

Local Open Scope float_scope.

(** C4.  For every row of the frame given to [create_engineered_features],
    the frame returned holds [Ac = largura * Altura] and
    [nu = (N_max * 1.4) / (Ac * fcd)],
    [mu_x = (Mx_max * 1.4 * 100) / (Ac * Altura * fcd)],
    [mu_y = (My_max * 1.4 * 100) / (Ac * largura * fcd)], with
    [fcd = (fck / 1.4) / 10] and [N_max], [Mx_max], [My_max] the maxima of
    the absolute top and base values: the absolute top value when the
    absolute base value is no larger, the absolute base value when it is
    larger, and NaN when one of the two is NaN.  On the record of
    scenario A, [Ac] is 2850 and [nu], [mu_x], [mu_y] are the values of
    these formulas, with the base values of 392, 205 and 430; with
    [N_top = -500], [N_base = 300] and [Mx_top = -250] in that record they
    are the values of the formulas with the top values of 500 and 250.
    The two coefficients are the binary64 number of 1.4. *)
Theorem C4_engineered_features :
  (∀ arctan2 w l d i r,
     heap w !! l = Some (OFrame d) →
     raw_at d i = Some r →
     ∃ l' w' d',
       run (create_engineered_features arctan2 l) w = (Ok l', w') ∧
       heap w' !! l' = Some (OFrame d') ∧
       let larger (a b m : float) : Prop :=
         ((b <=? a) = true → m = a) ∧
         ((a <? b) = true → m = b) ∧
         ((a =? a) = false ∨ (b =? b) = false → (m =? m) = false) in
       let N_max := Np.maximum (abs (Raw.N_top r)) (abs (Raw.N_base r)) in
       let Mx_max := Np.maximum (abs (Raw.Mx_top r)) (abs (Raw.Mx_base r)) in
       let My_max := Np.maximum (abs (Raw.My_top r)) (abs (Raw.My_base r)) in
       let fcd := (Raw.fck r / GAMMA_C) / 10 in
       let Ac := Raw.largura r * Raw.Altura r in
       larger (abs (Raw.N_top r)) (abs (Raw.N_base r)) N_max ∧
       larger (abs (Raw.Mx_top r)) (abs (Raw.Mx_base r)) Mx_max ∧
       larger (abs (Raw.My_top r)) (abs (Raw.My_base r)) My_max ∧
       cell_at d' "Ac" i = Some Ac ∧
       cell_at d' "nu" i = Some ((N_max * GAMMA_F) / (Ac * fcd)) ∧
       cell_at d' "mu_x" i = Some ((Mx_max * GAMMA_F * 100) / (Ac * Raw.Altura r * fcd)) ∧
       cell_at d' "mu_y" i = Some ((My_max * GAMMA_F * 100) / (Ac * Raw.largura r * fcd)))
  ∧
  (∀ arctan2, ∃ l' w' d',
     run (create_engineered_features arctan2 0%nat) world_frame_A = (Ok l', w') ∧
     heap w' !! l' = Some (OFrame d') ∧
     cell_at d' "Ac" 0 = Some 2850 ∧
     cell_at d' "nu" 0 = Some 0x1.b9b08c91a8192p-5 ∧
     cell_at d' "mu_x" 0 = Some 0x1.e6491c8c90a64p-6 ∧
     cell_at d' "mu_y" 0 = Some 0x1.93c162e40efe9p-3 ∧
     0x1.b9b08c91a8192p-5 = (392 * GAMMA_F) / (2850 * ((50 / GAMMA_C) / 10)) ∧
     0x1.e6491c8c90a64p-6 = (205 * GAMMA_F * 100) / (2850 * 95 * ((50 / GAMMA_C) / 10)) ∧
     0x1.93c162e40efe9p-3 = (430 * GAMMA_F * 100) / (2850 * 30 * ((50 / GAMMA_C) / 10)))
  ∧
  (∀ arctan2, ∃ l' w' d',
     run (create_engineered_features arctan2 0%nat) (world_frame_of scenario_A_top_heavy) =
       (Ok l', w') ∧
     heap w' !! l' = Some (OFrame d') ∧
     cell_at d' "Ac" 0 = Some 2850 ∧
     cell_at d' "nu" 0 = Some 0x1.19b09857ab34ap-4 ∧
     cell_at d' "mu_x" 0 = Some 0x1.2883fead20018p-5 ∧
     cell_at d' "mu_y" 0 = Some 0x1.93c162e40efe9p-3 ∧
     0x1.19b09857ab34ap-4 = (500 * GAMMA_F) / (2850 * ((50 / GAMMA_C) / 10)) ∧
     0x1.2883fead20018p-5 = (250 * GAMMA_F * 100) / (2850 * 95 * ((50 / GAMMA_C) / 10)))
  ∧ GAMMA_F = 14 / 10 ∧ GAMMA_C = 14 / 10.
Proof.
  split; [|split; [|split; [|split; reflexivity]]].
  - intros arctan2 w l d i r Hl Hraw.
    destruct (cef_cells arctan2 w l d i r Hl Hraw) as (l' & w' & d' & Hrun & Hl' & Hcell).
    exists l', w', d'. split; [done|]. split; [done|]. cbv zeta.
    split; [apply maximum_larger|]. split; [apply maximum_larger|].
    split; [apply maximum_larger|].
    repeat split; apply Hcell; unfold engineer; cbv zeta.
    + do 6 right. left.
    + do 7 right. left.
    + do 8 right. left.
    + do 9 right. left.
  - intros arctan2.
    assert (Hl : heap world_frame_A !! 0%nat = Some (OFrame (Pd.of_records [scenario_A])))
      by (vm_compute; reflexivity).
    assert (Hraw : raw_at (Pd.of_records [scenario_A]) 0 =
                   Some (Raw.mk 30 95 235 50 392 392 129 205 (-92) 430))
      by (vm_compute; reflexivity).
    destruct (cef_cells arctan2 _ _ _ _ _ Hl Hraw) as (l' & w' & d' & Hrun & Hl' & Hcell).
    exists l', w', d'. split; [done|]. split; [done|].
    split; [|split; [|split; [|split; [|split; [|split]]]]];
      try (vm_compute; reflexivity);
      apply Hcell; unfold engineer; cbv zeta.
    + do 6 right. left.
    + do 7 right. left.
    + do 8 right. left.
    + do 9 right. left.
  - intros arctan2.
    assert (Hl : heap (world_frame_of scenario_A_top_heavy) !! 0%nat =
                 Some (OFrame (Pd.of_records [scenario_A_top_heavy])))
      by (vm_compute; reflexivity).
    assert (Hraw : raw_at (Pd.of_records [scenario_A_top_heavy]) 0 =
                   Some (Raw.mk 30 95 235 50 (-500) 300 (-250) 205 (-92) 430))
      by (vm_compute; reflexivity).
    destruct (cef_cells arctan2 _ _ _ _ _ Hl Hraw) as (l' & w' & d' & Hrun & Hl' & Hcell).
    exists l', w', d'. split; [done|]. split; [done|].
    split; [|split; [|split; [|split; [|split]]]];
      try (vm_compute; reflexivity);
      apply Hcell; unfold engineer; cbv zeta.
    + do 6 right. left.
    + do 7 right. left.
    + do 8 right. left.
    + do 9 right. left.
Qed.

End FeatureClaims.

(** The general part of C4 at scenario A with the larger load and moment
    at the top: the frame of the record is at location 0, its row 0 holds
    the raw cells, and [nu] and [mu_x] are those of 500 and 250. *)
Lemma C4_witness :
  ∃ d', cell_at d' "Ac" 0 = Some 2850%float ∧
        cell_at d' "nu" 0 = Some 0x1.19b09857ab34ap-4%float ∧
        cell_at d' "mu_x" 0 = Some 0x1.2883fead20018p-5%float.
Proof.
  destruct (proj1 C4_engineered_features arctan2_example (world_frame_of scenario_A_top_heavy) 0
              (Pd.of_records [scenario_A_top_heavy]) 0
              (Raw.mk 30 95 235 50 (-500) 300 (-250) 205 (-92) 430))
    as (l' & w' & d' & _ & _ & _ & _ & _ & HAc & Hnu & Hmux & _).
  - vm_compute. reflexivity.
  - vm_compute. reflexivity.
  - exists d'. split; [exact HAc|]. split; [exact Hnu|exact Hmux].
Defined.

Section FeatureClaims2.

Local Open Scope float_scope.

(** C7.  In the frame that [create_engineered_features] returns, every row
    has [mu_total = sqrt (mu_x * mu_x + mu_y * mu_y)] for the [mu_x] and
    [mu_y] of that row; and a row of a square section ([largura = Altura],
    a positive finite number as the data model has it) has
    [lambda_x = lambda_y] and [aspect_ratio = 1]. *)
Theorem C7_mu_total_and_square_sections arctan2 w l d i r :
  heap w !! l = Some (OFrame d) →
  raw_at d i = Some r →
  ∃ l' w' d' mu_x mu_y,
    run (create_engineered_features arctan2 l) w = (Ok l', w') ∧
    heap w' !! l' = Some (OFrame d') ∧
    cell_at d' "mu_x" i = Some mu_x ∧
    cell_at d' "mu_y" i = Some mu_y ∧
    cell_at d' "mu_total" i = Some (PrimFloat.sqrt (mu_x * mu_x + mu_y * mu_y)) ∧
    (Raw.largura r = Raw.Altura r →
       cell_at d' "lambda_x" i = cell_at d' "lambda_y" i ∧
       ((0 <? Raw.largura r) = true → (Raw.largura r <? infinity) = true →
        cell_at d' "aspect_ratio" i = Some 1)).
Proof.
  intros Hl Hraw.
  destruct (cef_cells arctan2 w l d i r Hl Hraw) as (l' & w' & d' & Hrun & Hl' & Hcell).
  eexists l', w', d', _, _. split; [exact Hrun|]. split; [exact Hl'|].
  split; [apply Hcell; unfold engineer; cbv zeta; do 8 right; left|].
  split; [apply Hcell; unfold engineer; cbv zeta; do 9 right; left|].
  split; [apply Hcell; unfold engineer; cbv zeta; do 12 right; left|].
  intros Hsq. split.
  - rewrite (Hcell "lambda_x"%string _ ltac:(unfold engineer; cbv zeta; do 10 right; left)).
    rewrite (Hcell "lambda_y"%string _ ltac:(unfold engineer; cbv zeta; do 11 right; left)).
    by rewrite Hsq.
  - intros Hpos Hfin.
    rewrite (Hcell "aspect_ratio"%string _ ltac:(unfold engineer; cbv zeta; do 19 right; left)).
    rewrite <- Hsq. rewrite FloatFacts.div_self by (by apply FloatFacts.finite_pos).
    reflexivity.
Qed.

(** C9.  [create_engineered_features] returns on every frame that has the
    raw columns, whatever the values in them, and in the frame it returns
    every row has [e_x = Mx_max / N_max] and [e_y = My_max / N_max] when
    [N_max] is not equal to 0 (a NaN is not), and [e_x = e_y = 0] when it
    is; [ratio_M_x = Mx_top / (Mx_base + 1e-6)] and
    [ratio_M_y = My_top / (My_base + 1e-6)] whatever the values, with the
    binary64 number of 1e-6.  With [N_top = -500], [N_base = 300] and
    [Mx_top = -250] in the record of scenario A, [e_x] is 250/500 and
    [e_y] is 430/500; a base moment of 0 gives the ratio 129/1e-6, and a
    base moment of [-1e-6] an infinite one. *)
Theorem C9_eccentricities_and_ratios :
  (∀ arctan2 w l d i r,
     heap w !! l = Some (OFrame d) →
     raw_at d i = Some r →
     ∃ l' w' d' e_x e_y,
       run (create_engineered_features arctan2 l) w = (Ok l', w') ∧
       heap w' !! l' = Some (OFrame d') ∧
       let N_max := Np.maximum (abs (Raw.N_top r)) (abs (Raw.N_base r)) in
       let Mx_max := Np.maximum (abs (Raw.Mx_top r)) (abs (Raw.Mx_base r)) in
       let My_max := Np.maximum (abs (Raw.My_top r)) (abs (Raw.My_base r)) in
       cell_at d' "e_x" i = Some e_x ∧
       cell_at d' "e_y" i = Some e_y ∧
       ((N_max =? 0) = false → e_x = Mx_max / N_max ∧ e_y = My_max / N_max) ∧
       ((N_max =? 0) = true → e_x = 0 ∧ e_y = 0) ∧
       cell_at d' "ratio_M_x" i =
         Some (Raw.Mx_top r / (Raw.Mx_base r + 0x1.0c6f7a0b5ed8dp-20)) ∧
       cell_at d' "ratio_M_y" i =
         Some (Raw.My_top r / (Raw.My_base r + 0x1.0c6f7a0b5ed8dp-20)))
  ∧ 0x1.0c6f7a0b5ed8dp-20 = 1 / 1000000
  ∧
  (∀ arctan2, ∃ l' w' d',
     run (create_engineered_features arctan2 0%nat) (world_frame_of scenario_A_top_heavy) =
       (Ok l', w') ∧
     heap w' !! l' = Some (OFrame d') ∧
     cell_at d' "e_x" 0 = Some 0.5 ∧
     cell_at d' "e_y" 0 = Some 0x1.b851eb851eb85p-1 ∧
     0x1.b851eb851eb85p-1 = 430 / 500 ∧
     cell_at d' "ratio_M_x" 0 = Some (-0x1.3831f3699266ap+0) ∧
     -0x1.3831f3699266ap+0 = -250 / (205 + 1 / 1000000))
  ∧
  (∀ arctan2, ∃ l' w' d',
     run (create_engineered_features arctan2 0%nat) (world_frame_of (scenario_A_Mx_base 0)) =
       (Ok l', w') ∧
     heap w' !! l' = Some (OFrame d') ∧
     cell_at d' "ratio_M_x" 0 = Some 129000000 ∧
     129000000 = 129 / (1 / 1000000))
  ∧
  (∀ arctan2, ∃ l' w' d',
     run (create_engineered_features arctan2 0%nat)
         (world_frame_of (scenario_A_Mx_base (-0x1.0c6f7a0b5ed8dp-20))) = (Ok l', w') ∧
     heap w' !! l' = Some (OFrame d') ∧
     cell_at d' "ratio_M_x" 0 = Some infinity).
Proof.
  split; [|split; [reflexivity|split; [|split]]].
  - intros arctan2 w l d i r Hl Hraw.
    destruct (cef_cells arctan2 w l d i r Hl Hraw) as (l' & w' & d' & Hrun & Hl' & Hcell).
    eexists l', w', d', _, _. split; [exact Hrun|]. split; [exact Hl'|]. cbv zeta.
    split; [apply Hcell; unfold engineer; cbv zeta; do 13 right; left|].
    split; [apply Hcell; unfold engineer; cbv zeta; do 14 right; left|].
    unfold Np.ne.
    split; [by intros ->|]. split; [by intros ->|].
    split; apply Hcell; unfold engineer; cbv zeta.
    + do 15 right. left.
    + do 16 right. left.
  - intros arctan2.
    assert (Hl : heap (world_frame_of scenario_A_top_heavy) !! 0%nat =
                 Some (OFrame (Pd.of_records [scenario_A_top_heavy])))
      by (vm_compute; reflexivity).
    assert (Hraw : raw_at (Pd.of_records [scenario_A_top_heavy]) 0 =
                   Some (Raw.mk 30 95 235 50 (-500) 300 (-250) 205 (-92) 430))
      by (vm_compute; reflexivity).
    destruct (cef_cells arctan2 _ _ _ _ _ Hl Hraw) as (l' & w' & d' & Hrun & Hl' & Hcell).
    exists l', w', d'. split; [done|]. split; [done|].
    split; [|split; [|split; [|split]]];
      try (vm_compute; reflexivity);
      apply Hcell; unfold engineer; cbv zeta.
    + do 13 right. left.
    + do 14 right. left.
    + do 15 right. left.
  - intros arctan2.
    assert (Hl : heap (world_frame_of (scenario_A_Mx_base 0)) !! 0%nat =
                 Some (OFrame (Pd.of_records [scenario_A_Mx_base 0])))
      by (vm_compute; reflexivity).
    assert (Hraw : raw_at (Pd.of_records [scenario_A_Mx_base 0]) 0 =
                   Some (Raw.mk 30 95 235 50 392 392 129 0 (-92) 430))
      by (vm_compute; reflexivity).
    destruct (cef_cells arctan2 _ _ _ _ _ Hl Hraw) as (l' & w' & d' & Hrun & Hl' & Hcell).
    exists l', w', d'. split; [done|]. split; [done|].
    split; [|vm_compute; reflexivity].
    apply Hcell; unfold engineer; cbv zeta. do 15 right. left.
  - intros arctan2.
    assert (Hl : heap (world_frame_of (scenario_A_Mx_base (-0x1.0c6f7a0b5ed8dp-20))) !! 0%nat =
                 Some (OFrame (Pd.of_records [scenario_A_Mx_base (-0x1.0c6f7a0b5ed8dp-20)])))
      by (vm_compute; reflexivity).
    assert (Hraw : raw_at (Pd.of_records [scenario_A_Mx_base (-0x1.0c6f7a0b5ed8dp-20)]) 0 =
                   Some (Raw.mk 30 95 235 50 392 392 129 (-0x1.0c6f7a0b5ed8dp-20) (-92) 430))
      by (vm_compute; reflexivity).
    destruct (cef_cells arctan2 _ _ _ _ _ Hl Hraw) as (l' & w' & d' & Hrun & Hl' & Hcell).
    exists l', w', d'. split; [done|]. split; [done|].
    apply Hcell; unfold engineer; cbv zeta. do 15 right. left.
Qed.

End FeatureClaims2.

(** C7 at scenario A made square: a section of 30 cm by 30 cm. *)
Lemma C7_witness :
  ∃ d', cell_at d' "aspect_ratio" 0 = Some 1%float.
Proof.
  destruct (C7_mu_total_and_square_sections arctan2_example
              (mkWorld {[ 0 := OFrame (Pd.of_records [<["Altura" := 30%float]> scenario_A]) ]} [])
              0 (Pd.of_records [<["Altura" := 30%float]> scenario_A])
              0 (Raw.mk 30 30 235 50 392 392 129 205 (-92) 430))
    as (l' & w' & d' & mu_x & mu_y & _ & _ & _ & _ & _ & Hsq).
  - vm_compute. reflexivity.
  - vm_compute. reflexivity.
  - exists d'. apply Hsq; reflexivity.
Defined.

(** C9 at two rows: scenario A with [N_top = -500], [N_base = 300] and
    [Mx_top = -250] has the eccentricities 250/500 and 430/500, and
    scenario A without its axial loads has none. *)
Lemma C9_witness :
  (∃ d', cell_at d' "e_x" 0 = Some 0.5%float ∧
         cell_at d' "e_y" 0 = Some 0x1.b851eb851eb85p-1%float) ∧
  (∃ d', cell_at d' "e_x" 0 = Some 0%float ∧ cell_at d' "e_y" 0 = Some 0%float).
Proof.
  split.
  - destruct (proj1 C9_eccentricities_and_ratios arctan2_example (world_frame_of scenario_A_top_heavy)
                0 (Pd.of_records [scenario_A_top_heavy])
                0 (Raw.mk 30 95 235 50 (-500) 300 (-250) 205 (-92) 430))
      as (l' & w' & d' & e_x & e_y & _ & _ & Hx & Hy & Hdiv & _).
    + vm_compute. reflexivity.
    + vm_compute. reflexivity.
    + destruct Hdiv as [-> ->]; [vm_compute; reflexivity|].
      exists d'. split; [exact Hx|exact Hy].
  - destruct (proj1 C9_eccentricities_and_ratios arctan2_example
                (mkWorld {[ 0 := OFrame (Pd.of_records [scenario_A_unloaded]) ]} [])
                0 (Pd.of_records [scenario_A_unloaded])
                0 (Raw.mk 30 95 235 50 0 0 129 205 (-92) 430))
      as (l' & w' & d' & e_x & e_y & _ & _ & Hx & Hy & _ & Hzero & _).
    + vm_compute. reflexivity.
    + vm_compute. reflexivity.
    + destruct Hzero as [-> ->]; [vm_compute; reflexivity|].
      exists d'. split; [exact Hx|exact Hy].
Defined.

Section FrameClaims.

Variable arctan2 : float → float → float.

Lemma predict_single_raise self w p r :
  heap w !! p = Some (ODict r) →
  ¬ Forall (has_column [r]) REQUIRED →
  ∃ key h t,
    heap w ⊆ h ∧
    run (predict_single arctan2 self p) w = (Raise (KeyError key), mkWorld h t).
Proof.
  intros Hp Hmiss.
  assert (Hds : dicts_at (heap w) [p] [r]) by (by repeat constructor).
  unfold predict_single. rewrite (run_DataFrame_of _ _ _ _ Hds).
  set (l1 := fresh_loc (heap w)).
  set (d0 := Pd.of_records [r]) in *.
  set (w1 := mkWorld _ _).
  assert (Hw1 : heap w ⊆ heap w1) by apply insert_fresh_subseteq.
  destruct (engineered_frame arctan2 d0) as [d'|e] eqn:Heng.
  - destruct (process_run arctan2 w1 l1 d0 d') as (l3 & h2 & Hsub & Hfresh & Hrun);
      [apply lookup_insert_eq|done|].
    rewrite run_bind, Hrun. rewrite run_getitems.
    assert (Hcob : columns d' !! "Cobrimento"%string = None).
    { rewrite (engineered_frame_keep _ _ _ _ Heng) by in_list.
      apply of_records_no_column. intros Hcob. apply Hmiss.
      unfold REQUIRED. apply Forall_app. split; [|by apply Forall_singleton].
      apply Forall_forall. intros key Hkey.
      destruct (decide (has_column [r] key)) as [|Hno]; [done|].
      apply (engineered_frame_raw _ _ _ _ Heng) in Hkey as [c Hc].
      unfold d0 in Hc. by rewrite of_records_no_column in Hc. }
    destruct (select_raise d' FEATURE_COLUMNS "Cobrimento") as [key ->];
      [in_list|done|].
    eexists key, _, _. split; [|done].
    etrans; [exact Hw1|]. etrans; [exact Hsub|]. by apply insert_subseteq.
  - destruct (engineered_frame_raise _ _ _ Heng) as (key & -> & _).
    destruct (process_run_raise arctan2 w1 l1 d0 (KeyError key)) as (h2 & Hsub & Hrun);
      [apply lookup_insert_eq|done|].
    rewrite run_bind, Hrun. eexists key, _, _. split; [|done].
    by etrans.
Qed.

(** C10, as amended.  [create_engineered_features] works on a copy: whatever
    the outcome, every object that existed before the call, the frame given
    to it included, is unchanged after it; on a frame with the raw columns
    it returns a new object, in which every column of the frame given
    appears unchanged unless it bears the name of an engineered column; and
    [predict_single] and [predict_batch] leave every object that existed
    before, the caller's records included, unchanged. *)
Theorem C10_argument_not_mutated :
  (∀ w l r w',
     run (create_engineered_features arctan2 l) w = (r, w') → heap w ⊆ heap w')
  ∧
  (∀ w l d,
     heap w !! l = Some (OFrame d) →
     Forall (λ key, is_Some (columns d !! key)) RAW →
     ∃ l' w' d',
       run (create_engineered_features arctan2 l) w = (Ok l', w') ∧
       heap w !! l' = None ∧
       heap w' !! l = Some (OFrame d) ∧
       heap w' !! l' = Some (OFrame d') ∧
       ∀ key, key ∉ ENGINEERED → columns d' !! key = columns d !! key)
  ∧
  (∀ self w p rec r w',
     heap w !! p = Some (ODict rec) →
     run (predict_single arctan2 self p) w = (r, w') →
     heap w ⊆ heap w' ∧ heap w' !! p = Some (ODict rec))
  ∧
  (∀ self w locs recs r w',
     dicts_at (heap w) locs recs →
     run (predict_batch arctan2 self locs) w = (r, w') →
     heap w ⊆ heap w' ∧ dicts_at (heap w') locs recs).
Proof.
  split; [|split; [|split]].
  - intros w l r w' Hrun. by apply (cef_frame arctan2 w l r w').
  - intros w l d Hl Hraw.
    destruct (cef_total arctan2 w l d Hl Hraw)
      as (l' & w' & d' & Hrun & Heng & Hnew & Hold & Hl').
    exists l', w', d'. split; [done|]. split; [done|]. split; [done|].
    split; [done|]. intros key Hkey. by apply (engineered_frame_keep arctan2).
  - intros self w p rec r w' Hp Hrun.
    assert (Hsub : heap w ⊆ heap w').
    { destruct (decide (Forall (has_column [rec]) REQUIRED)) as [Hcols|Hmiss].
      - destruct (predict_single_run arctan2 self w p rec Hp Hcols) as (h & Hsub & Hrun').
        rewrite Hrun' in Hrun. by injection Hrun as <- <-.
      - destruct (predict_single_raise self w p rec Hp Hmiss) as (key & h & t & Hsub & Hrun').
        rewrite Hrun' in Hrun. by injection Hrun as <- <-. }
    split; [done|]. by eapply lookup_weaken.
  - intros self w locs recs r w' Hds Hrun.
    assert (Hsub : heap w ⊆ heap w').
    { destruct (decide (Forall (has_column recs) REQUIRED)) as [Hcols|Hmiss].
      - destruct (predict_batch_run arctan2 self w locs recs Hds Hcols) as (h & Hsub & Hrun').
        rewrite Hrun' in Hrun. by injection Hrun as <- <-.
      - destruct (predict_batch_raise arctan2 self w locs recs Hds Hmiss)
          as (key & h & t & Hsub & Hrun').
        rewrite Hrun' in Hrun. by injection Hrun as <- <-. }
    split; [done|]. by eapply dicts_at_weaken.
Qed.

End FrameClaims.

(** C10 at scenario A: the frame given is still at location 0 after the
    call. *)
Lemma C10_witness :
  ∃ w', heap w' !! 0 = Some (OFrame (Pd.of_records [scenario_A])).
Proof.
  destruct (proj1 (proj2 (C10_argument_not_mutated arctan2_example))
              world_frame_A 0 (Pd.of_records [scenario_A]))
    as (l' & w' & d' & _ & _ & Hold & _).
  - vm_compute. reflexivity.
  - in_list.
  - exists w'. exact Hold.
Defined.

(** C10 as stated fails on a frame that has a column named like an
    engineered one: the frame of a record with the key [Ac] has the column
    [Ac = [1]], and the frame returned has [Ac = [2850]] under that name. *)
Lemma C10_counterexample :
  ∃ l' w' d',
    run (create_engineered_features arctan2_example 0) world_frame_A_with_Ac = (Ok l', w') ∧
    heap w' !! l' = Some (OFrame d') ∧
    columns (Pd.of_records [scenario_A_with_Ac]) !! "Ac" = Some [1%float] ∧
    columns d' !! "Ac" = Some [2850%float] ∧
    columns d' !! "Ac" ≠ columns (Pd.of_records [scenario_A_with_Ac]) !! "Ac".
Proof.
  eexists _, _, _. split; [vm_compute; reflexivity|].
  split; [vm_compute; reflexivity|].
  split; [vm_compute; reflexivity|].
  split; [vm_compute; reflexivity|].
  vm_compute. discriminate.
Qed.

(** * The predictor's claims *)

Section PredictorClaims.

Variable arctan2 : float → float → float.
Variable self : PillarPredictor.

Lemma valid_record_columns records r :
  r ∈ records → valid_record r → Forall (has_column records) REQUIRED.
Proof.
  intros Hr Hvalid. eapply Forall_impl; [exact Hvalid|].
  intros key Hkey. apply Exists_exists. by exists r.
Qed.

(** The row of a record in the table of [predict_batch]. *)
Lemma batch_row records i r :
  records !! i = Some r →
  let x := feature_row arctan2 r in
  let res := batch_result arctan2 self records in
  Batch.is_feasible res !! i = Some (clf_predict self x) ∧
  Batch.prob_feasible res !! i = Some (clf_predict_proba self x).2 ∧
  Batch.rho_predicted res !! i =
    Some (if (clf_predict self x =? 1)%Z then reg_predict self x else 0%float) ∧
  Batch.As_predicted res !! i =
    Some (if (clf_predict self x =? 1)%Z
          then PrimFloat.mul (reg_predict self x) (area r) else 0%float) ∧
  Batch.Ac res !! i = Some (area r).
Proof.
  intros Hi. cbv zeta. unfold batch_result. cbv zeta.
  cbn [Batch.is_feasible Batch.prob_feasible Batch.rho_predicted
       Batch.As_predicted Batch.Ac].
  unfold Np.where_s, Np.mul.
  rewrite !lookup_zip_with, !list_lookup_fmap, Hi. cbn.
  repeat split; by destruct (clf_predict self (feature_row arctan2 r) =? 1)%Z.
Qed.

(** C1.  [predict_single] on a valid record returns a result whose [Ac] is
    [largura * Altura]; when the classifier's label is 0 the status is
    Infeasible, [rho_predicted] and [As_predicted] are 0 and the models
    invoked are the classifier's two, not the regressor; when the label is
    1 the status is Feasible and [As_predicted = rho_predicted * Ac], with
    the regressor invoked once.  [predict_batch] returns a table in which
    the row of every record has [Ac = largura * Altura], zeros for
    [rho_predicted] and [As_predicted] when its label is 0, and
    [As_predicted = rho_predicted * Ac] when its label is 1. *)
Theorem C1_two_stage_contract :
  (∀ w p r,
     heap w !! p = Some (ODict r) → valid_record r →
     ∃ res w',
       run (predict_single arctan2 self p) w = (Ok res, w') ∧
       Single.Ac res = PrimFloat.mul (Pd.cell "largura" r) (Pd.cell "Altura" r) ∧
       let x := feature_row arctan2 r in
       (clf_predict self x = 0%Z →
          Single.status res = "Infeasible"%string ∧
          Single.rho_predicted res = 0%float ∧
          Single.As_predicted res = 0%float ∧
          trace w' = trace w ++ [ClassifierPredict [x]; ClassifierPredictProba [x]]) ∧
       (clf_predict self x = 1%Z →
          Single.status res = "Feasible"%string ∧
          Single.rho_predicted res = reg_predict self x ∧
          Single.As_predicted res =
            PrimFloat.mul (Single.rho_predicted res) (Single.Ac res) ∧
          trace w' = trace w ++ [ClassifierPredict [x]; ClassifierPredictProba [x];
                                 RegressorPredict [x]]))
  ∧
  (∀ w locs records,
     dicts_at (heap w) locs records →
     Forall (has_column records) REQUIRED →
     ∃ res w',
       run (predict_batch arctan2 self locs) w = (Ok res, w') ∧
       ∀ i r, records !! i = Some r →
         let x := feature_row arctan2 r in
         ∃ rho As_ Ac,
           Batch.is_feasible res !! i = Some (clf_predict self x) ∧
           Batch.rho_predicted res !! i = Some rho ∧
           Batch.As_predicted res !! i = Some As_ ∧
           Batch.Ac res !! i = Some Ac ∧
           Ac = PrimFloat.mul (Pd.cell "largura" r) (Pd.cell "Altura" r) ∧
           (clf_predict self x = 0%Z → rho = 0%float ∧ As_ = 0%float) ∧
           (clf_predict self x = 1%Z →
              rho = reg_predict self x ∧ As_ = PrimFloat.mul rho Ac)).
Proof.
  split.
  - intros w p r Hp Hvalid.
    destruct (predict_single_run arctan2 self w p r Hp) as (h & _ & Hrun).
    { apply (valid_record_columns [r] r); [by left|done]. }
    eexists _, _. split; [exact Hrun|]. cbn [trace]. unfold single_result, single_trace.
    cbv zeta. split.
    + destruct (clf_predict self (feature_row arctan2 r) =? 0)%Z; [done|].
      by destruct (PrimFloat.ltb 0 (default 0%float (r !! "As"))).
    + split; intros Hlabel; rewrite Hlabel; cbn [Z.eqb Pos.eqb]; [done|].
      by destruct (PrimFloat.ltb 0 (default 0%float (r !! "As"))).
  - intros w locs records Hds Hcols.
    destruct (predict_batch_run arctan2 self w locs records Hds Hcols) as (h & _ & Hrun).
    eexists _, _. split; [exact Hrun|]. intros i r Hi. cbv zeta.
    destruct (batch_row records i r Hi) as (Hf & _ & Hrho & HAs & HAc).
    eexists _, _, _. split; [exact Hf|]. split; [exact Hrho|].
    split; [exact HAs|]. split; [exact HAc|]. split; [done|].
    split; intros Hlabel; rewrite Hlabel; by cbn [Z.eqb Pos.eqb].
Qed.

(** C2.  For a valid record and a classifier whose label for it is 0 or 1,
    [predict_single] on the record and [predict_batch] on any list of
    records that holds it at some row agree on that row: the status is
    Feasible exactly when the row's label is 1, and the probability,
    [rho_predicted] and [As_predicted] are identical. *)
Theorem C2_batch_agrees_with_single w p locs records i r :
  heap w !! p = Some (ODict r) →
  dicts_at (heap w) locs records →
  records !! i = Some r →
  valid_record r →
  (clf_predict self (feature_row arctan2 r) = 0%Z ∨
   clf_predict self (feature_row arctan2 r) = 1%Z) →
  ∃ s ws b wb label,
    run (predict_single arctan2 self p) w = (Ok s, ws) ∧
    run (predict_batch arctan2 self locs) w = (Ok b, wb) ∧
    Batch.is_feasible b !! i = Some label ∧
    (Single.status s = "Feasible"%string ↔ label = 1%Z) ∧
    Batch.prob_feasible b !! i = Some (Single.feasibility_prob s) ∧
    Batch.rho_predicted b !! i = Some (Single.rho_predicted s) ∧
    Batch.As_predicted b !! i = Some (Single.As_predicted s).
Proof.
  intros Hp Hds Hi Hvalid Hlabel.
  destruct (predict_single_run arctan2 self w p r Hp) as (hs & _ & Hs).
  { apply (valid_record_columns [r] r); [by left|done]. }
  destruct (predict_batch_run arctan2 self w locs records Hds) as (hb & _ & Hb).
  { eapply valid_record_columns; [|done]. by eapply list_elem_of_lookup_2. }
  destruct (batch_row records i r Hi) as (Hf & Hprob & Hrho & HAs & _).
  eexists _, _, _, _, _. split; [exact Hs|]. split; [exact Hb|].
  split; [exact Hf|]. rewrite Hprob, Hrho, HAs. unfold single_result. cbv zeta.
  destruct Hlabel as [-> | ->]; cbn [Z.eqb Pos.eqb].
  - done.
  - by destruct (PrimFloat.ltb 0 (default 0%float (r !! "As"))).
Qed.

(** C8, as amended.  [predict_batch] raises a [KeyError] on the empty list
    and on every list in which some required key is in no record; when
    every required key is in some record it returns a table with one row
    per record, also for the records that lack a key. *)
Theorem C8_batch_errors :
  (∀ w, ∃ w', run (predict_batch arctan2 self []) w = (Raise (KeyError "largura"), w'))
  ∧
  (∀ w locs records,
     dicts_at (heap w) locs records →
     ¬ Forall (has_column records) REQUIRED →
     ∃ key w', run (predict_batch arctan2 self locs) w = (Raise (KeyError key), w'))
  ∧
  (∀ w locs records,
     dicts_at (heap w) locs records →
     Forall (has_column records) REQUIRED →
     ∃ res w',
       run (predict_batch arctan2 self locs) w = (Ok res, w') ∧
       length (Batch.is_feasible res) = length records ∧
       length (Batch.As_predicted res) = length records).
Proof.
  split; [|split].
  - intros w. unfold predict_batch.
    rewrite (run_DataFrame_of _ w [] []) by constructor.
    unfold _process_pillar_data. rewrite run_bind.
    rewrite (run_copy _ _ _ (Pd.of_records [])) by apply lookup_insert_eq.
    erewrite cef_run_raise; [by eexists|apply lookup_insert_eq|].
    reflexivity.
  - intros w locs records Hds Hmiss.
    destruct (predict_batch_raise arctan2 self w locs records Hds Hmiss)
      as (key & h & t & _ & Hrun).
    by eexists _, _.
  - intros w locs records Hds Hcols.
    destruct (predict_batch_run arctan2 self w locs records Hds Hcols) as (h & _ & Hrun).
    eexists _, _. split; [exact Hrun|]. unfold batch_result. cbv zeta.
    cbn [Batch.is_feasible Batch.As_predicted]. unfold Np.where_s, Np.mul.
    rewrite !length_zip_with, !length_fmap. lia.
Qed.

End PredictorClaims.

(** C1 at scenario A narrowed to 20 cm, which the example classifier
    rejects: no steel is predicted. *)
Lemma C1_witness :
  ∃ res w',
    run (predict_single arctan2_example example_predictor 0) world_A_narrow = (Ok res, w') ∧
    Single.status res = "Infeasible"%string ∧
    Single.As_predicted res = 0%float.
Proof.
  destruct (proj1 (C1_two_stage_contract arctan2_example example_predictor)
              world_A_narrow 0 scenario_A_narrow)
    as (res & w' & Hrun & _ & H0 & _).
  - vm_compute. reflexivity.
  - unfold valid_record. in_list.
  - exists res, w'. split; [exact Hrun|].
    destruct H0 as (Hstatus & _ & HAs & _); [vm_compute; reflexivity|].
    split; [exact Hstatus|exact HAs].
Defined.

(** C2 at scenario A, alone and as the first of the two records of
    [world_two]. *)
Lemma C2_witness :
  ∃ s b,
    Batch.As_predicted b !! 0 = Some (Single.As_predicted s) ∧
    Batch.rho_predicted b !! 0 = Some (Single.rho_predicted s).
Proof.
  destruct (C2_batch_agrees_with_single arctan2_example example_predictor
              world_two 0 [0; 1] [scenario_A; delete "largura"%string scenario_A]
              0 scenario_A)
    as (s & ws & b & wb & label & _ & _ & _ & _ & _ & Hrho & HAs).
  - vm_compute. reflexivity.
  - constructor; [vm_compute; reflexivity|].
    constructor; [vm_compute; reflexivity|]. constructor.
  - reflexivity.
  - unfold valid_record. in_list.
  - right. vm_compute. reflexivity.
  - exists s, b. split; [exact HAs|exact Hrho].
Defined.

(** C8 on a single record without its width: a [KeyError]. *)
Lemma C8_witness :
  ∃ key w',
    run (predict_batch arctan2_example example_predictor [1]) world_two =
      (Raise (KeyError key), w').
Proof.
  apply (proj1 (proj2 (C8_batch_errors arctan2_example example_predictor))
           world_two [1] [delete "largura"%string scenario_A]).
  - constructor; [vm_compute; reflexivity|]. constructor.
  - in_list.
Defined.

(** C8 as stated fails on a batch in which a row lacks a required key that
    another row has: the second record of [world_two] has no width, and
    [predict_batch] returns a table with a row for each of the two
    records. *)
Lemma C8_counterexample :
  delete "largura"%string scenario_A !! "largura"%string = None ∧
  ∃ res w',
    run (predict_batch arctan2_example example_predictor [0; 1]) world_two = (Ok res, w') ∧
    Batch.is_feasible res = [1; 1]%Z ∧
    Batch.Ac res = [2850%float; Np.nan].
Proof.
  split; [vm_compute; reflexivity|].
  eexists _, _. split; [vm_compute; reflexivity|].
  split; vm_compute; reflexivity.
Qed.

(** * The optimizer's claims *)

Section OptimizerLemmas.

Variable arctan2 : float → float → float.
Variable predictor : PillarPredictor.
Variables fixed_params loads : gmap string float.

Lemma candidate_largura b :
  Pd.cell "largura" (candidate_of fixed_params loads b) = Np.of_int b.
Proof.
  unfold Pd.cell, candidate_of. cbv zeta. rewrite lookup_insert_ne by done.
  destruct (bool_decide _).
  - by rewrite lookup_insert_eq.
  - rewrite lookup_insert_ne by done. by rewrite lookup_insert_eq.
Qed.


Lemma candidate_altura_given b v :
  (loads ∪ fixed_params) !! "Altura" = Some v →
  Pd.cell "Altura" (candidate_of fixed_params loads b) = v.
Proof.
  intros Hv. unfold Pd.cell, candidate_of. cbv zeta.
  rewrite lookup_insert_ne by done.
  assert (Hsome : (<["largura":=Np.of_int b]> (loads ∪ fixed_params)) !! "Altura" = Some v).
  { by rewrite lookup_insert_ne by done. }
  rewrite bool_decide_eq_true_2 by (by rewrite Hsome). by rewrite Hsome.
Qed.

(** The row of a candidate in the table before it is sorted. *)
Lemma annotate_row cands pe cm ck j c :
  cands !! j = Some c →
  let x := feature_row arctan2 c in
  let f := clf_predict predictor x in
  let p := (clf_predict_proba predictor x).2 in
  let As_ := if (f =? 1)%Z then PrimFloat.mul (reg_predict predictor x) (area c)
             else 0%float in
  let wd := Pd.cell "largura" c in
  let ht := Pd.cell "Altura" c in
  let cc := PrimFloat.mul
              (PrimFloat.mul (PrimFloat.mul (PrimFloat.div wd 100) (PrimFloat.div ht 100))
                             (PrimFloat.div pe 100)) cm in
  let ca := PrimFloat.mul
              (PrimFloat.mul (PrimFloat.mul As_ (PrimFloat.div pe 100)) steel_density) ck in
  let df := annotate arctan2 predictor cands pe cm ck in
  Opt.is_feasible df !! j = Some f ∧
  Opt.prob_feasible df !! j = Some p ∧
  Opt.As_predicted df !! j = Some As_ ∧
  Opt.largura df !! j = Some wd ∧
  Opt.Altura df !! j = Some ht ∧
  Opt.custo_concreto df !! j = Some cc ∧
  Opt.custo_aco df !! j = Some ca ∧
  Opt.custo_total df !! j =
    Some (if (f =? 0)%Z || PrimFloat.ltb p 0.5 then Np.inf else PrimFloat.add cc ca).
Proof.
  intros Hj. cbv zeta.
  destruct (batch_row arctan2 predictor cands j c Hj) as (Hf & Hp & _ & HAs & _).
  unfold annotate. cbv zeta.
  cbn [Opt.is_feasible Opt.prob_feasible Opt.As_predicted Opt.largura Opt.Altura
       Opt.custo_concreto Opt.custo_aco Opt.custo_total].
  unfold Np.add, Np.muls, Np.mul, Np.divs.
  rewrite !lookup_zip_with, !list_lookup_fmap, !lookup_zip_with, !list_lookup_fmap.
  rewrite Hf, Hp, HAs, Hj. cbn. done.
Qed.

Lemma annotate_lengths cands pe cm ck :
  let df := annotate arctan2 predictor cands pe cm ck in
  length (Opt.custo_total df) = length cands ∧
  length (Opt.largura df) = length cands.
Proof.
  cbv zeta. unfold annotate, batch_result. cbv zeta.
  cbn [Opt.custo_total Opt.largura Batch.is_feasible Batch.prob_feasible
       Batch.As_predicted].
  unfold Np.add, Np.muls, Np.mul, Np.divs, Np.where_s.
  repeat first [ rewrite length_zip_with | rewrite length_fmap ]. lia.
Qed.

Lemma take_col_lookup {A} (dflt : A) idx (col : list A) k j :
  idx !! k = Some j → Opt.take_col dflt idx col !! k = Some (default dflt (col !! j)).
Proof. intros Hk. unfold Opt.take_col. by rewrite list_lookup_fmap, Hk. Qed.

End OptimizerLemmas.

Section OptimizerClaims.

Variable arctan2 : float → float → float.
Variable predictor : PillarPredictor.
Variable argsort : list float → list nat.
Variables fixed_params loads : gmap string float.
Variable constraints : gmap string Z.
Variable costs : gmap string float.

Local Abbreviation run_optimizer w :=
  (run (find_optimal_width arctan2 predictor argsort fixed_params loads constraints costs) w).

(** A row of the sorted table is a row of the table before the sort. *)
Lemma sorted_row cands pe cm ck k :
  argsort_spec argsort →
  let pre := annotate arctan2 predictor cands pe cm ck in
  k < length cands →
  ∃ j c, cands !! j = Some c ∧
         nargsort argsort (Opt.custo_total pre) !! k = Some j.
Proof.
  intros Hspec pre Hk.
  pose proof (nargsort_perm argsort Hspec (Opt.custo_total pre)) as Hperm.
  destruct (annotate_lengths arctan2 predictor cands pe cm ck) as [Hlen _].
  fold pre in Hlen. rewrite Hlen in Hperm.
  destruct (lookup_lt_is_Some_2 (nargsort argsort (Opt.custo_total pre)) k) as [j Hj].
  { rewrite Hperm, length_seq. done. }
  assert (Hjn : j < length cands).
  { apply list_elem_of_lookup_2 in Hj. rewrite Hperm in Hj.
    apply elem_of_seq in Hj. lia. }
  destruct (lookup_lt_is_Some_2 cands j Hjn) as [c Hc].
  by exists j, c.
Qed.


(** C3, as amended.  In the table that [find_optimal_width] returns, every
    row has [custo_concreto = (largura/100) * (Altura/100) * (PeDireito/100)
    * concreto_m3] and [custo_aco = As_predicted * (PeDireito/100) * 0.785 *
    aco_kg]; its [custo_total] is [+infinity] when [is_feasible] is 0 or
    [prob_feasible < 0.5], and [custo_concreto + custo_aco] otherwise; and
    neither cost is below zero when the numbers it is computed from are not
    (nothing keeps the regressor's ratio or a price from being negative,
    and nothing keeps the products finite). *)
Theorem C3_costs_and_penalty w grid pe concreto_m3 aco_kg :
  argsort_spec argsort →
  grid_of constraints = Ok grid →
  Forall (has_column (candidate_of fixed_params loads <$> grid)) REQUIRED →
  fixed_params !! "PeDireito" = Some pe →
  costs !! "concreto_m3" = Some concreto_m3 →
  costs !! "aco_kg" = Some aco_kg →
  ∃ df w',
    run_optimizer w = (Ok df, w') ∧
    length (Opt.custo_total df) = length grid ∧
    ∀ k, k < length grid →
      ∃ f p As_ wd ht cc ca ct,
        Opt.is_feasible df !! k = Some f ∧
        Opt.prob_feasible df !! k = Some p ∧
        Opt.As_predicted df !! k = Some As_ ∧
        Opt.largura df !! k = Some wd ∧
        Opt.Altura df !! k = Some ht ∧
        Opt.custo_concreto df !! k = Some cc ∧
        Opt.custo_aco df !! k = Some ca ∧
        Opt.custo_total df !! k = Some ct ∧
        cc = PrimFloat.mul
               (PrimFloat.mul (PrimFloat.mul (PrimFloat.div wd 100) (PrimFloat.div ht 100))
                              (PrimFloat.div pe 100)) concreto_m3 ∧
        ca = PrimFloat.mul
               (PrimFloat.mul (PrimFloat.mul As_ (PrimFloat.div pe 100)) steel_density)
               aco_kg ∧
        (f = 0%Z ∨ PrimFloat.ltb p 0.5 = true → ct = Np.inf) ∧
        (f ≠ 0%Z → PrimFloat.ltb p 0.5 = false → ct = PrimFloat.add cc ca) ∧
        (PrimFloat.ltb wd 0 = false → PrimFloat.ltb ht 0 = false →
         PrimFloat.ltb pe 0 = false → PrimFloat.ltb concreto_m3 0 = false →
         PrimFloat.ltb cc 0 = false) ∧
        (PrimFloat.ltb As_ 0 = false → PrimFloat.ltb pe 0 = false →
         PrimFloat.ltb aco_kg 0 = false →
         PrimFloat.ltb ca 0 = false).
Proof.
  intros Hspec Hgrid Hcols Hpe Hcm Hck.
  destruct (find_optimal_width_returns arctan2 predictor argsort fixed_params loads
              constraints costs w grid pe concreto_m3 aco_kg Hgrid Hcols Hpe Hcm Hck)
    as [w' Hrun].
  set (cands := candidate_of fixed_params loads <$> grid) in *.
  set (pre := annotate arctan2 predictor cands pe concreto_m3 aco_kg) in *.
  assert (Hn : length cands = length grid) by (unfold cands; by rewrite length_fmap).
  exists (sort_values_custo_total argsort pre), w'. split; [exact Hrun|].
  pose proof (nargsort_perm argsort Hspec (Opt.custo_total pre)) as Hperm.
  destruct (annotate_lengths arctan2 predictor cands pe concreto_m3 aco_kg) as [Hlen _].
  fold pre in Hlen.
  split.
  { unfold sort_values_custo_total, Opt.take. cbn [Opt.custo_total].
    unfold Opt.take_col. rewrite length_fmap.
    apply Permutation_length in Hperm. rewrite length_seq in Hperm. lia. }
  intros k Hk. rewrite <- Hn in Hk.
  destruct (sorted_row cands pe concreto_m3 aco_kg k Hspec Hk) as (j & c & Hc & Hj).
  fold pre in Hj.
  destruct (annotate_row arctan2 predictor cands pe concreto_m3 aco_kg j c Hc)
    as (Hf & Hp & HAs & Hwd & Hht & Hcc & Hca & Hct).
  fold pre in Hf, Hp, HAs, Hwd, Hht, Hcc, Hca, Hct.
  unfold sort_values_custo_total, Opt.take.
  cbn [Opt.is_feasible Opt.prob_feasible Opt.As_predicted Opt.largura Opt.Altura
       Opt.custo_concreto Opt.custo_aco Opt.custo_total].
  rewrite !(take_col_lookup _ _ _ k j Hj).
  rewrite Hf, Hp, HAs, Hwd, Hht, Hcc, Hca, Hct. cbn [default from_option id].
  eexists _, _, _, _, _, _, _, _.
  do 8 (split; [reflexivity|]).
  split; [done|]. split; [done|]. split; [|split; [|split]].
  - intros [Hzero | Hlow].
    + by rewrite Hzero.
    + by rewrite Hlow, orb_true_r.
  - intros Hne Hhigh. rewrite Hhigh, orb_false_r.
    by destruct (Z.eqb_spec (clf_predict predictor (feature_row arctan2 c)) 0).
  - intros H1 H2 H3 H4.
    repeat first [ apply FloatFacts.mul_not_neg | apply FloatFacts.div_100_not_neg ];
      assumption.
  - intros H1 H2 H3.
    repeat first [ apply FloatFacts.mul_not_neg | apply FloatFacts.div_100_not_neg ];
      first [ assumption | reflexivity ].
Qed.

(** C6, as amended.  [find_optimal_width] returns the annotated grid whole,
    one row per width, none dropped and none twice, its rows in ascending
    order of [custo_total] with the rows whose cost is NaN last.  The order
    of rows of equal cost is the one that numpy's argsort gives them, which
    for the default kind of sort is not specified. *)
Theorem C6_full_grid_sorted w grid pe concreto_m3 aco_kg :
  argsort_spec argsort →
  grid_of constraints = Ok grid →
  Forall (has_column (candidate_of fixed_params loads <$> grid)) REQUIRED →
  fixed_params !! "PeDireito" = Some pe →
  costs !! "concreto_m3" = Some concreto_m3 →
  costs !! "aco_kg" = Some aco_kg →
  ∃ df w' idx,
    run_optimizer w = (Ok df, w') ∧
    idx ≡ₚ seq 0 (length grid) ∧
    df = Opt.take idx (annotate arctan2 predictor (candidate_of fixed_params loads <$> grid)
                         pe concreto_m3 aco_kg) ∧
    Opt.largura df ≡ₚ Np.of_int <$> grid ∧
    length (Opt.custo_total df) = length grid ∧
    ascending_nan_last (Opt.custo_total df).
Proof.
  intros Hspec Hgrid Hcols Hpe Hcm Hck.
  destruct (find_optimal_width_returns arctan2 predictor argsort fixed_params loads
              constraints costs w grid pe concreto_m3 aco_kg Hgrid Hcols Hpe Hcm Hck)
    as [w' Hrun].
  set (cands := candidate_of fixed_params loads <$> grid) in *.
  set (pre := annotate arctan2 predictor cands pe concreto_m3 aco_kg) in *.
  pose proof (nargsort_perm argsort Hspec (Opt.custo_total pre)) as Hperm.
  destruct (annotate_lengths arctan2 predictor cands pe concreto_m3 aco_kg) as [Hlen Hlenw].
  fold pre in Hlen, Hlenw.
  assert (Hn : length cands = length grid) by (unfold cands; by rewrite length_fmap).
  exists (sort_values_custo_total argsort pre), w', (nargsort argsort (Opt.custo_total pre)).
  split; [exact Hrun|]. split; [by rewrite Hperm, Hlen, Hn|]. split; [reflexivity|].
  unfold sort_values_custo_total, Opt.take. cbn [Opt.largura Opt.custo_total].
  split; [|split].
  - rewrite take_col_perm by (by rewrite Hlenw, <- Hlen).
    unfold pre, annotate. cbv zeta. cbn [Opt.largura]. unfold cands.
    rewrite <- list_fmap_compose.
    erewrite list_fmap_ext; [done|]. intros _ b _. cbn. apply candidate_largura.
  - unfold Opt.take_col. rewrite length_fmap.
    apply Permutation_length in Hperm. rewrite length_seq in Hperm. lia.
  - by apply nargsort_sorted.
Qed.

End OptimizerClaims.


(** C3 at scenario C, with the example predictor and an argsort that meets
    the specification: seven rows. *)
Lemma C3_witness :
  ∃ df w',
    run (find_optimal_width arctan2_example example_predictor argsort_ties_kept
           fixed_C loads_C constraints_C costs_C) world_empty = (Ok df, w') ∧
    length (Opt.custo_total df) = 7.
Proof.
  destruct (C3_costs_and_penalty arctan2_example example_predictor argsort_ties_kept
              fixed_C loads_C constraints_C costs_C world_empty
              [20; 25; 30; 35; 40; 45; 50]%Z 235%float 450%float 12%float)
    as (df & w' & Hrun & Hlen & _).
  - apply argsort_ties_kept_spec.
  - reflexivity.
  - in_list.
  - reflexivity.
  - reflexivity.
  - reflexivity.
  - exists df, w'. split; [exact Hrun|exact Hlen].
Defined.

(** C3 as stated fails when the regressor gives a negative ratio: with
    [negative_predictor] the first row of scenario C is feasible with
    probability 0.75, its cost is not the penalty, and its steel cost is
    below zero. *)
Lemma C3_counterexample :
  ∃ df w' ca ct,
    run (find_optimal_width arctan2_example negative_predictor argsort_ties_kept
           fixed_C loads_C constraints_C costs_C) world_empty = (Ok df, w') ∧
    Opt.is_feasible df !! 0 = Some 1%Z ∧
    Opt.prob_feasible df !! 0 = Some 0.75%float ∧
    Opt.custo_aco df !! 0 = Some ca ∧
    Opt.custo_total df !! 0 = Some ct ∧
    PrimFloat.ltb ct Np.inf = true ∧
    PrimFloat.ltb ca 0 = true.
Proof.
  eexists _, _, _, _. split; [vm_compute; reflexivity|].
  split; [vm_compute; reflexivity|]. split; [vm_compute; reflexivity|].
  split; [vm_compute; reflexivity|]. split; [vm_compute; reflexivity|].
  split; vm_compute; reflexivity.
Qed.

(** C6 at scenario C, with an argsort that meets the specification. *)
Lemma C6_witness :
  ∃ df w',
    run (find_optimal_width arctan2_example example_predictor argsort_ties_kept
           fixed_C loads_C constraints_C costs_C) world_empty = (Ok df, w') ∧
    ascending_nan_last (Opt.custo_total df).
Proof.
  destruct (C6_full_grid_sorted arctan2_example example_predictor argsort_ties_kept
              fixed_C loads_C constraints_C costs_C world_empty
              [20; 25; 30; 35; 40; 45; 50]%Z 235%float 450%float 12%float)
    as (df & w' & idx & Hrun & _ & _ & _ & _ & Hsorted).
  - apply argsort_ties_kept_spec.
  - reflexivity.
  - in_list.
  - reflexivity.
  - reflexivity.
  - reflexivity.
  - exists df, w'. split; [exact Hrun|exact Hsorted].
Defined.

(** C6 as stated fails for an argsort that meets the specification and
    puts equal values in the reverse of their order: in scenario C the
    example predictor rejects the widths 20 and 25, both rows cost
    [+infinity], and the table returned has the row of 25 before the row of
    20. *)
Lemma C6_counterexample :
  argsort_spec argsort_ties_swapped ∧
  ∃ df w',
    run (find_optimal_width arctan2_example example_predictor argsort_ties_swapped
           fixed_C loads_C constraints_C costs_C) world_empty = (Ok df, w') ∧
    Opt.custo_total df !! 5 = Some Np.inf ∧
    Opt.custo_total df !! 6 = Some Np.inf ∧
    Opt.largura df !! 5 = Some 25%float ∧
    Opt.largura df !! 6 = Some 20%float.
Proof.
  split; [apply argsort_ties_swapped_spec|].
  eexists _, _. split; [vm_compute; reflexivity|].
  split; [vm_compute; reflexivity|]. split; [vm_compute; reflexivity|].
  split; vm_compute; reflexivity.
Qed.

(** * Further facts *)

Lemma run_raise {A} (e : exn) w : run (raise e : M A) w = (Raise e, w).
Proof. reflexivity. Qed.

Lemma ctv_run w l d d' :
  heap w !! l = Some (OFrame d) →
  target_frame d = Ok d' →
  run (create_target_variable l) w =
    (Ok (fresh_loc (heap w)),
     mkWorld (<[fresh_loc (heap w) := OFrame d']> (heap w)) (trace w)).
Proof.
  intros Hl Ht. unfold create_target_variable, target_frame in *.
  rewrite (run_copy _ _ _ _ Hl).
  rewrite run_getitem. destruct (Pd.column d "As") as [a|]; [|discriminate Ht].
  rewrite result_bind_ok in Ht.
  rewrite run_getitem. destruct (Pd.column d "Ac") as [c|]; [|discriminate Ht].
  rewrite result_bind_ok in Ht.
  rewrite run_setitem, run_ret. apply Ok_inj in Ht. by subst d'.
Qed.

Lemma ctv_run_raise w l d e :
  heap w !! l = Some (OFrame d) →
  target_frame d = Raise e →
  run (create_target_variable l) w =
    (Raise e, mkWorld (<[fresh_loc (heap w) := OFrame d]> (heap w)) (trace w)).
Proof.
  intros Hl Ht. unfold create_target_variable, target_frame in *.
  rewrite (run_copy _ _ _ _ Hl).
  rewrite run_getitem. destruct (Pd.column d "As") as [a|].
  - rewrite result_bind_ok in Ht.
    rewrite run_getitem. destruct (Pd.column d "Ac") as [c|]; [discriminate Ht|].
    rewrite result_bind_raise in Ht. apply Raise_inj in Ht. by subst.
  - rewrite result_bind_raise in Ht. apply Raise_inj in Ht. by subst.
Qed.

(** [df[keys]] raises for the first of the keys that the frame lacks. *)
Lemma select_first_missing d keys j key :
  list_find (λ k, columns d !! k = None) keys = Some (j, key) →
  Pd.select d keys = Raise (KeyError key).
Proof.
  revert j. induction keys as [|k keys IH]; intros j; [done|].
  cbn [list_find Pd.select]. unfold Pd.column.
  destruct (columns d !! k) as [c|] eqn:E.
  - rewrite decide_False by done.
    destruct (list_find _ keys) as [[j' key']|] eqn:Hf; [|done].
    intros [= <- <-]. by rewrite (IH j').
  - rewrite decide_True by done. by intros [= <- <-].
Qed.

Section FeatureMore.

Variable arctan2 : float → float → float.

(** The [KeyError] of [create_engineered_features] names the first raw
    column, in the order in which the code reads them, that is missing. *)
Lemma engineered_frame_first_missing d j key :
  list_find (λ k, columns d !! k = None) RAW = Some (j, key) →
  engineered_frame arctan2 d = Raise (KeyError key).
Proof.
  unfold RAW, engineered_frame, Pd.column. intros Hf. cbn [list_find] in Hf.
  repeat match type of Hf with
         | context [decide (columns d !! ?k = None)] =>
             destruct (columns d !! k) as [?|] eqn:?;
             [ rewrite decide_False in Hf by done; cbn beta iota;
               rewrite result_bind_ok
             | rewrite decide_True in Hf by done; simpl in Hf;
               by injection Hf as <- <- ]
         end.
  discriminate Hf.
Qed.

(** Engineering an engineered frame changes nothing: the raw columns are
    the same, so the same values are written under the same names. *)
Lemma engineered_frame_idem d d' :
  engineered_frame arctan2 d = Ok d' → engineered_frame arctan2 d' = Ok d'.
Proof.
  intros Heng.
  assert (Hk : ∀ key, key ∈ RAW → Pd.column d' key = Pd.column d key).
  { intros key Hkey. unfold Pd.column.
    rewrite (engineered_frame_keep arctan2 d d' key Heng); [done|].
    unfold RAW in Hkey.
    repeat (apply elem_of_cons in Hkey as [->|Hkey]; [in_list|]).
    by apply elem_of_nil in Hkey. }
  pose proof (engineered_frame_nrows arctan2 d d' Heng) as Hn.
  unfold engineered_frame in *.
  repeat match goal with
         | |- (Pd.column d' ?k ≫= _) = _ =>
             rewrite (Hk k) by in_list;
             destruct (Pd.column d k);
             [ rewrite result_bind_ok in Heng; rewrite result_bind_ok
             | rewrite result_bind_raise in Heng; discriminate Heng ]
         end.
  apply Ok_inj in Heng. rewrite Hn. clear Hk Hn. subst d'. cbn [columns].
  unfold mret, result_ret. do 2 f_equal. apply map_eq. intros k.
  repeat match goal with
         | |- (<[?key := _]> _) !! k = _ =>
             destruct (decide (k = key)) as [->|];
             [ rewrite lookup_insert_eq; symmetry;
               by repeat first [ rewrite lookup_insert_eq
                               | rewrite lookup_insert_ne by done ]
             | rewrite (lookup_insert_ne _ key k) by done ]
         end.
  done.
Qed.

End FeatureMore.

(** ** Preparing the training data *)

Lemma missing_empty (d : DataFrame) (keys : list string) :
  (list_to_set keys ∖ dom (columns d) : gset string) = ∅ ↔
  Forall (λ k, is_Some (columns d !! k)) keys.
Proof.
  rewrite Forall_forall. split.
  - intros Hempty k Hk. apply elem_of_dom.
    destruct (decide (k ∈ dom (columns d))) as [|Hn]; [done|].
    assert (Hin : k ∈ (list_to_set keys ∖ dom (columns d) : gset string)).
    { apply elem_of_difference. split; [by apply elem_of_list_to_set|done]. }
    rewrite Hempty in Hin. by apply not_elem_of_empty in Hin.
  - intros Hall. apply set_eq. intros k. split; [|by intros ?%not_elem_of_empty].
    intros [Hk Hn]%elem_of_difference. apply elem_of_list_to_set in Hk.
    exfalso. apply Hn, elem_of_dom. by apply Hall.
Qed.

Lemma select_names d keys cols :
  Pd.select d keys = Ok cols → Forall2 (λ k c, columns d !! k = Some c) keys cols.
Proof.
  revert cols. induction keys as [|k keys IH]; intros cols.
  - intros [= <-]. constructor.
  - cbn [Pd.select]. unfold Pd.column. destruct (columns d !! k) as [c|] eqn:Hc; [|done].
    destruct (Pd.select d keys) as [cs|]; [|done]. intros [= <-].
    constructor; [done|]. by apply IH.
Qed.

Lemma select_set_column_ne d key v keys :
  key ∉ keys → Pd.select (Pd.set_column d key v) keys = Pd.select d keys.
Proof.
  induction keys as [|k keys IH]; [done|]. intros Hn.
  apply not_elem_of_cons in Hn as [Hne Hn]. cbn [Pd.select].
  rewrite column_set_ne by done. by rewrite IH.
Qed.

Section PrepareFacts.

Variable missing_message : gset string → string.

Lemma prepare_features_run w l d feature_columns cols rho :
  heap w !! l = Some (OFrame d) →
  Pd.select d (filter (λ col, col ≠ "Ac"%string) feature_columns) = Ok cols →
  columns d !! "rho" = Some rho →
  run (prepare_features missing_message l feature_columns) w =
    (Ok (zip (filter (λ col, col ≠ "Ac"%string) feature_columns) cols, rho), w).
Proof.
  intros Hl Hsel Hrho. unfold prepare_features. cbv zeta.
  rewrite (run_read_frame _ _ l d Hl).
  rewrite bool_decide_eq_false_2.
  2:{ intros Hne. apply Hne, missing_empty.
      apply select_names in Hsel. clear -Hsel.
      induction Hsel; constructor; [by eexists|done]. }
  rewrite run_lift_bind, Hsel. rewrite run_lift_bind. unfold Pd.column. rewrite Hrho.
  by rewrite run_ret.
Qed.

Lemma prepare_features_missing w l d feature_columns :
  heap w !! l = Some (OFrame d) →
  ¬ Forall (λ k, is_Some (columns d !! k))
      (filter (λ col, col ≠ "Ac"%string) feature_columns) →
  run (prepare_features missing_message l feature_columns) w =
    (Raise (KeyError (missing_message
       (list_to_set (filter (λ col, col ≠ "Ac"%string) feature_columns)
          ∖ dom (columns d)))), w).
Proof.
  intros Hl Hmiss. unfold prepare_features. cbv zeta.
  rewrite (run_read_frame _ _ l d Hl).
  rewrite bool_decide_eq_true_2; [done|].
  intros Hempty. by apply Hmiss, missing_empty.
Qed.

End PrepareFacts.

Lemma validate_dataframe_run w l d required :
  heap w !! l = Some (OFrame d) →
  run (validate_dataframe l required) w =
    (Ok (bool_decide (Forall (λ k, is_Some (columns d !! k)) required)), w).
Proof.
  intros Hl. unfold validate_dataframe. cbv zeta.
  rewrite (run_read_frame _ _ l d Hl).
  destruct (decide (Forall (λ k, is_Some (columns d !! k)) required)) as [Hall|Hmiss].
  - rewrite bool_decide_eq_false_2 by (by intros Hne; apply Hne, missing_empty).
    by rewrite (bool_decide_eq_true_2 _ Hall).
  - rewrite bool_decide_eq_true_2 by (by intros He; apply Hmiss, missing_empty).
    by rewrite (bool_decide_eq_false_2 _ Hmiss).
Qed.

Lemma required_columns_required records :
  Forall (has_column records) REQUIRED_COLUMNS → Forall (has_column records) REQUIRED.
Proof.
  intros Hcols. apply Forall_forall. intros key Hkey.
  apply (proj1 (Forall_forall _ _) Hcols).
  unfold REQUIRED, RAW in Hkey. cbn [app] in Hkey.
  repeat (apply elem_of_cons in Hkey as [->|Hkey]; [in_list|]).
  by apply elem_of_nil in Hkey.
Qed.

(** ** The predictor, further *)

Lemma no_column_iff records key :
  ¬ has_column records key ↔ columns (Pd.of_records records) !! key = None.
Proof.
  split; [apply of_records_no_column|].
  intros Hnone Hcol. by rewrite of_records_column in Hnone.
Qed.

Lemma has_column_singleton (r : gmap string float) key :
  has_column [r] key ↔ is_Some (r !! key).
Proof.
  unfold has_column. rewrite Exists_cons, Exists_nil. tauto.
Qed.

Section PredictorMore.

Variable arctan2 : float → float → float.
Variable self : PillarPredictor.

(** What [predict_single] and [predict_batch] begin with: the frame of the
    records, its engineered copy and the feature matrix.  When the records
    lack a required column this raises, and the models have not been
    invoked. *)
Lemma features_raise {B} (k : loc → loc → list (list float) → M B) w locs records j key :
  dicts_at (heap w) locs records →
  list_find (λ k, ¬ has_column records k) REQUIRED = Some (j, key) →
  ∃ msg h,
    heap w ⊆ h ∧ (key ∈ RAW → msg = key) ∧
    run (df ← Pd.DataFrame_of locs;
         df_eng ← _process_pillar_data arctan2 df;
         X ← Pd.getitems df_eng FEATURE_COLUMNS;
         k df df_eng X) w = (Raise (KeyError msg), mkWorld h (trace w)).
Proof.
  intros Hds Hfind.
  rewrite (run_DataFrame_of _ _ _ _ Hds).
  set (l1 := fresh_loc (heap w)).
  set (d0 := Pd.of_records records) in *.
  set (w1 := mkWorld _ _).
  assert (Hw1 : heap w ⊆ heap w1) by apply insert_fresh_subseteq.
  unfold REQUIRED in Hfind.
  apply list_find_app_Some in Hfind as [Hraw|(_ & Hraw & Hcob)].
  - assert (Hraw' : list_find (λ k, columns d0 !! k = None) RAW = Some (j, key)).
    { rewrite <- Hraw. symmetry. apply list_find_ext. intros. apply no_column_iff. }
    clear Hraw. rename Hraw' into Hraw.
    pose proof (engineered_frame_first_missing arctan2 d0 j key Hraw) as Heng.
    destruct (process_run_raise arctan2 w1 l1 d0 (KeyError key)) as (h2 & Hsub & Hrun);
      [apply lookup_insert_eq|done|].
    rewrite run_bind, Hrun. exists key, h2. split; [by etrans|]. done.
  - apply list_find_None in Hraw.
    destruct (engineered_frame_ok arctan2 d0) as [d' Heng].
    { eapply Forall_impl; [exact Hraw|]. intros key' Hkey'. cbv beta in *.
      destruct (decide (has_column records key')) as [Hc|]; [|done].
      unfold d0. rewrite of_records_column by done. by eexists. }
    destruct (process_run arctan2 w1 l1 d0 d') as (l3 & h2 & Hsub & Hfresh & Hrun);
      [apply lookup_insert_eq|done|].
    rewrite run_bind, Hrun. rewrite run_getitems.
    apply list_find_Some in Hcob as (Hkey & Hno & _).
    apply list_lookup_singleton_Some in Hkey as [_ <-].
    assert (Hnone : columns d' !! "Cobrimento"%string = None).
    { rewrite (engineered_frame_keep _ _ _ _ Heng) by in_list.
      by apply of_records_no_column. }
    destruct (select_raise d' FEATURE_COLUMNS "Cobrimento") as [msg ->];
      [in_list|done|].
    exists msg, (<[l3:=OFrame d']> h2). split; [|split; [|done]].
    + etrans; [exact Hw1|]. etrans; [exact Hsub|]. by apply insert_subseteq.
    + intros Hin. unfold RAW in Hin.
      repeat (apply elem_of_cons in Hin as [[=]|Hin]). by apply elem_of_nil in Hin.
Qed.

(** The feature row and the cross-section of a record depend on its eleven
    inputs only. *)
Lemma feature_row_ext (r r' : gmap string float) :
  (∀ key, key ∈ REQUIRED → r' !! key = r !! key) →
  feature_row arctan2 r' = feature_row arctan2 r ∧ area r' = area r.
Proof.
  intros Hext.
  assert (Hcell : ∀ key, key ∈ REQUIRED → Pd.cell key r' = Pd.cell key r).
  { intros key Hkey. unfold Pd.cell. by rewrite Hext. }
  assert (Hrow : row_of_record r' = row_of_record r).
  { unfold row_of_record. by rewrite !Hcell by in_list. }
  split.
  - unfold feature_row. apply list_fmap_ext. intros i key Hkey.
    apply list_elem_of_lookup_2 in Hkey.
    unfold feature_cell. rewrite Hrow.
    destruct (assoc key (engineer arctan2 (row_of_record r))) as [v|] eqn:Ha; [done|].
    cbn. apply Hcell.
    destruct (proj1 (Forall_forall _ _) feature_columns_split key Hkey) as [He|]; [|done].
    apply (assoc_engineer_Some arctan2 (row_of_record r)) in He as [? He]. congruence.
  - unfold area. by rewrite !Hcell by in_list.
Qed.

Lemma length_feature_row (r : gmap string float) : length (feature_row arctan2 r) = 31.
Proof. unfold feature_row. by rewrite length_fmap. Qed.

Lemma valid_records_columns (records : list (gmap string float)) :
  records ≠ [] → Forall valid_record records → Forall (has_column records) REQUIRED.
Proof.
  intros Hne Hvalid. destruct records as [|r records]; [done|].
  apply Forall_cons in Hvalid as [Hr _].
  eapply Forall_impl; [exact Hr|]. intros key Hkey. by apply Exists_cons_hd.
Qed.

(** The table of a concatenation is the concatenation of the tables, for
    the columns that the models decide. *)
Lemma batch_result_app (a b : list (gmap string float)) :
  let ra := batch_result arctan2 self a in
  let rb := batch_result arctan2 self b in
  let rab := batch_result arctan2 self (a ++ b) in
  Batch.is_feasible rab = Batch.is_feasible ra ++ Batch.is_feasible rb ∧
  Batch.prob_feasible rab = Batch.prob_feasible ra ++ Batch.prob_feasible rb ∧
  Batch.rho_predicted rab = Batch.rho_predicted ra ++ Batch.rho_predicted rb ∧
  Batch.As_predicted rab = Batch.As_predicted ra ++ Batch.As_predicted rb ∧
  Batch.Ac rab = Batch.Ac ra ++ Batch.Ac rb.
Proof.
  cbv zeta. unfold batch_result. cbv zeta.
  cbn [Batch.is_feasible Batch.prob_feasible Batch.rho_predicted Batch.As_predicted
       Batch.Ac].
  unfold Np.where_s, Np.mul. rewrite !fmap_app.
  rewrite !zip_with_app by (by rewrite ?length_zip_with, !length_fmap; lia).
  done.
Qed.

(** The column [As_actual] of the table of [predict_batch]. *)
Lemma batch_As_actual (records : list (gmap string float)) i r :
  records !! i = Some r →
  Batch.As_actual (batch_result arctan2 self records) !! i =
    Some (if decide (has_column records "As") then Pd.cell "As" r else 0%float).
Proof.
  intros Hi. unfold batch_result. cbv zeta. cbn [Batch.As_actual].
  destruct (decide (has_column records "As")) as [Hc|Hn].
  - rewrite of_records_column by done. cbn. by rewrite list_lookup_fmap, Hi.
  - rewrite of_records_no_column by done. cbn. unfold Np.zeros.
    apply lookup_replicate_2. by eapply lookup_lt_Some.
Qed.

End PredictorMore.

(** ** The optimizer, further *)

Section OptimizerMore.

Variable arctan2 : float → float → float.
Variable predictor : PillarPredictor.
Variable argsort : list float → list nat.
Variables fixed_params loads : gmap string float.
Variable constraints : gmap string Z.
Variable costs : gmap string float.

(** Row [k] of the sorted table is the row of the table before the sort
    that the sort puts there, all of its eleven cells together. *)
Lemma optimizer_row cands pe cm ck k :
  argsort_spec argsort →
  k < length cands →
  ∃ j c,
    cands !! j = Some c ∧
    nargsort argsort (Opt.custo_total (annotate arctan2 predictor cands pe cm ck)) !! k =
      Some j ∧
    let x := feature_row arctan2 c in
    let f := clf_predict predictor x in
    let p := (clf_predict_proba predictor x).2 in
    let rho := if (f =? 1)%Z then reg_predict predictor x else 0%float in
    let As_ := if (f =? 1)%Z then PrimFloat.mul (reg_predict predictor x) (area c)
               else 0%float in
    let cc := PrimFloat.mul
                (PrimFloat.mul (PrimFloat.mul (PrimFloat.div (Pd.cell "largura" c) 100)
                                              (PrimFloat.div (Pd.cell "Altura" c) 100))
                               (PrimFloat.div pe 100)) cm in
    let ca := PrimFloat.mul
                (PrimFloat.mul (PrimFloat.mul As_ (PrimFloat.div pe 100)) steel_density) ck in
    let df := sort_values_custo_total argsort (annotate arctan2 predictor cands pe cm ck) in
    Opt.is_feasible df !! k = Some f ∧
    Opt.prob_feasible df !! k = Some p ∧
    Opt.rho_predicted df !! k = Some rho ∧
    Opt.As_predicted df !! k = Some As_ ∧
    Opt.As_actual df !! k =
      Some (if decide (has_column cands "As") then Pd.cell "As" c else 0%float) ∧
    Opt.Ac df !! k = Some (area c) ∧
    Opt.largura df !! k = Some (Pd.cell "largura" c) ∧
    Opt.Altura df !! k = Some (Pd.cell "Altura" c) ∧
    Opt.custo_concreto df !! k = Some cc ∧
    Opt.custo_aco df !! k = Some ca ∧
    Opt.custo_total df !! k =
      Some (if (f =? 0)%Z || PrimFloat.ltb p 0.5 then Np.inf else PrimFloat.add cc ca).
Proof.
  intros Hspec Hk.
  destruct (sorted_row arctan2 predictor argsort cands pe cm ck k Hspec Hk)
    as (j & c & Hc & Hj).
  exists j, c. split; [done|]. split; [done|]. cbv zeta.
  destruct (annotate_row arctan2 predictor cands pe cm ck j c Hc)
    as (Hf & Hp & HAs & Hwd & Hht & Hcc & Hca & Hct).
  destruct (batch_row arctan2 predictor cands j c Hc) as (_ & _ & Hrho & _ & HAc).
  pose proof (batch_As_actual arctan2 predictor cands j c Hc) as Hact.
  unfold sort_values_custo_total, Opt.take.
  cbn [Opt.is_feasible Opt.prob_feasible Opt.rho_predicted Opt.As_predicted
       Opt.As_actual Opt.Ac Opt.largura Opt.Altura Opt.custo_concreto Opt.custo_aco
       Opt.custo_total].
  rewrite !(take_col_lookup _ _ _ k j Hj).
  rewrite Hf, Hp, HAs, Hwd, Hht, Hcc, Hca, Hct.
  assert (Hrho' : Opt.rho_predicted (annotate arctan2 predictor cands pe cm ck) !! j =
                  Batch.rho_predicted (batch_result arctan2 predictor cands) !! j)
    by reflexivity.
  assert (HAc' : Opt.Ac (annotate arctan2 predictor cands pe cm ck) !! j =
                 Batch.Ac (batch_result arctan2 predictor cands) !! j)
    by reflexivity.
  assert (Hact' : Opt.As_actual (annotate arctan2 predictor cands pe cm ck) !! j =
                  Batch.As_actual (batch_result arctan2 predictor cands) !! j)
    by reflexivity.
  rewrite Hrho', HAc', Hact', Hrho, HAc, Hact. cbn [default from_option id].
  done.
Qed.

(** Every candidate has its width, its height and a steel area of 0; its
    other keys are the ones of the loads and, where the loads have none,
    of the fixed parameters. *)
Lemma candidate_lookup b key :
  candidate_of fixed_params loads b !! key =
    if decide (key = "As"%string) then Some 0%float
    else if decide (key = "largura"%string) then Some (Np.of_int b)
    else if decide (key = "Altura"%string)
         then Some (default (Np.of_int b)
                      (match loads !! key with Some v => Some v
                                             | None => fixed_params !! key end))
    else match loads !! key with Some v => Some v | None => fixed_params !! key end.
Proof.
  assert (Hu : ∀ k, (loads ∪ fixed_params) !! k =
                    match loads !! k with Some v => Some v | None => fixed_params !! k end).
  { intros k. rewrite lookup_union. by destruct (loads !! k), (fixed_params !! k). }
  unfold candidate_of. cbv zeta.
  destruct (decide (key = "As"%string)) as [->|HAs]; [by rewrite lookup_insert_eq|].
  rewrite lookup_insert_ne by done.
  destruct (decide (key = "largura"%string)) as [->|Hl].
  { destruct (bool_decide _).
    - by rewrite lookup_insert_eq.
    - rewrite lookup_insert_ne by done. by rewrite lookup_insert_eq. }
  destruct (decide (key = "Altura"%string)) as [->|Ha].
  - rewrite <- Hu.
    destruct (bool_decide _) eqn:E.
    + apply bool_decide_eq_true_1 in E as [v Hv]. rewrite Hv.
      rewrite lookup_insert_ne in Hv by done. by rewrite Hv.
    + apply bool_decide_eq_false_1 in E. rewrite lookup_insert_eq.
      rewrite lookup_insert_ne in E by done.
      destruct ((loads ∪ fixed_params) !! "Altura") as [v|]; [|done].
      exfalso. apply E. by eexists.
  - rewrite <- Hu. destruct (bool_decide _).
    + by rewrite lookup_insert_ne by done.
    + by rewrite !lookup_insert_ne by done.
Qed.

End OptimizerMore.

Section OptimizerInputs.

Variables fixed_params loads : gmap string float.

(** The candidates have the same keys whatever their width. *)
Lemma candidate_keys b b' key :
  is_Some (candidate_of fixed_params loads b !! key) →
  is_Some (candidate_of fixed_params loads b' !! key).
Proof.
  rewrite !candidate_lookup.
  destruct (decide (key = "As"%string)); [by eexists|].
  destruct (decide (key = "largura"%string)); [by eexists|].
  destruct (decide (key = "Altura"%string)); [by eexists|done].
Qed.

(** A key is in no candidate of a grid with a width when neither the loads
    nor the fixed parameters have it and the optimizer does not set it. *)
Lemma candidates_lack grid key :
  grid ≠ [] →
  ¬ has_column (candidate_of fixed_params loads <$> grid) key ↔
  key ≠ "largura"%string ∧ key ≠ "Altura"%string ∧ key ≠ "As"%string ∧
  loads !! key = None ∧ fixed_params !! key = None.
Proof.
  intros Hne. destruct grid as [|b grid]; [done|]. clear Hne.
  unfold has_column. rewrite Exists_fmap, Exists_exists. unfold compose. split.
  - intros Hno.
    assert (Hb : candidate_of fixed_params loads b !! key = None).
    { apply eq_None_not_Some. intros Hsome. apply Hno. exists b. split; [by left|done]. }
    rewrite candidate_lookup in Hb.
    destruct (decide (key = "As"%string)); [done|].
    destruct (decide (key = "largura"%string)); [done|].
    destruct (decide (key = "Altura"%string)); [done|].
    by destruct (loads !! key).
  - intros (H1 & H2 & H3 & Hl & Hf) (b' & _ & Hsome). cbv beta in Hsome.
    rewrite candidate_lookup in Hsome.
    rewrite !decide_False in Hsome by done. rewrite Hl, Hf in Hsome.
    by destruct Hsome.
Qed.

End OptimizerInputs.

(** * Further properties *)

Section FeatureExtras.

Local Open Scope float_scope.

(** X1.  In the frame that [create_engineered_features] returns, every row
    holds the averages and the differences of the top and base efforts, the
    two slendernesses [3.46 * PeDireito / largura] and
    [3.46 * PeDireito / Altura], the second-order indices [nu * lambda^2]
    of that row's own [nu] and slendernesses, the larger of
    [Altura / largura] and [largura / Altura] as the aspect ratio, and the
    angle [arctan2 mu_y mu_x] of that row's own moments. *)
Theorem X1_variations_slenderness_and_angle arctan2 w l d i r :
  heap w !! l = Some (OFrame d) →
  raw_at d i = Some r →
  ∃ l' w' d' nu mu_x mu_y lambda_x lambda_y,
    run (create_engineered_features arctan2 l) w = (Ok l', w') ∧
    heap w' !! l' = Some (OFrame d') ∧
    cell_at d' "N_med" i = Some ((Raw.N_top r + Raw.N_base r) / 2) ∧
    cell_at d' "Mx_med" i = Some ((Raw.Mx_top r + Raw.Mx_base r) / 2) ∧
    cell_at d' "My_med" i = Some ((Raw.My_top r + Raw.My_base r) / 2) ∧
    cell_at d' "dN" i = Some (Raw.N_base r - Raw.N_top r) ∧
    cell_at d' "dMx" i = Some (Raw.Mx_base r - Raw.Mx_top r) ∧
    cell_at d' "dMy" i = Some (Raw.My_base r - Raw.My_top r) ∧
    cell_at d' "nu" i = Some nu ∧
    cell_at d' "mu_x" i = Some mu_x ∧
    cell_at d' "mu_y" i = Some mu_y ∧
    cell_at d' "lambda_x" i = Some lambda_x ∧
    cell_at d' "lambda_y" i = Some lambda_y ∧
    lambda_x = lambda_coef * Raw.PeDireito r / Raw.largura r ∧
    lambda_y = lambda_coef * Raw.PeDireito r / Raw.Altura r ∧
    cell_at d' "index_2nd_order_x" i = Some (nu * (lambda_x * lambda_x)) ∧
    cell_at d' "index_2nd_order_y" i = Some (nu * (lambda_y * lambda_y)) ∧
    cell_at d' "aspect_ratio" i =
      Some (Np.maximum (Raw.Altura r / Raw.largura r) (Raw.largura r / Raw.Altura r)) ∧
    cell_at d' "theta_moment" i = Some (arctan2 mu_y mu_x).
Proof.
  intros Hl Hraw.
  destruct (cef_cells arctan2 w l d i r Hl Hraw) as (l' & w' & d' & Hrun & Hl' & Hcell).
  eexists l', w', d', _, _, _, _, _. split; [exact Hrun|]. split; [exact Hl'|].
  split; [apply Hcell; unfold engineer; cbv zeta; do 0 right; left|].
  split; [apply Hcell; unfold engineer; cbv zeta; do 1 right; left|].
  split; [apply Hcell; unfold engineer; cbv zeta; do 2 right; left|].
  split; [apply Hcell; unfold engineer; cbv zeta; do 3 right; left|].
  split; [apply Hcell; unfold engineer; cbv zeta; do 4 right; left|].
  split; [apply Hcell; unfold engineer; cbv zeta; do 5 right; left|].
  split; [apply Hcell; unfold engineer; cbv zeta; do 7 right; left|].
  split; [apply Hcell; unfold engineer; cbv zeta; do 8 right; left|].
  split; [apply Hcell; unfold engineer; cbv zeta; do 9 right; left|].
  split; [apply Hcell; unfold engineer; cbv zeta; do 10 right; left|].
  split; [apply Hcell; unfold engineer; cbv zeta; do 11 right; left|].
  split; [reflexivity|]. split; [reflexivity|].
  split; [apply Hcell; unfold engineer; cbv zeta; do 17 right; left|].
  split; [apply Hcell; unfold engineer; cbv zeta; do 18 right; left|].
  split; [apply Hcell; unfold engineer; cbv zeta; do 19 right; left|].
  apply Hcell; unfold engineer; cbv zeta; do 20 right; left.
Qed.

(** X2.  On a frame that lacks a raw column, [create_engineered_features]
    raises the [KeyError] of the first one missing, in the order largura,
    Altura, PeDireito, fck, N_top, N_base, Mx_top, Mx_base, My_top,
    My_base; the frame it was given is as it was, and no model has been
    invoked. *)
Theorem X2_first_missing_raw_column arctan2 w l d j key :
  heap w !! l = Some (OFrame d) →
  list_find (λ k, columns d !! k = None) RAW = Some (j, key) →
  ∃ w', run (create_engineered_features arctan2 l) w = (Raise (KeyError key), w') ∧
        heap w' !! l = Some (OFrame d) ∧
        heap w ⊆ heap w' ∧
        trace w' = trace w.
Proof.
  intros Hl Hf.
  pose proof (engineered_frame_first_missing arctan2 d j key Hf) as Heng.
  eexists. split; [exact (cef_run_raise arctan2 _ _ _ _ Hl Heng)|]. cbn [heap trace].
  split; [|split; [apply insert_fresh_subseteq|done]].
  eapply lookup_weaken; [exact Hl|apply insert_fresh_subseteq].
Qed.

(** X3.  [create_engineered_features] is idempotent: given the frame that
    it returned, it returns a second new frame with the same contents. *)
Theorem X3_engineering_twice arctan2 w l d :
  heap w !! l = Some (OFrame d) →
  Forall (λ key, is_Some (columns d !! key)) RAW →
  ∃ l1 w1 l2 w2 d',
    run (create_engineered_features arctan2 l) w = (Ok l1, w1) ∧
    run (create_engineered_features arctan2 l1) w1 = (Ok l2, w2) ∧
    l1 ≠ l2 ∧
    heap w2 !! l1 = Some (OFrame d') ∧
    heap w2 !! l2 = Some (OFrame d').
Proof.
  intros Hl Hraw.
  destruct (cef_total arctan2 w l d Hl Hraw)
    as (l1 & w1 & d' & Hrun1 & Heng & _ & _ & Hl1).
  pose proof (engineered_frame_idem arctan2 d d' Heng) as Heng'.
  pose proof (cef_run arctan2 w1 l1 d' d' Hl1 Heng') as Hrun2.
  eexists l1, w1, _, _, d'. split; [exact Hrun1|]. split; [exact Hrun2|].
  cbn [heap]. split; [|split; [|apply lookup_insert_eq]].
  - intros ->. pose proof (fresh_loc_None (heap w1)) as Hnone. congruence.
  - eapply lookup_weaken; [exact Hl1|apply insert_fresh_subseteq].
Qed.

End FeatureExtras.

(** X1 at scenario A: the slenderness about x of a pillar 235 cm high and
    30 cm wide. *)
Lemma X1_witness :
  ∃ d', cell_at d' "lambda_x" 0 =
          Some (PrimFloat.div (PrimFloat.mul lambda_coef 235) 30).
Proof.
  destruct (X1_variations_slenderness_and_angle arctan2_example world_frame_A 0
              (Pd.of_records [scenario_A]) 0
              (Raw.mk 30 95 235 50 392 392 129 205 (-92) 430))
    as (l' & w' & d' & nu & mu_x & mu_y & lx & ly & _ & _ & _ & _ & _ & _ & _ & _ &
        _ & _ & _ & Hlx & _ & -> & _).
  - vm_compute. reflexivity.
  - vm_compute. reflexivity.
  - exists d'. exact Hlx.
Defined.

(** X2 on the frame of scenario A without its height and its concrete
    strength: the height is the one reported. *)
Lemma X2_witness :
  ∃ w', run (create_engineered_features arctan2_example 0)
            (mkWorld {[ 0 := OFrame (Pd.of_records
                                       [delete "Altura"%string
                                          (delete "fck"%string scenario_A)]) ]} []) =
          (Raise (KeyError "Altura"), w').
Proof.
  destruct (X2_first_missing_raw_column arctan2_example
              (mkWorld {[ 0 := OFrame (Pd.of_records
                                         [delete "Altura"%string
                                            (delete "fck"%string scenario_A)]) ]} [])
              0 (Pd.of_records [delete "Altura"%string (delete "fck"%string scenario_A)])
              1 "Altura"%string)
    as (w' & Hrun & _).
  - vm_compute. reflexivity.
  - vm_compute. reflexivity.
  - exists w'. exact Hrun.
Defined.

(** X3 at scenario A. *)
Lemma X3_witness :
  ∃ l1 w1 l2 w2,
    run (create_engineered_features arctan2_example 0) world_frame_A = (Ok l1, w1) ∧
    run (create_engineered_features arctan2_example l1) w1 = (Ok l2, w2) ∧
    heap w2 !! l1 = heap w2 !! l2.
Proof.
  destruct (X3_engineering_twice arctan2_example world_frame_A 0
              (Pd.of_records [scenario_A]))
    as (l1 & w1 & l2 & w2 & d' & H1 & H2 & _ & Ha & Hb).
  - vm_compute. reflexivity.
  - in_list.
  - exists l1, w1, l2, w2. split; [exact H1|]. split; [exact H2|]. by rewrite Ha, Hb.
Defined.

Section TrainingExtras.

Variable missing_message : gset string → string.

(** X4.  [create_target_variable] returns a new frame in which [rho] is
    [As / Ac] row by row and every other column is the one of the frame
    given, which is left as it was; without a column [As] it raises the
    [KeyError] of [As], and with [As] but without [Ac] the one of [Ac]. *)
Theorem X4_target_variable w l d :
  heap w !! l = Some (OFrame d) →
  (∀ As_ Ac,
     columns d !! "As" = Some As_ → columns d !! "Ac" = Some Ac →
     ∃ l' w' d',
       run (create_target_variable l) w = (Ok l', w') ∧
       heap w !! l' = None ∧
       heap w' !! l = Some (OFrame d) ∧
       heap w' !! l' = Some (OFrame d') ∧
       (∀ key, key ≠ "rho"%string → columns d' !! key = columns d !! key) ∧
       ∀ i a c, As_ !! i = Some a → Ac !! i = Some c →
         cell_at d' "rho" i = Some (PrimFloat.div a c))
  ∧
  (columns d !! "As" = None →
   ∃ w', run (create_target_variable l) w = (Raise (KeyError "As"), w') ∧
         heap w' !! l = Some (OFrame d))
  ∧
  (is_Some (columns d !! "As") → columns d !! "Ac" = None →
   ∃ w', run (create_target_variable l) w = (Raise (KeyError "Ac"), w') ∧
         heap w' !! l = Some (OFrame d)).
Proof.
  intros Hl.
  assert (Hold : ∀ o, <[fresh_loc (heap w) := o]> (heap w) !! l = Some (OFrame d)).
  { intros o. eapply lookup_weaken; [exact Hl|apply insert_fresh_subseteq]. }
  split; [|split].
  - intros As_ Ac HAs HAc.
    assert (Ht : target_frame d = Ok (Pd.set_column d "rho" (Np.div As_ Ac))).
    { unfold target_frame, Pd.column. by rewrite HAs, HAc. }
    eexists _, _, _. split; [exact (ctv_run w l d _ Hl Ht)|]. cbn [heap].
    split; [apply fresh_loc_None|]. split; [apply Hold|].
    split; [apply lookup_insert_eq|]. split.
    + intros key Hkey. cbn [Pd.set_column columns]. by rewrite lookup_insert_ne.
    + intros i a c Ha Hc. unfold cell_at. cbn [Pd.set_column columns].
      rewrite lookup_insert_eq. cbn. unfold Np.div.
      by rewrite lookup_zip_with, Ha, Hc.
  - intros HAs.
    assert (Ht : target_frame d = Raise (KeyError "As")).
    { unfold target_frame, Pd.column. by rewrite HAs. }
    eexists. split; [exact (ctv_run_raise w l d _ Hl Ht)|]. apply Hold.
  - intros [As_ HAs] HAc.
    assert (Ht : target_frame d = Raise (KeyError "Ac")).
    { unfold target_frame, Pd.column. by rewrite HAs, HAc. }
    eexists. split; [exact (ctv_run_raise w l d _ Hl Ht)|]. apply Hold.
Qed.

(** X5.  [prepare_features] leaves [Ac] out of the features whatever the
    list it is given: with every other listed column and [rho] in the
    frame it returns the listed columns, in order and without [Ac], and
    the column [rho], and it does not need a column [Ac]; when a listed
    column other than [Ac] is missing it raises the [KeyError] of the set
    of the missing ones, before it looks for [rho]; when only [rho] is
    missing it raises the [KeyError] of [rho]. *)
Theorem X5_prepare_features w l d feature_columns :
  heap w !! l = Some (OFrame d) →
  let features_clean := filter (λ col, col ≠ "Ac"%string) feature_columns in
  (Forall (λ k, is_Some (columns d !! k)) features_clean →
   (∀ rho, columns d !! "rho" = Some rho →
      ∃ X, run (prepare_features missing_message l feature_columns) w = (Ok (X, rho), w) ∧
           (X.*1) = features_clean ∧
           ("Ac"%string ∉ X.*1) ∧
           ∀ k c, (k, c) ∈ X → columns d !! k = Some c) ∧
   (columns d !! "rho" = None →
      run (prepare_features missing_message l feature_columns) w =
        (Raise (KeyError "rho"), w)))
  ∧
  (¬ Forall (λ k, is_Some (columns d !! k)) features_clean →
   run (prepare_features missing_message l feature_columns) w =
     (Raise (KeyError (missing_message
                         (list_to_set features_clean ∖ dom (columns d)))), w)).
Proof.
  intros Hl features_clean. split; [|by apply prepare_features_missing].
  intros Hall. destruct (select_ok d features_clean Hall) as (cols & Hsel & Hcols).
  split.
  - intros rho Hrho. exists (zip features_clean cols).
    split; [by apply (prepare_features_run _ w l d)|].
    assert (Hlen : length features_clean = length cols) by (by eapply Forall2_length).
    split; [apply fst_zip; lia|]. split.
    + rewrite fst_zip by lia. unfold features_clean.
      intros Hin. apply list_elem_of_filter in Hin as [Hne _]. done.
    + intros k c Hin. apply list_elem_of_lookup in Hin as [i Hi].
      apply lookup_zip_with_Some in Hi as (k' & c' & [= <- <-] & Hk & Hc).
      exact (Forall2_lookup_lr _ _ _ i _ _ Hcols Hk Hc).
  - intros Hrho. unfold prepare_features. cbv zeta.
    rewrite (run_read_frame _ _ l d Hl).
    rewrite bool_decide_eq_false_2 by (by intros Hne; apply Hne, missing_empty).
    fold features_clean. rewrite run_lift_bind, Hsel, run_lift_bind.
    unfold Pd.column. by rewrite Hrho.
Qed.

(** X6.  The data preparation of the training script, on the frame of a
    list of records that have the twelve columns of the dataset:
    [create_engineered_features], then [create_target_variable], then
    [prepare_features] with the configured features return the 31 feature
    columns, whose rows are the feature rows that the predictor computes
    for the same records, and the target [As / (largura * Altura)] of each
    record; the frame given is as it was. *)
Theorem X6_training_data arctan2 w l records :
  heap w !! l = Some (OFrame (Pd.of_records records)) →
  Forall (has_column records) REQUIRED_COLUMNS →
  ∃ X y w',
    run (df ← create_engineered_features arctan2 l;
         df ← create_target_variable df;
         prepare_features missing_message df FEATURE_COLUMNS) w = (Ok (X, y), w') ∧
    (X.*1) = FEATURE_COLUMNS ∧
    Pd.rows (length records) (X.*2) = feature_row arctan2 <$> records ∧
    y = (λ r, PrimFloat.div (Pd.cell "As" r)
                (PrimFloat.mul (Pd.cell "largura" r) (Pd.cell "Altura" r))) <$> records ∧
    heap w' !! l = Some (OFrame (Pd.of_records records)).
Proof.
  intros Hl Hcols.
  destruct (engineered_records arctan2 records (required_columns_required _ Hcols))
    as (d1 & cols & Heng & Hn & Hsel & HX & HAc).
  assert (HAs : columns d1 !! "As" = Some (Pd.cell "As" <$> records)).
  { rewrite (engineered_frame_keep arctan2 _ _ _ Heng) by in_list.
    apply of_records_column. apply (proj1 (Forall_forall _ _) Hcols). in_list. }
  apply column_Ok in HAc.
  set (rho := Np.div (Pd.cell "As" <$> records) (area <$> records)).
  assert (Ht : target_frame d1 = Ok (Pd.set_column d1 "rho" rho)).
  { unfold target_frame, Pd.column. by rewrite HAs, HAc. }
  rewrite run_bind, (cef_run arctan2 w l _ d1 Hl Heng).
  set (l1 := fresh_loc (heap w)). set (w1 := mkWorld _ _).
  assert (Hl1 : heap w1 !! l1 = Some (OFrame d1)) by apply lookup_insert_eq.
  rewrite run_bind, (ctv_run w1 l1 d1 _ Hl1 Ht).
  set (l2 := fresh_loc (heap w1)). set (w2 := mkWorld _ _).
  assert (Hclean : filter (λ col, col ≠ "Ac"%string) FEATURE_COLUMNS = FEATURE_COLUMNS)
    by (vm_compute; reflexivity).
  erewrite (prepare_features_run missing_message w2 l2 (Pd.set_column d1 "rho" rho));
    [|apply lookup_insert_eq
     |rewrite Hclean, select_set_column_ne by in_list; exact Hsel
     |cbn [Pd.set_column columns]; apply lookup_insert_eq].
  rewrite Hclean.
  assert (Hlen : length FEATURE_COLUMNS = length cols).
  { apply select_names in Hsel. by eapply Forall2_length. }
  eexists _, _, _. split; [reflexivity|].
  split; [apply fst_zip; lia|]. split; [|split].
  - rewrite snd_zip by lia. by rewrite <- Hn.
  - unfold rho, Np.div, area. rewrite zip_with_fmap_l, zip_with_fmap_r.
    by rewrite zip_with_diag.
  - cbn [heap w2 w1].
    eapply lookup_weaken; [|apply insert_fresh_subseteq].
    eapply lookup_weaken; [exact Hl|apply insert_fresh_subseteq].
Qed.

(** X7.  [validate_dataframe] answers [True] exactly when the frame has
    every column of the list and changes nothing; asked about the ten raw
    columns, it answers [True] exactly when [create_engineered_features]
    returns on that frame. *)
Theorem X7_validate_dataframe arctan2 w l d :
  heap w !! l = Some (OFrame d) →
  (∀ required, ∃ b,
     run (validate_dataframe l required) w = (Ok b, w) ∧
     (b = true ↔ Forall (λ k, is_Some (columns d !! k)) required))
  ∧
  ∃ b, run (validate_dataframe l RAW) w = (Ok b, w) ∧
       (b = true ↔ ∃ l' w', run (create_engineered_features arctan2 l) w = (Ok l', w')).
Proof.
  intros Hl. split.
  - intros required. eexists. split; [by apply validate_dataframe_run|].
    apply bool_decide_eq_true.
  - eexists. split; [by apply validate_dataframe_run|].
    rewrite bool_decide_eq_true. split.
    + intros Hraw.
      destruct (cef_total arctan2 w l d Hl Hraw) as (l' & w' & d' & Hrun & _).
      by exists l', w'.
    + intros (l' & w' & Hrun).
      destruct (engineered_frame arctan2 d) as [d'|e] eqn:Heng.
      * apply Forall_forall. intros key Hkey.
        by apply (engineered_frame_raw arctan2 d d').
      * rewrite (cef_run_raise arctan2 _ _ _ _ Hl Heng) in Hrun. discriminate Hrun.
Qed.

End TrainingExtras.

(** X4 on a row with 20.1 cm2 of steel in a section of 2850 cm2. *)
Lemma X4_witness :
  ∃ d', cell_at d' "rho" 0 =
          Some (PrimFloat.div 0x1.419999999999ap+4 2850).
Proof.
  destruct (X4_target_variable (mkWorld {[ 0 := OFrame frame_As_Ac ]} []) 0 frame_As_Ac)
    as [Hok _]; [vm_compute; reflexivity|].
  destruct (Hok [0x1.419999999999ap+4%float] [2850%float])
    as (l' & w' & d' & _ & _ & _ & _ & _ & Hrho).
  - vm_compute. reflexivity.
  - vm_compute. reflexivity.
  - exists d'. by apply Hrho.
Defined.

(** X5 on a frame with a strength and a ratio, asked for the strength and
    for [Ac]: the strength alone is returned. *)
Lemma X5_witness :
  ∃ X, run (prepare_features missing_message_example 0 ["fck"; "Ac"]%string)
           (mkWorld {[ 0 := OFrame frame_fck_rho ]} []) =
         (Ok (X, [0.0078125%float]), mkWorld {[ 0 := OFrame frame_fck_rho ]} []) ∧
       (X.*1) = ["fck"%string].
Proof.
  destruct (X5_prepare_features missing_message_example
              (mkWorld {[ 0 := OFrame frame_fck_rho ]} []) 0
              frame_fck_rho ["fck"; "Ac"]%string)
    as [Hok _]; [vm_compute; reflexivity|].
  destruct Hok as [Hok _]; [in_list|].
  destruct (Hok [0.0078125%float]) as (X & Hrun & Hnames & _).
  - vm_compute. reflexivity.
  - exists X. split; [exact Hrun|exact Hnames].
Defined.

(** X6 on the record of scenario A with its steel area. *)
Lemma X6_witness :
  ∃ X y w',
    run (df ← create_engineered_features arctan2_example 0;
         df ← create_target_variable df;
         prepare_features missing_message_example df FEATURE_COLUMNS)
        world_frame_A_with_As = (Ok (X, y), w') ∧
    y = [PrimFloat.div 0x1.419999999999ap+4 2850].
Proof.
  destruct (X6_training_data missing_message_example arctan2_example
              world_frame_A_with_As 0 [scenario_A_with_As])
    as (X & y & w' & Hrun & _ & _ & Hy & _).
  - reflexivity.
  - in_list.
  - exists X, y, w'. split; [exact Hrun|]. rewrite Hy. vm_compute. reflexivity.
Defined.

(** X7 on the frame of scenario A. *)
Lemma X7_witness :
  ∃ b, run (validate_dataframe 0 RAW) world_frame_A = (Ok b, world_frame_A) ∧
       (b = true ↔ ∃ l' w',
          run (create_engineered_features arctan2_example 0) world_frame_A = (Ok l', w')).
Proof.
  apply (X7_validate_dataframe arctan2_example world_frame_A 0
           (Pd.of_records [scenario_A])).
  vm_compute. reflexivity.
Defined.

Section PredictorExtras.

Variable arctan2 : float → float → float.
Variable self : PillarPredictor.

(** X8.  What [predict_single] reports besides the prediction: the steel
    area given under [As], or 0 without one; a message exactly when the
    label is 0; an error exactly when the label is not 0 and the steel area
    given is above 0, and then the error is the predicted area less the
    given one, with its percentage of the given one. *)
Theorem X8_single_error_report w p r :
  heap w !! p = Some (ODict r) → valid_record r →
  ∃ res w',
    run (predict_single arctan2 self p) w = (Ok res, w') ∧
    let label := clf_predict self (feature_row arctan2 r) in
    Single.As_actual res = default 0%float (r !! "As") ∧
    (is_Some (Single.message res) ↔ label = 0%Z) ∧
    (is_Some (Single.error res) ↔
       label ≠ 0%Z ∧ PrimFloat.ltb 0 (Single.As_actual res) = true) ∧
    (is_Some (Single.error_pct res) ↔ is_Some (Single.error res)) ∧
    ∀ e, Single.error res = Some e →
      e = PrimFloat.sub (Single.As_predicted res) (Single.As_actual res) ∧
      Single.error_pct res =
        Some (PrimFloat.mul (PrimFloat.div e (Single.As_actual res)) 100).
Proof.
  intros Hp Hvalid.
  destruct (predict_single_run arctan2 self w p r Hp) as (h & _ & Hrun).
  { apply (valid_record_columns [r] r); [by left|done]. }
  eexists _, _. split; [exact Hrun|]. cbv zeta. unfold single_result. cbv zeta.
  destruct (Z.eqb_spec (clf_predict self (feature_row arctan2 r)) 0) as [Hz|Hnz].
  - cbn [Single.As_actual Single.message Single.error Single.error_pct].
    split; [done|]. split; [by split; [|eexists]|].
    split; [split; [by intros [? ?]|by intros [? _]]|].
    split; [done|]. by intros e.
  - destruct (PrimFloat.ltb 0 (default 0%float (r !! "As"))) eqn:Hpos;
      cbn [Single.As_actual Single.As_predicted Single.message Single.error
           Single.error_pct].
    + split; [done|]. split; [by split; [intros [? ?]|]|].
      split; [by split; [|eexists]|]. split; [by split; eexists|].
      by intros e [= <-].
    + split; [done|]. split; [by split; [intros [? ?]|]|].
      split; [split; [by intros [? ?]|intros [_ Hlt]; congruence]|].
      split; [done|]. by intros e.
Qed.

(** X9.  Only the eleven inputs of a record reach the models: two records
    that agree on largura, Altura, PeDireito, fck, the six efforts and
    Cobrimento get the same status, probability, cross-section, steel ratio
    and steel area from [predict_single], through the same model
    invocations, whatever else they hold, the steel area [As] included. *)
Theorem X9_only_the_inputs_matter w p r p' r' :
  heap w !! p = Some (ODict r) →
  heap w !! p' = Some (ODict r') →
  valid_record r →
  (∀ key, key ∈ REQUIRED → r' !! key = r !! key) →
  ∃ res w1 res' w1',
    run (predict_single arctan2 self p) w = (Ok res, w1) ∧
    run (predict_single arctan2 self p') w = (Ok res', w1') ∧
    Single.status res' = Single.status res ∧
    Single.feasibility_prob res' = Single.feasibility_prob res ∧
    Single.Ac res' = Single.Ac res ∧
    Single.rho_predicted res' = Single.rho_predicted res ∧
    Single.As_predicted res' = Single.As_predicted res ∧
    trace w1' = trace w1.
Proof.
  intros Hp Hp' Hvalid Hext.
  assert (Hvalid' : valid_record r').
  { unfold valid_record in *. apply Forall_forall. intros key Hkey.
    rewrite Hext by done. by apply (proj1 (Forall_forall _ _) Hvalid). }
  destruct (predict_single_run arctan2 self w p r Hp) as (h & _ & Hrun).
  { apply (valid_record_columns [r] r); [by left|done]. }
  destruct (predict_single_run arctan2 self w p' r' Hp') as (h' & _ & Hrun').
  { apply (valid_record_columns [r'] r'); [by left|done]. }
  destruct (feature_row_ext arctan2 r r' Hext) as [Hrow Harea].
  eexists _, _, _, _. split; [exact Hrun|]. split; [exact Hrun'|].
  cbn [trace]. unfold single_result, single_trace. cbv zeta. rewrite Hrow, Harea.
  destruct (clf_predict self (feature_row arctan2 r) =? 0)%Z.
  - by cbn.
  - by destruct (PrimFloat.ltb 0 (default 0%float (r !! "As"))),
               (PrimFloat.ltb 0 (default 0%float (r' !! "As"))).
Qed.

(** X10.  When some required column is in no record, [predict_batch]
    raises a [KeyError] and no model has been invoked; the columns are
    looked for in the order largura, Altura, PeDireito, fck, N_top, N_base,
    Mx_top, Mx_base, My_top, My_base, Cobrimento, and when the first one
    missing is a raw column the error is the one of that column.  The same
    holds of [predict_single] and the keys of its record. *)
Theorem X10_missing_column_before_models :
  (∀ w locs records j key,
     dicts_at (heap w) locs records →
     list_find (λ k, ¬ has_column records k) REQUIRED = Some (j, key) →
     ∃ msg w',
       run (predict_batch arctan2 self locs) w = (Raise (KeyError msg), w') ∧
       trace w' = trace w ∧
       (key ∈ RAW → msg = key))
  ∧
  (∀ w p r j key,
     heap w !! p = Some (ODict r) →
     list_find (λ k, r !! k = None) REQUIRED = Some (j, key) →
     ∃ msg w',
       run (predict_single arctan2 self p) w = (Raise (KeyError msg), w') ∧
       trace w' = trace w ∧
       (key ∈ RAW → msg = key)).
Proof.
  split.
  - intros w locs records j key Hds Hfind.
    edestruct (features_raise arctan2 (B := Batch.t)) as (msg & h & _ & Hmsg & Hrun);
      [exact Hds|exact Hfind|].
    exists msg, (mkWorld h (trace w)). split; [exact Hrun|]. by split.
  - intros w p r j key Hp Hfind.
    assert (Hds : dicts_at (heap w) [p] [r]) by (by repeat constructor).
    rewrite (list_find_ext _ (λ k, ¬ has_column [r] k)) in Hfind.
    2:{ intros k. rewrite has_column_singleton, eq_None_not_Some. done. }
    edestruct (features_raise arctan2 (B := Single.t)) as (msg & h & _ & Hmsg & Hrun);
      [exact Hds|exact Hfind|].
    exists msg, (mkWorld h (trace w)). split; [exact Hrun|]. by split.
Qed.

(** X11.  [predict_batch] treats the records one by one: on valid records,
    the table of a list followed by another is the table of the first
    followed by the table of the second, in the columns [is_feasible],
    [prob_feasible], [rho_predicted], [As_predicted] and [Ac]. *)
Theorem X11_batch_of_concatenation w la lb a b :
  dicts_at (heap w) la a → dicts_at (heap w) lb b →
  a ≠ [] → b ≠ [] →
  Forall valid_record a → Forall valid_record b →
  ∃ ra wa rb wb rab wab,
    run (predict_batch arctan2 self la) w = (Ok ra, wa) ∧
    run (predict_batch arctan2 self lb) w = (Ok rb, wb) ∧
    run (predict_batch arctan2 self (la ++ lb)) w = (Ok rab, wab) ∧
    Batch.is_feasible rab = Batch.is_feasible ra ++ Batch.is_feasible rb ∧
    Batch.prob_feasible rab = Batch.prob_feasible ra ++ Batch.prob_feasible rb ∧
    Batch.rho_predicted rab = Batch.rho_predicted ra ++ Batch.rho_predicted rb ∧
    Batch.As_predicted rab = Batch.As_predicted ra ++ Batch.As_predicted rb ∧
    Batch.Ac rab = Batch.Ac ra ++ Batch.Ac rb.
Proof.
  intros Ha Hb Hna Hnb Hva Hvb.
  destruct (predict_batch_run arctan2 self w la a Ha) as (ha & _ & Hra);
    [by apply valid_records_columns|].
  destruct (predict_batch_run arctan2 self w lb b Hb) as (hb & _ & Hrb);
    [by apply valid_records_columns|].
  destruct (predict_batch_run arctan2 self w (la ++ lb) (a ++ b)) as (hab & _ & Hrab).
  { by apply Forall2_app. }
  { apply valid_records_columns; [by destruct a|by apply Forall_app]. }
  eexists _, _, _, _, _, _. split; [exact Hra|]. split; [exact Hrb|].
  split; [exact Hrab|]. apply batch_result_app.
Qed.

(** X12.  The steel area given with a record comes back as [As_actual]
    from both [predict_single] and [predict_batch]; without one,
    [predict_single] reports 0, and [predict_batch] reports 0 when no
    record of the batch has one but NaN when another record has. *)
Theorem X12_actual_steel_area w p locs records i r :
  heap w !! p = Some (ODict r) →
  dicts_at (heap w) locs records →
  records !! i = Some r →
  valid_record r →
  ∃ s ws b wb,
    run (predict_single arctan2 self p) w = (Ok s, ws) ∧
    run (predict_batch arctan2 self locs) w = (Ok b, wb) ∧
    (∀ v, r !! "As" = Some v →
       Single.As_actual s = v ∧ Batch.As_actual b !! i = Some v) ∧
    (¬ has_column records "As" →
       Single.As_actual s = 0%float ∧ Batch.As_actual b !! i = Some 0%float) ∧
    (r !! "As" = None → has_column records "As" →
       Single.As_actual s = 0%float ∧ Batch.As_actual b !! i = Some Np.nan).
Proof.
  intros Hp Hds Hi Hvalid.
  destruct (predict_single_run arctan2 self w p r Hp) as (hs & _ & Hs).
  { apply (valid_record_columns [r] r); [by left|done]. }
  destruct (predict_batch_run arctan2 self w locs records Hds) as (hb & _ & Hb).
  { eapply valid_record_columns; [|done]. by eapply list_elem_of_lookup_2. }
  eexists _, _, _, _. split; [exact Hs|]. split; [exact Hb|].
  rewrite (batch_As_actual arctan2 self records i r Hi).
  assert (HAs : Single.As_actual (single_result arctan2 self r) = default 0%float (r !! "As")).
  { unfold single_result. cbv zeta.
    destruct (clf_predict self (feature_row arctan2 r) =? 0)%Z; [done|].
    by destruct (PrimFloat.ltb 0 (default 0%float (r !! "As"))). }
  rewrite HAs. split; [|split].
  - intros v Hv. rewrite Hv. split; [done|].
    rewrite decide_True.
    + unfold Pd.cell. by rewrite Hv.
    + apply Exists_exists. exists r. split; [by eapply list_elem_of_lookup_2|by eexists].
  - intros Hn. rewrite decide_False by done. split; [|done].
    destruct (r !! "As") as [v|] eqn:Hv; [|done].
    exfalso. apply Hn. apply Exists_exists. exists r.
    split; [by eapply list_elem_of_lookup_2|by eexists].
  - intros Hnone Hc. rewrite Hnone, decide_True by done. split; [done|].
    unfold Pd.cell. by rewrite Hnone.
Qed.

(** X13.  The two modes part on a label that is neither 0 nor 1:
    [predict_single] calls the result Infeasible and yet invokes the
    regressor and reports its ratio and [rho * Ac], while [predict_batch]
    reports zeros for that row. *)
Theorem X13_label_neither_0_nor_1 w p locs records i r :
  heap w !! p = Some (ODict r) →
  dicts_at (heap w) locs records →
  records !! i = Some r →
  valid_record r →
  clf_predict self (feature_row arctan2 r) ≠ 0%Z →
  clf_predict self (feature_row arctan2 r) ≠ 1%Z →
  ∃ s ws b wb,
    run (predict_single arctan2 self p) w = (Ok s, ws) ∧
    run (predict_batch arctan2 self locs) w = (Ok b, wb) ∧
    let x := feature_row arctan2 r in
    Single.status s = "Infeasible"%string ∧
    Single.rho_predicted s = reg_predict self x ∧
    Single.As_predicted s = PrimFloat.mul (reg_predict self x) (Single.Ac s) ∧
    trace ws = trace w ++ [ClassifierPredict [x]; ClassifierPredictProba [x];
                           RegressorPredict [x]] ∧
    Batch.rho_predicted b !! i = Some 0%float ∧
    Batch.As_predicted b !! i = Some 0%float.
Proof.
  intros Hp Hds Hi Hvalid H0 H1.
  destruct (predict_single_run arctan2 self w p r Hp) as (hs & _ & Hs).
  { apply (valid_record_columns [r] r); [by left|done]. }
  destruct (predict_batch_run arctan2 self w locs records Hds) as (hb & _ & Hb).
  { eapply valid_record_columns; [|done]. by eapply list_elem_of_lookup_2. }
  destruct (batch_row arctan2 self records i r Hi) as (_ & _ & Hrho & HAs & _).
  eexists _, _, _, _. split; [exact Hs|]. split; [exact Hb|].
  cbv zeta. rewrite Hrho, HAs. cbn [trace]. unfold single_result, single_trace. cbv zeta.
  apply Z.eqb_neq in H0, H1. rewrite H0, H1.
  by destruct (PrimFloat.ltb 0 (default 0%float (r !! "As"))).
Qed.

(** X14.  A call of [predict_batch] that returns has invoked the models
    three times, whatever the labels: the classifier for the labels, the
    classifier for the probabilities and the regressor, each once and in
    that order, on the same matrix of one row of 31 features per record. *)
Theorem X14_batch_invocations w locs records :
  dicts_at (heap w) locs records →
  Forall (has_column records) REQUIRED →
  ∃ res w' X,
    run (predict_batch arctan2 self locs) w = (Ok res, w') ∧
    trace w' = trace w ++ [ClassifierPredict X; ClassifierPredictProba X;
                           RegressorPredict X] ∧
    X = feature_row arctan2 <$> records ∧
    length X = length records ∧
    Forall (λ row, length row = 31) X.
Proof.
  intros Hds Hcols.
  destruct (predict_batch_run arctan2 self w locs records Hds Hcols) as (h & _ & Hrun).
  eexists _, _, _. split; [exact Hrun|]. split; [reflexivity|]. split; [reflexivity|].
  split; [by rewrite length_fmap|].
  apply Forall_fmap, Forall_forall. intros r _. apply length_feature_row.
Qed.

End PredictorExtras.

(** X8 on the record of scenario A with its steel area: an error is
    reported. *)
Lemma X8_witness :
  ∃ res w',
    run (predict_single arctan2_example example_predictor 1) world_pair = (Ok res, w') ∧
    is_Some (Single.error res).
Proof.
  destruct (X8_single_error_report arctan2_example example_predictor world_pair 1
              scenario_A_with_As)
    as (res & w' & Hrun & HAs & _ & Herr & _).
  - vm_compute. reflexivity.
  - unfold valid_record. in_list.
  - exists res, w'. split; [exact Hrun|]. apply Herr. rewrite HAs. split.
    + vm_compute. discriminate.
    + vm_compute. reflexivity.
Defined.

(** X9 on the two records of [world_pair], which differ in [As]. *)
Lemma X9_witness :
  ∃ res res',
    Single.As_predicted res' = Single.As_predicted res ∧
    Single.status res' = Single.status res.
Proof.
  destruct (X9_only_the_inputs_matter arctan2_example example_predictor world_pair
              0 scenario_A 1 scenario_A_with_As)
    as (res & w1 & res' & w1' & _ & _ & Hst & _ & _ & _ & HAs & _).
  - vm_compute. reflexivity.
  - vm_compute. reflexivity.
  - unfold valid_record. in_list.
  - intros key Hkey. unfold scenario_A_with_As. apply lookup_insert_ne.
    intros <-. revert Hkey. apply (bool_decide_unpack _). by vm_compute.
  - exists res, res'. split; [exact HAs|exact Hst].
Defined.

(** X10 on the record without its width: the error is the one of
    [largura]. *)
Lemma X10_witness :
  ∃ w', run (predict_batch arctan2_example example_predictor [1]) world_two =
          (Raise (KeyError "largura"), w') ∧
        trace w' = [].
Proof.
  destruct (proj1 (X10_missing_column_before_models arctan2_example example_predictor)
              world_two [1] [delete "largura"%string scenario_A] 0 "largura"%string)
    as (msg & w' & Hrun & Htrace & Hmsg).
  - constructor; [vm_compute; reflexivity|]. constructor.
  - vm_compute. reflexivity.
  - exists w'. rewrite <- (Hmsg ltac:(in_list)). split; [exact Hrun|exact Htrace].
Defined.

(** X11 on the two records of [world_pair], one after the other. *)
Lemma X11_witness :
  ∃ ra rb rab,
    Batch.As_predicted rab = Batch.As_predicted ra ++ Batch.As_predicted rb.
Proof.
  destruct (X11_batch_of_concatenation arctan2_example example_predictor world_pair
              [0] [1] [scenario_A] [scenario_A_with_As])
    as (ra & wa & rb & wb & rab & wab & _ & _ & _ & _ & _ & _ & HAs & _).
  - constructor; [vm_compute; reflexivity|]. constructor.
  - constructor; [vm_compute; reflexivity|]. constructor.
  - done.
  - done.
  - constructor; [unfold valid_record; in_list|]. constructor.
  - constructor; [unfold valid_record; in_list|]. constructor.
  - exists ra, rb, rab. exact HAs.
Defined.

(** X12 on the record of scenario A, which has no steel area, in the batch
    of [world_pair], where the other record has one: 0 and NaN. *)
Lemma X12_witness :
  ∃ s b, Single.As_actual s = 0%float ∧ Batch.As_actual b !! 0 = Some Np.nan.
Proof.
  destruct (X12_actual_steel_area arctan2_example example_predictor world_pair
              0 [0; 1] [scenario_A; scenario_A_with_As] 0 scenario_A)
    as (s & ws & b & wb & _ & _ & _ & _ & Hnan).
  - vm_compute. reflexivity.
  - constructor; [vm_compute; reflexivity|].
    constructor; [vm_compute; reflexivity|]. constructor.
  - reflexivity.
  - unfold valid_record. in_list.
  - exists s, b. apply Hnan; [vm_compute; reflexivity|in_list].
Defined.

(** X13 on the record of scenario A and a classifier that answers 2. *)
Lemma X13_witness :
  ∃ s b,
    Single.status s = "Infeasible"%string ∧
    Single.rho_predicted s = 0.0078125%float ∧
    Batch.rho_predicted b !! 0 = Some 0%float.
Proof.
  destruct (X13_label_neither_0_nor_1 arctan2_example label_2_predictor world_pair
              0 [0; 1] [scenario_A; scenario_A_with_As] 0 scenario_A)
    as (s & ws & b & wb & _ & _ & Hst & Hrho & _ & _ & Hb & _).
  - vm_compute. reflexivity.
  - constructor; [vm_compute; reflexivity|].
    constructor; [vm_compute; reflexivity|]. constructor.
  - reflexivity.
  - unfold valid_record. in_list.
  - vm_compute. discriminate.
  - vm_compute. discriminate.
  - exists s, b. split; [exact Hst|]. split; [exact Hrho|exact Hb].
Defined.

(** X14 on the two records of [world_pair]. *)
Lemma X14_witness :
  ∃ res w' X,
    run (predict_batch arctan2_example example_predictor [0; 1]) world_pair =
      (Ok res, w') ∧
    trace w' = [ClassifierPredict X; ClassifierPredictProba X; RegressorPredict X] ∧
    length X = 2.
Proof.
  destruct (X14_batch_invocations arctan2_example example_predictor world_pair
              [0; 1] [scenario_A; scenario_A_with_As])
    as (res & w' & X & Hrun & Htrace & _ & Hlen & _).
  - constructor; [vm_compute; reflexivity|].
    constructor; [vm_compute; reflexivity|]. constructor.
  - in_list.
  - exists res, w', X. split; [exact Hrun|]. split; [exact Htrace|exact Hlen].
Defined.

Section OptimizerExtras.

Variable arctan2 : float → float → float.
Variable predictor : PillarPredictor.
Variable argsort : list float → list nat.
Variables fixed_params loads : gmap string float.
Variable constraints : gmap string Z.
Variable costs : gmap string float.

Local Abbreviation run_optimizer w :=
  (run (find_optimal_width arctan2 predictor argsort fixed_params loads constraints costs) w).

(** X15.  The first row of the table that [find_optimal_width] returns is
    the winner: when some candidate has a total cost below [+infinity],
    the first row is a candidate that the classifier accepts with a
    probability of at least 0.5, and no row of the table costs less. *)
Theorem X15_first_row_wins w grid pe concreto_m3 aco_kg :
  argsort_spec argsort →
  grid_of constraints = Ok grid →
  Forall (has_column (candidate_of fixed_params loads <$> grid)) REQUIRED →
  fixed_params !! "PeDireito" = Some pe →
  costs !! "concreto_m3" = Some concreto_m3 →
  costs !! "aco_kg" = Some aco_kg →
  ∃ df w',
    run_optimizer w = (Ok df, w') ∧
    ∀ k ct,
      Opt.custo_total df !! k = Some ct → PrimFloat.ltb ct Np.inf = true →
      ∃ f0 p0 ct0,
        Opt.is_feasible df !! 0 = Some f0 ∧
        Opt.prob_feasible df !! 0 = Some p0 ∧
        Opt.custo_total df !! 0 = Some ct0 ∧
        f0 ≠ 0%Z ∧ PrimFloat.ltb p0 0.5 = false ∧
        PrimFloat.leb ct0 ct = true ∧
        ∀ k' ct', Opt.custo_total df !! k' = Some ct' → PrimFloat.ltb ct' ct0 = false.
Proof.
  intros Hspec Hgrid Hcols Hpe Hcm Hck.
  destruct (find_optimal_width_returns arctan2 predictor argsort fixed_params loads
              constraints costs w grid pe concreto_m3 aco_kg Hgrid Hcols Hpe Hcm Hck)
    as [w' Hrun].
  set (cands := candidate_of fixed_params loads <$> grid) in *.
  set (pre := annotate arctan2 predictor cands pe concreto_m3 aco_kg) in *.
  exists (sort_values_custo_total argsort pre), w'. split; [exact Hrun|].
  intros k ct Hk Hfin.
  pose proof (nargsort_sorted argsort Hspec (Opt.custo_total pre)) as Hsorted.
  change (Opt.take_col Np.nan (nargsort argsort (Opt.custo_total pre)) (Opt.custo_total pre))
    with (Opt.custo_total (sort_values_custo_total argsort pre)) in Hsorted.
  assert (Hlen : length (Opt.custo_total (sort_values_custo_total argsort pre)) =
                 length cands).
  { unfold sort_values_custo_total, Opt.take. cbn [Opt.custo_total].
    unfold Opt.take_col. rewrite length_fmap.
    pose proof (nargsort_perm argsort Hspec (Opt.custo_total pre)) as Hperm.
    apply Permutation_length in Hperm. rewrite length_seq in Hperm.
    destruct (annotate_lengths arctan2 predictor cands pe concreto_m3 aco_kg) as [Hl _].
    fold pre in Hl. lia. }
  assert (H0 : 0 < length cands).
  { apply lookup_lt_Some in Hk. lia. }
  destruct (optimizer_row arctan2 predictor argsort cands pe concreto_m3 aco_kg 0 Hspec H0)
    as (j & c & Hc & _ & Hf & Hp & _ & _ & _ & _ & _ & _ & _ & _ & Hct).
  fold pre in Hf, Hp, Hct. cbv zeta in Hf, Hp, Hct.
  set (df := sort_values_custo_total argsort pre) in *.
  remember (clf_predict predictor (feature_row arctan2 c)) as f0 eqn:Hf0.
  remember ((clf_predict_proba predictor (feature_row arctan2 c)).2) as p0 eqn:Hp0.
  match type of Hct with _ = Some ?v => remember v as ct0 eqn:Hct0 end.
  assert (Hfirst : Np.isnan ct0 = false ∧ PrimFloat.leb ct0 ct = true).
  { destruct k as [|k].
    - rewrite Hct in Hk. injection Hk as Hk. rewrite Hk.
      pose proof (ltb_not_isnan _ _ Hfin) as Hn. split; [done|]. by apply leb_refl.
    - destruct (Hsorted 0 (S k) ct0 ct ltac:(lia) Hct Hk) as [Hn|[Hn Hle]]; [|done].
      by rewrite (ltb_not_isnan _ _ Hfin) in Hn. }
  destruct Hfirst as [Hn0 Hle].
  pose proof (leb_ltb_trans _ _ _ Hle Hfin) as Hfin0.
  exists f0, p0, ct0. split; [done|]. split; [done|]. split; [done|].
  assert (Hmask : (f0 =? 0)%Z || PrimFloat.ltb p0 0.5 = false).
  { destruct ((f0 =? 0)%Z || PrimFloat.ltb p0 0.5) eqn:E; [|done].
    rewrite Hct0 in Hfin0. by rewrite ltb_inf_inf in Hfin0. }
  apply orb_false_iff in Hmask as [Hfz Hpz].
  split; [by apply Z.eqb_neq|]. split; [done|]. split; [done|].
  intros k' ct' Hk'. destruct k' as [|k'].
  - rewrite Hct in Hk'. injection Hk' as <-. apply leb_not_ltb. by apply leb_refl.
  - destruct (Hsorted 0 (S k') ct0 ct' ltac:(lia) Hct Hk') as [Hn|[_ Hle']].
    + by apply isnan_not_ltb.
    + by apply leb_not_ltb.
Qed.

(** X16.  [find_optimal_width] reads the three limits first: without
    [min_largura], [max_largura] or [step], in that order, it raises the
    [KeyError] of that key, and with a step of 0 a [ValueError]; nothing
    has been created or invoked by then. *)
Theorem X16_limits_read_first w :
  (constraints !! "min_largura" = None →
   run (find_optimal_width arctan2 predictor argsort fixed_params loads constraints costs) w =
     (Raise (KeyError "min_largura"), w))
  ∧
  (is_Some (constraints !! "min_largura") → constraints !! "max_largura" = None →
   run (find_optimal_width arctan2 predictor argsort fixed_params loads constraints costs) w =
     (Raise (KeyError "max_largura"), w))
  ∧
  (is_Some (constraints !! "min_largura") → is_Some (constraints !! "max_largura") →
   constraints !! "step" = None →
   run (find_optimal_width arctan2 predictor argsort fixed_params loads constraints costs) w =
     (Raise (KeyError "step"), w))
  ∧
  (is_Some (constraints !! "min_largura") → is_Some (constraints !! "max_largura") →
   constraints !! "step" = Some 0%Z →
   run (find_optimal_width arctan2 predictor argsort fixed_params loads constraints costs) w =
     (Raise ValueError, w)).
Proof.
  unfold find_optimal_width. split; [|split; [|split]].
  - intros Hmin. rewrite run_lift_bind. unfold Py.getitem. by rewrite Hmin.
  - intros [lo Hmin] Hmax. rewrite run_lift_bind. unfold Py.getitem at 1. rewrite Hmin.
    rewrite run_lift_bind. unfold Py.getitem. by rewrite Hmax.
  - intros [lo Hmin] [hi Hmax] Hst. rewrite run_lift_bind. unfold Py.getitem at 1.
    rewrite Hmin. rewrite run_lift_bind. unfold Py.getitem at 1. rewrite Hmax.
    rewrite run_lift_bind. unfold Py.getitem. by rewrite Hst.
  - intros [lo Hmin] [hi Hmax] Hst. rewrite run_lift_bind. unfold Py.getitem at 1.
    rewrite Hmin. rewrite run_lift_bind. unfold Py.getitem at 1. rewrite Hmax.
    rewrite run_lift_bind. unfold Py.getitem at 1. rewrite Hst.
    by rewrite run_lift_bind.
Qed.

(** X17.  With [max_largura] below [min_largura] and a positive step the
    grid is empty, and [find_optimal_width] does not return an empty
    table: it raises the [KeyError] of [largura], which comes from the
    batch prediction on no record, and no model has been invoked. *)
Theorem X17_empty_grid w lo hi st :
  constraints !! "min_largura" = Some lo →
  constraints !! "max_largura" = Some hi →
  constraints !! "step" = Some st →
  (0 < st)%Z → (hi < lo)%Z →
  grid_of constraints = Ok [] ∧
  ∃ w', run_optimizer w = (Raise (KeyError "largura"), w') ∧ trace w' = trace w.
Proof.
  intros Hmin Hmax Hst Hpos Hlt.
  assert (Hrange : Py.range lo (hi + 1) st = Ok []).
  { unfold Py.range. destruct (Z.eqb_spec st 0) as [|_]; [lia|].
    destruct (Z.ltb_spec 0 st) as [_|]; [|lia].
    by replace (Z.to_nat (hi + 1 - lo)) with 0 by lia. }
  split.
  { unfold grid_of, Py.getitem. rewrite Hmin, Hmax, Hst. by rewrite !result_bind_ok. }
  edestruct (features_raise arctan2 (B := Batch.t)) as (msg & h & _ & Hmsg & Hpb).
  { constructor. }
  { instantiate (1 := "largura"%string). instantiate (1 := 0). reflexivity. }
  rewrite (Hmsg ltac:(in_list)) in Hpb.
  exists (mkWorld h (trace w)). split; [|done].
  unfold find_optimal_width, Py.getitem. rewrite Hmin, Hmax, Hst.
  rewrite !run_lift_bind, Hrange. cbn [mapM]. rewrite run_bind, run_ret.
  rewrite run_bind. unfold predict_batch. by rewrite Hpb.
Qed.

(** X18.  The clear height of the fixed parameters and the two prices are
    read after the batch prediction: with a grid and the required columns,
    a missing [PeDireito] in the fixed parameters, or else a missing
    [concreto_m3], or else a missing [aco_kg], in that order, raises the
    [KeyError] of that key once the three model invocations have been
    made. *)
Theorem X18_prices_read_after_prediction w grid :
  grid_of constraints = Ok grid →
  Forall (has_column (candidate_of fixed_params loads <$> grid)) REQUIRED →
  let after := trace w ++ batch_trace arctan2 (candidate_of fixed_params loads <$> grid) in
  (fixed_params !! "PeDireito" = None →
   ∃ w', run_optimizer w = (Raise (KeyError "PeDireito"), w') ∧ trace w' = after)
  ∧
  (is_Some (fixed_params !! "PeDireito") → costs !! "concreto_m3" = None →
   ∃ w', run_optimizer w = (Raise (KeyError "concreto_m3"), w') ∧ trace w' = after)
  ∧
  (is_Some (fixed_params !! "PeDireito") → is_Some (costs !! "concreto_m3") →
   costs !! "aco_kg" = None →
   ∃ w', run_optimizer w = (Raise (KeyError "aco_kg"), w') ∧ trace w' = after).
Proof.
  intros Hgrid Hcols after.
  destruct (find_optimal_width_run arctan2 predictor argsort fixed_params loads
              constraints costs w grid Hgrid Hcols) as (h & _ & Hrun).
  unfold after_batch, Py.getitem in Hrun.
  split; [|split].
  - intros Hpe. rewrite Hpe in Hrun. by eexists.
  - intros [pe Hpe] Hcm. rewrite Hpe, Hcm in Hrun. by eexists.
  - intros [pe Hpe] [cm Hcm] Hck. rewrite Hpe, Hcm, Hck in Hrun. by eexists.
Qed.


(** X20.  The sort keeps the rows whole: in every row of the table
    returned the width is one of the grid, [Ac] is the product of that
    row's width and height, [As_actual] is the 0 that the optimizer gives
    its candidates, and the steel is that row's own ratio times [Ac] under
    the label 1 and 0, like the ratio, under any other label. *)
Theorem X20_rows_kept_whole w grid pe concreto_m3 aco_kg :
  argsort_spec argsort →
  grid_of constraints = Ok grid →
  Forall (has_column (candidate_of fixed_params loads <$> grid)) REQUIRED →
  fixed_params !! "PeDireito" = Some pe →
  costs !! "concreto_m3" = Some concreto_m3 →
  costs !! "aco_kg" = Some aco_kg →
  ∃ df w',
    run_optimizer w = (Ok df, w') ∧
    ∀ k, k < length grid →
      ∃ b f rho As_ Ac ht,
        b ∈ grid ∧
        Opt.largura df !! k = Some (Np.of_int b) ∧
        Opt.Altura df !! k = Some ht ∧
        Opt.is_feasible df !! k = Some f ∧
        Opt.rho_predicted df !! k = Some rho ∧
        Opt.As_predicted df !! k = Some As_ ∧
        Opt.Ac df !! k = Some Ac ∧
        Opt.As_actual df !! k = Some 0%float ∧
        Ac = PrimFloat.mul (Np.of_int b) ht ∧
        (f = 1%Z → As_ = PrimFloat.mul rho Ac) ∧
        (f ≠ 1%Z → rho = 0%float ∧ As_ = 0%float).
Proof.
  intros Hspec Hgrid Hcols Hpe Hcm Hck.
  destruct (find_optimal_width_returns arctan2 predictor argsort fixed_params loads
              constraints costs w grid pe concreto_m3 aco_kg Hgrid Hcols Hpe Hcm Hck)
    as [w' Hrun].
  eexists _, _. split; [exact Hrun|]. intros k Hk.
  set (cands := candidate_of fixed_params loads <$> grid) in *.
  assert (Hk' : k < length cands) by (unfold cands; by rewrite length_fmap).
  destruct (optimizer_row arctan2 predictor argsort cands pe concreto_m3 aco_kg k Hspec Hk')
    as (j & c & Hc & _ & Hf & _ & Hrho & HAs & Hact & HAc & Hwd & Hht & _).
  unfold cands in Hc. rewrite list_lookup_fmap in Hc.
  destruct (grid !! j) as [b|] eqn:Hb; [|done]. injection Hc as <-.
  assert (Hcol : has_column cands "As").
  { apply Exists_exists. exists (candidate_of fixed_params loads b). split.
    - apply list_elem_of_fmap. exists b. split; [done|]. by eapply list_elem_of_lookup_2.
    - rewrite candidate_lookup. by eexists. }
  rewrite decide_True in Hact by done.
  assert (Hzero : Pd.cell "As" (candidate_of fixed_params loads b) = 0%float).
  { unfold Pd.cell. by rewrite candidate_lookup. }
  rewrite Hzero in Hact.
  rewrite (candidate_largura fixed_params loads b) in Hwd.
  eexists b, _, _, _, _, _. split; [by eapply list_elem_of_lookup_2|].
  split; [exact Hwd|]. split; [exact Hht|]. split; [exact Hf|]. split; [exact Hrho|].
  split; [exact HAs|]. split; [exact HAc|]. split; [exact Hact|].
  split; [unfold area; by rewrite candidate_largura|].
  split.
  - intros ->. done.
  - intros Hne. apply Z.eqb_neq in Hne. by rewrite Hne.
Qed.

End OptimizerExtras.

(** X15 at scenario C: the cheapest row is first. *)
Lemma X15_witness :
  ∃ df w' f0,
    run (find_optimal_width arctan2_example example_predictor argsort_ties_kept
           fixed_C loads_C constraints_C costs_C) world_empty = (Ok df, w') ∧
    Opt.is_feasible df !! 0 = Some f0 ∧ f0 ≠ 0%Z.
Proof.
  destruct (X15_first_row_wins arctan2_example example_predictor argsort_ties_kept
              fixed_C loads_C constraints_C costs_C world_empty
              [20; 25; 30; 35; 40; 45; 50]%Z 235%float 450%float 12%float)
    as (df & w' & Hrun & Hwin).
  - apply argsort_ties_kept_spec.
  - reflexivity.
  - in_list.
  - reflexivity.
  - reflexivity.
  - reflexivity.
  - assert (Hrow : ∃ df0 w0 ct,
              run (find_optimal_width arctan2_example example_predictor argsort_ties_kept
                     fixed_C loads_C constraints_C costs_C) world_empty = (Ok df0, w0) ∧
              Opt.custo_total df0 !! 0 = Some ct ∧ PrimFloat.ltb ct Np.inf = true).
    { eexists _, _, _. split; [vm_compute; reflexivity|].
      split; vm_compute; reflexivity. }
    destruct Hrow as (df0 & w0 & ct & Hrun0 & Hct & Hfin).
    rewrite Hrun in Hrun0. injection Hrun0 as <- <-.
    destruct (Hwin 0 ct Hct Hfin) as (f0 & p0 & ct0 & Hf0 & _ & _ & Hne & _).
    exists df, w', f0. split; [exact Hrun|]. split; [exact Hf0|exact Hne].
Defined.

(** X16 without constraints. *)
Lemma X16_witness :
  run (find_optimal_width arctan2_example example_predictor argsort_ties_kept
         fixed_C loads_C ∅ costs_C) world_empty =
    (Raise (KeyError "min_largura"), world_empty).
Proof.
  apply (proj1 (X16_limits_read_first arctan2_example example_predictor argsort_ties_kept
                  fixed_C loads_C ∅ costs_C world_empty)).
  reflexivity.
Defined.

(** X17 with the limits of scenario C exchanged. *)
Lemma X17_witness :
  ∃ w', run (find_optimal_width arctan2_example example_predictor argsort_ties_kept
               fixed_C loads_C constraints_exchanged costs_C) world_empty =
          (Raise (KeyError "largura"), w') ∧
        trace w' = [].
Proof.
  apply (X17_empty_grid arctan2_example example_predictor argsort_ties_kept
           fixed_C loads_C constraints_exchanged costs_C world_empty 50 20 5).
  - reflexivity.
  - reflexivity.
  - reflexivity.
  - lia.
  - lia.
Defined.

(** X18 at scenario C without prices. *)
Lemma X18_witness :
  ∃ w', run (find_optimal_width arctan2_example example_predictor argsort_ties_kept
               fixed_C loads_C constraints_C ∅) world_empty =
          (Raise (KeyError "concreto_m3"), w') ∧
        length (trace w') = 3.
Proof.
  destruct (proj1 (proj2 (X18_prices_read_after_prediction arctan2_example example_predictor
                            argsort_ties_kept fixed_C loads_C constraints_C ∅ world_empty
                            [20; 25; 30; 35; 40; 45; 50]%Z
                            ltac:(reflexivity) ltac:(in_list))))
    as (w' & Hrun & Htrace).
  - by eexists.
  - reflexivity.
  - exists w'. split; [exact Hrun|]. by rewrite Htrace.
Defined.


(** X20 at scenario C: the first row of the table. *)
Lemma X20_witness :
  ∃ df Ac b ht,
    Opt.Ac df !! 0 = Some Ac ∧ Opt.largura df !! 0 = Some (Np.of_int b) ∧
    Opt.Altura df !! 0 = Some ht ∧ Ac = PrimFloat.mul (Np.of_int b) ht.
Proof.
  destruct (X20_rows_kept_whole arctan2_example example_predictor argsort_ties_kept
              fixed_C loads_C constraints_C costs_C world_empty
              [20; 25; 30; 35; 40; 45; 50]%Z 235%float 450%float 12%float)
    as (df & w' & _ & Hrows).
  - apply argsort_ties_kept_spec.
  - reflexivity.
  - in_list.
  - reflexivity.
  - reflexivity.
  - reflexivity.
  - destruct (Hrows 0) as (b & f & rho & As_ & Ac & ht & _ & Hwd & Hht & _ & _ & _ &
                           HAc & _ & Heq & _); [cbn; lia|].
    exists df, Ac, b, ht. split; [exact HAc|]. split; [exact Hwd|].
    split; [exact Hht|exact Heq].
Defined.

Section OptimizerExtras2.

Variable arctan2 : float → float → float.
Variable predictor : PillarPredictor.
Variable argsort : list float → list nat.
Variables fixed_params loads : gmap string float.
Variable constraints : gmap string Z.
Variable costs : gmap string float.

Local Abbreviation run_optimizer w :=
  (run (find_optimal_width arctan2 predictor argsort fixed_params loads constraints costs) w).

(** X21.  An input that neither the loads nor the fixed parameters give
    stops [find_optimal_width] before any model is invoked: with a grid
    that has a width, the first of PeDireito, fck, the six efforts and
    Cobrimento, in the order PeDireito, fck, N_top, N_base, Mx_top,
    Mx_base, My_top, My_base, Cobrimento, that is in neither dict raises a
    [KeyError], the one of that key when it is not Cobrimento. *)
Theorem X21_incomplete_inputs w grid j key :
  grid_of constraints = Ok grid →
  grid ≠ [] →
  list_find (λ k, k ≠ "largura"%string ∧ k ≠ "Altura"%string ∧ k ≠ "As"%string ∧
                  loads !! k = None ∧ fixed_params !! k = None) REQUIRED = Some (j, key) →
  ∃ msg w',
    run_optimizer w = (Raise (KeyError msg), w') ∧
    trace w' = trace w ∧
    (key ≠ "Cobrimento"%string → msg = key).
Proof.
  intros Hgrid Hne Hfind.
  assert (Hfind' : list_find (λ k, ¬ has_column (candidate_of fixed_params loads <$> grid) k)
                     REQUIRED = Some (j, key)).
  { rewrite <- Hfind. apply list_find_ext. intros k. by apply candidates_lack. }
  destruct (run_make_candidates fixed_params loads w grid) as (locs & h1 & _ & Hds & Hmk).
  epose proof (features_raise arctan2 (B := Batch.t) _ (mkWorld h1 (trace w)) locs _ j key
                 Hds Hfind') as (msg & h & _ & Hmsg & Hpb).
  exists msg, (mkWorld h (trace w)). split; [|split; [done|]].
  - revert Hgrid. unfold grid_of, find_optimal_width.
    rewrite run_lift_bind.
    destruct (Py.getitem constraints "min_largura") as [lo|]; [|done].
    rewrite result_bind_ok, run_lift_bind.
    destruct (Py.getitem constraints "max_largura") as [hi|]; [|done].
    rewrite result_bind_ok, run_lift_bind.
    destruct (Py.getitem constraints "step") as [st|]; [|done].
    rewrite result_bind_ok, run_lift_bind. intros ->.
    rewrite run_bind, Hmk. rewrite run_bind. unfold predict_batch.
    cbn [trace] in Hpb. by rewrite Hpb.
  - intros Hcob. apply Hmsg.
    apply list_find_Some in Hfind as (Hkey%list_elem_of_lookup_2 & _).
    unfold REQUIRED in Hkey. apply elem_of_app in Hkey as [Hkey|Hkey]; [done|].
    by apply list_elem_of_singleton in Hkey.
Qed.

(** X22.  Every width of the grid has its row in the table that
    [find_optimal_width] returns, and, for a label of 0 or 1, the row shows
    what [predict_single] returns for the candidate of that width: the
    same probability, cross-section, steel ratio and steel area, and the
    label 1 exactly when the status is Feasible. *)
Theorem X22_rows_are_single_predictions w grid pe concreto_m3 aco_kg i b w2 p :
  argsort_spec argsort →
  grid_of constraints = Ok grid →
  Forall (has_column (candidate_of fixed_params loads <$> grid)) REQUIRED →
  fixed_params !! "PeDireito" = Some pe →
  costs !! "concreto_m3" = Some concreto_m3 →
  costs !! "aco_kg" = Some aco_kg →
  grid !! i = Some b →
  heap w2 !! p = Some (ODict (candidate_of fixed_params loads b)) →
  (clf_predict predictor (feature_row arctan2 (candidate_of fixed_params loads b)) = 0%Z ∨
   clf_predict predictor (feature_row arctan2 (candidate_of fixed_params loads b)) = 1%Z) →
  ∃ df w' s ws k label,
    run_optimizer w = (Ok df, w') ∧
    run (predict_single arctan2 predictor p) w2 = (Ok s, ws) ∧
    Opt.largura df !! k = Some (Np.of_int b) ∧
    Opt.is_feasible df !! k = Some label ∧
    (Single.status s = "Feasible"%string ↔ label = 1%Z) ∧
    Opt.prob_feasible df !! k = Some (Single.feasibility_prob s) ∧
    Opt.Ac df !! k = Some (Single.Ac s) ∧
    Opt.rho_predicted df !! k = Some (Single.rho_predicted s) ∧
    Opt.As_predicted df !! k = Some (Single.As_predicted s).
Proof.
  intros Hspec Hgrid Hcols Hpe Hcm Hck Hi Hp Hlabel.
  destruct (find_optimal_width_returns arctan2 predictor argsort fixed_params loads
              constraints costs w grid pe concreto_m3 aco_kg Hgrid Hcols Hpe Hcm Hck)
    as [w' Hrun].
  set (cands := candidate_of fixed_params loads <$> grid) in *.
  set (c := candidate_of fixed_params loads b) in *.
  assert (Hc : cands !! i = Some c) by (unfold cands; by rewrite list_lookup_fmap, Hi).
  destruct (predict_single_run arctan2 predictor w2 p c Hp) as (hs & _ & Hs).
  { eapply Forall_impl; [exact Hcols|]. intros key Hkey. cbv beta in *.
    apply has_column_singleton.
    apply Exists_exists in Hkey as (c' & Hc' & Hsome).
    apply list_elem_of_fmap in Hc' as (b' & -> & _).
    by apply (candidate_keys fixed_params loads b'). }
  set (pre := annotate arctan2 predictor cands pe concreto_m3 aco_kg) in *.
  pose proof (nargsort_perm argsort Hspec (Opt.custo_total pre)) as Hperm.
  destruct (annotate_lengths arctan2 predictor cands pe concreto_m3 aco_kg) as [Hlen _].
  fold pre in Hlen.
  assert (Hin : i ∈ nargsort argsort (Opt.custo_total pre)).
  { rewrite Hperm, Hlen. apply elem_of_seq. apply lookup_lt_Some in Hc. lia. }
  apply list_elem_of_lookup in Hin as [k Hk].
  assert (Hklt : k < length cands).
  { apply lookup_lt_Some in Hk. apply Permutation_length in Hperm.
    rewrite length_seq in Hperm. lia. }
  destruct (optimizer_row arctan2 predictor argsort cands pe concreto_m3 aco_kg k Hspec Hklt)
    as (j & c' & Hc' & Hj & Hf & Hprob & Hrho & HAs & _ & HAc & Hwd & _).
  fold pre in Hj. rewrite Hk in Hj. injection Hj as <-.
  rewrite Hc in Hc'. injection Hc' as <-.
  unfold c in Hwd. rewrite candidate_largura in Hwd.
  subst pre.
  eexists _, _, _, _, k, _. split; [exact Hrun|]. split; [exact Hs|].
  split; [exact Hwd|]. split; [exact Hf|].
  rewrite Hprob, HAc, Hrho, HAs. unfold single_result. cbv zeta.
  destruct Hlabel as [-> | ->]; cbn [Z.eqb Pos.eqb].
  - done.
  - by destruct (PrimFloat.ltb 0 (default 0%float (c !! "As"))).
Qed.

End OptimizerExtras2.

(** X21 at scenario C without the concrete strength. *)
Lemma X21_witness :
  ∃ msg w',
    run (find_optimal_width arctan2_example example_predictor argsort_ties_kept
           (delete "fck"%string fixed_C) loads_C constraints_C costs_C) world_empty =
      (Raise (KeyError msg), w') ∧
    trace w' = [] ∧ msg = "fck"%string.
Proof.
  destruct (X21_incomplete_inputs arctan2_example example_predictor argsort_ties_kept
              (delete "fck"%string fixed_C) loads_C constraints_C costs_C world_empty
              [20; 25; 30; 35; 40; 45; 50]%Z 3 "fck"%string)
    as (msg & w' & Hrun & Htrace & Hmsg).
  - reflexivity.
  - done.
  - vm_compute. reflexivity.
  - exists msg, w'. split; [exact Hrun|]. split; [exact Htrace|]. by apply Hmsg.
Defined.

(** X22 at scenario C, for the width of 30 cm. *)
Lemma X22_witness :
  ∃ df s k,
    Opt.largura df !! k = Some 30%float ∧
    Opt.As_predicted df !! k = Some (Single.As_predicted s).
Proof.
  destruct (X22_rows_are_single_predictions arctan2_example example_predictor
              argsort_ties_kept fixed_C loads_C constraints_C costs_C world_empty
              [20; 25; 30; 35; 40; 45; 50]%Z 235%float 450%float 12%float 2 30%Z
              (mkWorld {[ 0 := ODict (candidate_of fixed_C loads_C 30) ]} []) 0)
    as (df & w' & s & ws & k & label & _ & _ & Hwd & _ & _ & _ & _ & _ & HAs).
  - apply argsort_ties_kept_spec.
  - reflexivity.
  - in_list.
  - reflexivity.
  - reflexivity.
  - reflexivity.
  - reflexivity.
  - vm_compute. reflexivity.
  - right. vm_compute. reflexivity.
  - exists df, s, k. split; [exact Hwd|exact HAs].
Defined.
